(** * FSP v2 client (github.com/finove/fsp): packet codec, key store,
      transaction engine, directory decoder and file handles.

    A shallow embedding of [packet.go], [session.go], [file.go] and
    [fsp.go].  Go's fixed-width integers are [Z] with the wrap-around
    written at every operation that can overflow; bytes are [Byte.byte];
    Go strings and byte slices are lists of bytes, a slice that is
    appended to or re-sliced carries its backing array so that capacity
    is visible; the network, the clock and the random source are oracle
    lists consumed in order. *)

From Stdlib Require Import ZArith List Lia Bool.
From Stdlib Require Import Strings.Byte.
Import ListNotations.
Local Open Scope Z_scope.

(* ------------------------------------------------------------------ *)
(** ** Bytes and fixed-width integers *)

Definition b2z (b : byte) : Z := Z.of_N (Byte.to_N b).

(** Conversion [byte(v)] / [uint8(v)]: keeps the low eight bits. *)
Definition z2b (z : Z) : byte :=
  match Byte.of_N (Z.to_N (z mod 256)) with
  | Some b => b
  | None => x00
  end.

Definition uint8 (z : Z) : Z := z mod 2 ^ 8.
Definition uint16 (z : Z) : Z := z mod 2 ^ 16.
Definition uint32 (z : Z) : Z := z mod 2 ^ 32.
Definition uint64 (z : Z) : Z := z mod 2 ^ 64.
(** Go's [int] on a 64-bit platform (two's complement). *)
Definition int64 (z : Z) : Z := (z + 2 ^ 63) mod 2 ^ 64 - 2 ^ 63.

(** [encoding/binary.BigEndian] *)
Definition PutUint16 (v : Z) : list byte := [z2b (Z.shiftr v 8); z2b v].
Definition PutUint32 (v : Z) : list byte :=
  [z2b (Z.shiftr v 24); z2b (Z.shiftr v 16); z2b (Z.shiftr v 8); z2b v].
Definition Uint16 (b0 b1 : byte) : Z :=
  Z.lor (b2z b1) (Z.shiftl (b2z b0) 8).
Definition Uint32 (b0 b1 b2 b3 : byte) : Z :=
  Z.lor (Z.lor (Z.lor (b2z b3) (Z.shiftl (b2z b2) 8))
               (Z.shiftl (b2z b1) 16))
        (Z.shiftl (b2z b0) 24).

(** [for _, b := range l { acc += int(b) }] *)
Definition sumBytes (l : list byte) : Z :=
  fold_left (fun acc b => acc + b2z b) l 0.

Definition zlen {A} (l : list A) : Z := Z.of_nat (length l).

Definition zeros (n : nat) : list byte := repeat x00 n.

(* ------------------------------------------------------------------ *)
(** ** Results of Go code that may panic *)

Inductive panic := IndexOutOfRange | SliceBounds | DivideByZero.

(** [Spin] is not an outcome of the program: it marks a loop of the
    model that used up the steps it was given. *)
Inductive result (A : Type) : Type :=
| Ret (a : A)
| Panic (p : panic)
| Spin.
Arguments Ret {A} a.
Arguments Panic {A} p.
Arguments Spin {A}.

Definition bind {A B} (m : result A) (k : A -> result B) : result B :=
  match m with
  | Ret a => k a
  | Panic p => Panic p
  | Spin => Spin
  end.

Notation "x <- m ;; k" := (bind m (fun x => k))
  (at level 61, m at next level, right associativity).
Notation "' pat <- m ;; k" := (bind m (fun x => match x with pat => k end))
  (at level 61, pat pattern, m at next level, right associativity).

(* ------------------------------------------------------------------ *)
(** ** Byte slices with capacity

    [arr] is the backing array from the slice's first element up to its
    capacity, [slen] the slice's length; [cap = length arr].  Memory
    obtained from the allocator is zeroed. *)

Record slice := mkSlice { arr : list byte; slen : nat }.

Definition nilSlice : slice := mkSlice [] 0.
Definition cap (s : slice) : nat := length (arr s).
(** [make([]byte, n)] *)
Definition make (n : nat) : slice := mkSlice (zeros n) n.
(** The elements of the slice, [s[0:len(s)]]. *)
Definition elems (s : slice) : list byte := firstn (slen s) (arr s).

Section Client.

(** [growslice cap needed]: the capacity the runtime picks when an
    append outgrows the backing array.  The runtime rounds the needed
    size up to an allocation class; only [needed <= new capacity] is
    guaranteed, which [Nat.max] enforces whatever the policy. *)
Variable growslice : nat -> nat -> nat.

(** [append(s, xs...)] *)
Definition append (s : slice) (xs : list byte) : slice :=
  let n := (slen s + length xs)%nat in
  if (n <=? cap s)%nat
  then mkSlice (firstn (slen s) (arr s) ++ xs ++ skipn n (arr s)) n
  else let c := Nat.max n (growslice (cap s) n) in
       mkSlice (firstn (slen s) (arr s) ++ xs ++ zeros (c - n)) n.

(** [s[lo:hi]] read as a list; legal up to the capacity. *)
Definition subSlice (s : slice) (lo hi : Z) : result (list byte) :=
  if (0 <=? lo) && (lo <=? hi) && (hi <=? Z.of_nat (cap s))
  then Ret (firstn (Z.to_nat (hi - lo)) (skipn (Z.to_nat lo) (arr s)))
  else Panic SliceBounds.

(** [copy(s[lo:], src)]: [s[lo:]] ends at [len(s)], so at most
    [len(s) - lo] bytes are written. *)
Definition copyAt (s : slice) (lo : Z) (src : list byte) : result slice :=
  if (0 <=? lo) && (lo <=? Z.of_nat (slen s))
  then
    let l := Z.to_nat lo in
    let n := Nat.min (slen s - l) (length src) in
    Ret (mkSlice (firstn l (arr s) ++ firstn n src ++ skipn (l + n) (arr s))
                 (slen s))
  else Panic SliceBounds.

(** [s[i]] *)
Definition index (s : slice) (i : Z) : result byte :=
  if (0 <=? i) && (i <? Z.of_nat (slen s))
  then Ret (nth (Z.to_nat i) (arr s) x00)
  else Panic IndexOutOfRange.

(** [binary.BigEndian.PutUint32(s[lo:], v)]: needs four bytes below
    [len(s)]. *)
Definition putUint32At (s : slice) (lo v : Z) : result slice :=
  if (0 <=? lo) && (lo <=? Z.of_nat (slen s))
  then if lo + 4 <=? Z.of_nat (slen s)
       then copyAt s lo (PutUint32 v)
       else Panic IndexOutOfRange
  else Panic SliceBounds.

(** [l[i]] on a slice whose capacity plays no part. *)
Definition idx (l : list byte) (i : Z) : result byte :=
  if (0 <=? i) && (i <? zlen l)
  then Ret (nth (Z.to_nat i) l x00)
  else Panic IndexOutOfRange.

(** [binary.BigEndian.Uint32(l[i:])] *)
Definition uint32At (l : list byte) (i : Z) : result Z :=
  if (0 <=? i) && (i <=? zlen l)
  then if i + 4 <=? zlen l
       then Ret (Uint32 (nth (Z.to_nat i) l x00) (nth (Z.to_nat i + 1) l x00)
                        (nth (Z.to_nat i + 2) l x00) (nth (Z.to_nat i + 3) l x00))
       else Panic IndexOutOfRange
  else Panic SliceBounds.

(* ------------------------------------------------------------------ *)
(** ** packet.go: constants *)

Definition FSPCommandVersion : Z := 0x10.
Definition FSPCommandInfo : Z := 0x11.
Definition FSPCommandErr : Z := 0x40.
Definition FSPCommandGetDir : Z := 0x41.
Definition FSPCommandGetFile : Z := 0x42.
Definition FSPCommandUpload : Z := 0x43.
Definition FSPCommandInstall : Z := 0x44.
Definition FSPCommandGetPro : Z := 0x47.
Definition FSPCommandGrabFile : Z := 0x4B.
Definition FSPCommandRename : Z := 0x4E.

Definition FSPHSzie : Z := 12.
Definition FSPSpace : Z := 14708.
Definition FSPMaxPacket : Z := FSPHSzie + FSPSpace.

Definition fspOffsetSum : nat := 1.
Definition FSPProBytes : Z := 1.

(** The errors built by [newOpError] and [&OpError{...}], one
    constructor per message. *)
Inductive fspError :=
| ErrRecvTooShort          (* "recv packet too short" *)
| ErrRecvTooLong           (* "recv packet too long" *)
| ErrChecksum (mySum got : Z)  (* "checksum fail, mySum %x, got %x" *)
| ErrLengthField           (* "fsp packet length field invalid" *)
| ErrFileNameTooLong       (* "file name too long" *)
| ErrPayloadTooBig         (* "packet payload too big" *)
| ErrSend                  (* WriteToUDP failed *)
| ErrTimeout               (* "transaction timeout" *)
| ErrServer (c : Z) (reason : list byte)  (* OpError{Cmd, Reason} *)
| ErrBadFile               (* "bad file" *)
| ErrENOMSG.               (* "GetProtecion ENOMSG" *)

Record fspPacket := mkPacket {
  cmd : Z;    (* uint8 *)
  sum : Z;    (* uint8 *)
  key : Z;    (* uint16 *)
  seq : Z;    (* uint16 *)
  len : Z;    (* uint16 *)
  pos : Z;    (* uint32 *)
  xlen : Z;   (* uint16 *)
  buf : slice
}.

(** [var pkt fspPacket] *)
Definition zeroPacket : fspPacket := mkPacket 0 0 0 0 0 0 0 nilSlice.

Definition set_cmd v p := mkPacket v (sum p) (key p) (seq p) (len p) (pos p) (xlen p) (buf p).
Definition set_key v p := mkPacket (cmd p) (sum p) v (seq p) (len p) (pos p) (xlen p) (buf p).
Definition set_seq v p := mkPacket (cmd p) (sum p) (key p) v (len p) (pos p) (xlen p) (buf p).
Definition set_len v p := mkPacket (cmd p) (sum p) (key p) (seq p) v (pos p) (xlen p) (buf p).
Definition set_pos v p := mkPacket (cmd p) (sum p) (key p) (seq p) (len p) v (xlen p) (buf p).
Definition set_xlen v p := mkPacket (cmd p) (sum p) (key p) (seq p) (len p) (pos p) v (buf p).
Definition set_buf v p := mkPacket (cmd p) (sum p) (key p) (seq p) (len p) (pos p) (xlen p) v.

(** Well-typed packets: every field within its Go type. *)
Definition wfPacket (p : fspPacket) : Prop :=
  0 <= cmd p < 2 ^ 8 /\ 0 <= key p < 2 ^ 16 /\ 0 <= seq p < 2 ^ 16 /\
  0 <= len p < 2 ^ 16 /\ 0 <= pos p < 2 ^ 32 /\ 0 <= xlen p < 2 ^ 16.

(** The two payload regions of a packet about to be sent. *)
Definition regionA (p : fspPacket) : list byte :=
  firstn (Z.to_nat (len p)) (arr (buf p)).
Definition regionB (p : fspPacket) : list byte :=
  firstn (Z.to_nat (xlen p)) (skipn (Z.to_nat (len p)) (arr (buf p))).

(* ------------------------------------------------------------------ *)
(** ** packet.go: read *)

(** The fold of the receive path: [(s + (s >> 8)) & 0xff]. *)
Definition fold8 (s : Z) : Z := Z.land (s + Z.shiftr s 8) 0xff.

(** [mySum] as [read] computes it: the sum of all bytes, minus the sum
    byte, folded.  The datagram length is not added. *)
Definition recvSum (buff : list byte) : Z :=
  fold8 (sumBytes buff - b2z (nth fspOffsetSum buff x00)).

(** [func (pkt *fspPacket) read(buff []byte) (err error)].  The
    receiver is mutated in place, so the packet is returned also when
    an error is. *)
Definition read (pkt : fspPacket) (buff : list byte)
  : fspPacket * option fspError :=
  if zlen buff <? FSPHSzie then (pkt, Some ErrRecvTooShort)
  else if zlen buff >? FSPMaxPacket then (pkt, Some ErrRecvTooLong)
  else
    let mySum := recvSum buff in
    let got := b2z (nth fspOffsetSum buff x00) in
    if negb (mySum =? got) then (pkt, Some (ErrChecksum mySum got))
    else
      let pkt1 :=
        mkPacket (b2z (nth 0 buff x00))
                 (uint8 mySum)
                 (Uint16 (nth 2 buff x00) (nth 3 buff x00))
                 (Uint16 (nth 4 buff x00) (nth 5 buff x00))
                 (Uint16 (nth 6 buff x00) (nth 7 buff x00))
                 (Uint32 (nth 8 buff x00) (nth 9 buff x00)
                         (nth 10 buff x00) (nth 11 buff x00))
                 (xlen pkt) (buf pkt) in
      if len pkt1 + FSPHSzie >? zlen buff then (pkt1, Some ErrLengthField)
      else
        let payload := skipn (Z.to_nat FSPHSzie) buff in
        (set_buf (mkSlice payload (length payload))
           (set_xlen (uint16 (uint16 (zlen buff) - len pkt1 - FSPHSzie)) pkt1),
         None).

(* ------------------------------------------------------------------ *)
(** ** packet.go: buildFileName *)

(** [func (pkt *fspPacket) buildFileName(fileName, password string)] *)
Definition buildFileName (pkt : fspPacket) (fileName password : list byte)
  : fspPacket * option fspError :=
  if zlen fileName + zlen password + 2 >=? FSPSpace
  then (pkt, Some ErrFileNameTooLong)
  else
    let pkt := set_buf (append (buf pkt) fileName) pkt in
    let pkt := set_len (uint16 (zlen fileName)) pkt in
    let pkt :=
      match password with
      | [] => pkt
      | _ :: _ =>
        let pkt := set_buf (append (buf pkt) [x0a]) pkt in
        let pkt := set_len (uint16 (len pkt + 1)) pkt in
        let pkt := set_buf (append (buf pkt) password) pkt in
        set_len (uint16 (len pkt + uint16 (zlen password))) pkt
      end in
    let pkt := set_buf (append (buf pkt) [x00]) pkt in
    (set_len (uint16 (len pkt + 1)) pkt, None).

(** What the builder is meant to put in region A. *)
Definition fileNamePayload (fileName password : list byte) : list byte :=
  match password with
  | [] => fileName ++ [x00]
  | _ :: _ => fileName ++ [x0a] ++ password ++ [x00]
  end.

(* ------------------------------------------------------------------ *)
(** ** packet.go: write *)

(** [l[i] = v] on a list known to be long enough. *)
Fixpoint setByte (i : nat) (v : byte) (l : list byte) : list byte :=
  match l, i with
  | [], _ => []
  | _ :: t, O => v :: t
  | h :: t, S j => h :: setByte j v t
  end.

(** The checksum byte of an outgoing datagram:
    [uint8(checksum + (checksum >> 8))] with the length added in. *)
Definition sendSum (body : list byte) (used : Z) : Z :=
  let checksum := sumBytes body + used in
  uint8 (checksum + Z.shiftr checksum 8).

(** Lines 129-161 of [write]: the datagram handed to [WriteToUDP], or
    the error raised before anything is sent.  [pktSize] is
    [s.trans.pktSize]. *)
Definition write_sendBuff (pktSize : Z) (pkt : fspPacket)
  : result (fspError + list byte) :=
  if uint16 (xlen pkt + len pkt) >? FSPSpace then Ret (inl ErrPayloadTooBig)
  else
    let sendBuff :=
      [z2b (cmd pkt); x00] ++ PutUint16 (key pkt) ++ PutUint16 (seq pkt)
        ++ PutUint16 (len pkt) ++ PutUint32 (pos pkt) in
    let used := FSPHSzie in
    a <- subSlice (buf pkt) 0 (len pkt) ;;
    let sendBuff := sendBuff ++ a in
    let used := used + len pkt in
    '(sendBuff, used) <-
      (if cmd pkt =? FSPCommandGetFile then
         if xlen pkt =? 2
         then Ret (sendBuff ++ PutUint16 pktSize, used + xlen pkt)
         else Ret (sendBuff, used)
       else if xlen pkt >? 0 then
         b <- subSlice (buf pkt) (len pkt) (uint16 (len pkt + xlen pkt)) ;;
         Ret (sendBuff ++ b, used + xlen pkt)
       else Ret (sendBuff, used)) ;;
    let body := firstn (Z.to_nat used) sendBuff in
    Ret (inr (firstn (Z.to_nat used)
                (setByte fspOffsetSum (z2b (sendSum body used)) sendBuff))).

(* ------------------------------------------------------------------ *)
(** ** session.go: the session and its environment *)

Record transferControl := mkTrans {
  pktSize : Z;        (* uint16 *)
  doneSize : Z;       (* int64 *)
  totalSize : Z;      (* int64 *)
  currDoneSize : Z;   (* curr.doneSize, int64 *)
  currCount : Z       (* curr.count, int *)
}.

Record Session := mkSession {
  password : list byte;
  lock : list byte;
  timeOut : Z;        (* uint *)
  maxDelay : Z;       (* uint *)
  trans : transferControl;
  sseq : Z;           (* seq, uint16 *)
  dupes : Z           (* uint *)
}.

Definition set_lock v s :=
  mkSession (password s) v (timeOut s) (maxDelay s) (trans s) (sseq s) (dupes s).
Definition set_trans v s :=
  mkSession (password s) (lock s) (timeOut s) (maxDelay s) v (sseq s) (dupes s).
Definition set_sseq v s :=
  mkSession (password s) (lock s) (timeOut s) (maxDelay s) (trans s) v (dupes s).
Definition set_dupes v s :=
  mkSession (password s) (lock s) (timeOut s) (maxDelay s) (trans s) (sseq s) v.

(** What the client does to the outside world, latest first. *)
Inductive event :=
| EvSend (d : list byte)       (* WriteToUDP delivered [d] *)
| EvSendFail (d : list byte)   (* WriteToUDP failed on [d] *)
| EvSleep (ns : Z)             (* time.Sleep *)
| EvDeadline (delay : Z).      (* SetReadDeadline(now + delay), then Read *)

(** The environment.  Real time is not modelled: every test of the
    clock, every random draw, every socket call takes its outcome from
    the head of a list; an exhausted list answers "timed out", [0],
    "sent", "nothing received". *)
Record Net := mkNet {
  lockFile : option (list byte);       (* contents of <tmp>/FSP1, if any *)
  rands : list Z;                      (* rand.Intn(65535) *)
  clock : list bool;                   (* time.Since(firstSend) > timeOut *)
  sendOk : list bool;                  (* WriteToUDP succeeded *)
  reads : list (option (list byte));   (* conn.Read: a datagram, or failure *)
  trace : list event
}.

Definition set_rands v n :=
  mkNet (lockFile n) v (clock n) (sendOk n) (reads n) (trace n).
Definition set_clock v n :=
  mkNet (lockFile n) (rands n) v (sendOk n) (reads n) (trace n).
Definition set_sendOk v n :=
  mkNet (lockFile n) (rands n) (clock n) v (reads n) (trace n).
Definition set_reads v n :=
  mkNet (lockFile n) (rands n) (clock n) (sendOk n) v (trace n).
Definition set_trace v n :=
  mkNet (lockFile n) (rands n) (clock n) (sendOk n) (reads n) v.
Definition emit (e : event) (n : Net) : Net := set_trace (e :: trace n) n.

(** The datagrams delivered so far, oldest first. *)
Definition sent (n : Net) : list (list byte) :=
  rev (flat_map (fun e => match e with EvSend d => [d] | _ => [] end)
                (trace n)).

(* ------------------------------------------------------------------ *)
(** ** Key store: loadKey, clientGetKey, clientSetKey *)

Inductive atoiError := ErrSyntax | ErrRange.

Definition isDigit (b : byte) : bool := (48 <=? b2z b) && (b2z b <=? 57).

Fixpoint parseDigits (l : list byte) (acc : Z) : option Z :=
  match l with
  | [] => Some acc
  | b :: t => if isDigit b then parseDigits t (acc * 10 + (b2z b - 48))
              else None
  end.

(** Go's [strconv.Atoi], after its documentation: an optional sign and
    at least one decimal digit; [0] with a syntax error otherwise; the
    nearest [int] with a range error when the number does not fit. *)
Definition Atoi (s : list byte) : Z * option atoiError :=
  let '(neg, ds) :=
    match s with
    | b :: t => if b2z b =? 45 then (true, t)
                else if b2z b =? 43 then (false, t) else (false, s)
    | [] => (false, [])
    end in
  match ds with
  | [] => (0, Some ErrSyntax)
  | _ :: _ =>
    match parseDigits ds 0 with
    | None => (0, Some ErrSyntax)
    | Some n =>
      let v := if neg : bool then - n else n in
      if v >? 2 ^ 63 - 1 then (2 ^ 63 - 1, Some ErrRange)
      else if v <? - 2 ^ 63 then (- 2 ^ 63, Some ErrRange)
      else (v, None)
    end
  end.

Fixpoint fmtDigits (fuel : nat) (n : Z) (acc : list byte) : list byte :=
  match fuel with
  | O => acc
  | S f => let acc := z2b (48 + n mod 10) :: acc in
           if n / 10 =? 0 then acc else fmtDigits f (n / 10) acc
  end.

(** [fmt.Sprintf("%d", key)] for a [uint16]: at most five digits. *)
Definition Sprintf_d (k : Z) : list byte := fmtDigits 5 k [].

Definition defaultLock : list byte := [x31; x33; x35; x37; x39].



(** [func (s *Session) clientGetKey() (key uint16)] *)
Definition clientGetKey (s : Session) : Z := uint16 (fst (Atoi (lock s))).

(** [func (s *Session) clientSetKey(key uint16)] *)
Definition clientSetKey (s : Session) (k : Z) : Session :=
  set_lock (Sprintf_d k) s.

(** [func (s *Session) randUint16() uint16] *)
Definition randUint16 (n : Net) : Z * Net :=
  match rands n with
  | [] => (0, n)
  | r :: rs => (uint16 r, set_rands rs n)
  end.



(** [func (t *transferControl) updateUnit(retry uint16, rcevLen int64)];
    the once-a-second progress line is output only. *)
Definition updateUnit (t : transferControl) (rcevLen : Z) : transferControl :=
  mkTrans (pktSize t) (int64 (doneSize t + rcevLen)) (totalSize t)
          (int64 (currDoneSize t + rcevLen)) (int64 (currCount t + 1)).

(* ------------------------------------------------------------------ *)
(** ** packet.go: write, on the socket *)

(** [func (pkt *fspPacket) write(s *Session) (err error)] *)
Definition write (s : Session) (pkt : fspPacket) (n : Net)
  : result (option fspError * Net) :=
  r <- write_sendBuff (pktSize (trans s)) pkt ;;
  match r with
  | inl e => Ret (Some e, n)
  | inr d =>
    match sendOk n with
    | false :: oks => Ret (Some ErrSend, emit (EvSendFail d) (set_sendOk oks n))
    | true :: oks => Ret (None, emit (EvSend d) (set_sendOk oks n))
    | [] => Ret (None, emit (EvSend d) n)
    end
  end.

(* ------------------------------------------------------------------ *)
(** ** session.go: transaction *)

(** A constant of the package that the sources at hand do not declare;
    it is compared with the command of an accepted reply. *)
Variable FSPCommandGetFile2 : Z.

Definition msec : Z := 1000000.
Definition second : Z := 1000000000.

(** The commands whose reply repeats the request's position. *)
Definition posCommand (c : Z) : bool :=
  (c =? FSPCommandGetDir) || (c =? FSPCommandGetFile) ||
  (c =? FSPCommandUpload) || (c =? FSPCommandGrabFile) ||
  (c =? FSPCommandInfo).

(** How the inner loop of [transaction] ends. *)
Inductive recvEnd :=
| RecvBreak (s : Session) (resp : fspPacket)
            (rs : list (option (list byte))) (tr : list event)
| RecvReturn (s : Session) (resp : fspPacket) (err : option fspError)
             (rs : list (option (list byte))) (tr : list event).

(** The inner [for] of [transaction] (lines 232-269): read datagrams
    until one is accepted or a read fails.  [rs] is what the socket
    will deliver, [resp] the named result, which [read] overwrites. *)
Fixpoint recvLoop (s : Session) (pkt resp : fspPacket) (delay : Z)
    (tr : list event) (rs : list (option (list byte))) : recvEnd :=
  let tr := EvDeadline delay :: tr in
  match rs with
  | [] => RecvBreak (clientSetKey s (key pkt)) resp [] tr
  | None :: rs' => RecvBreak (clientSetKey s (key pkt)) resp rs' tr
  | Some d :: rs' =>
    (* Read fills at most [len(buff) = FSPMaxPacket] bytes *)
    let buff := firstn (Z.to_nat FSPMaxPacket) d in
    if zlen buff <=? 0 then RecvBreak (clientSetKey s (key pkt)) resp rs' tr
    else
      let '(resp, err) := read resp buff in
      match err with
      | Some _ => recvLoop s pkt resp delay tr rs'
      | None =>
        if negb (Z.land (seq resp) 0xfff8 =? sseq s)
        then recvLoop (set_dupes (uint64 (dupes s + 1)) s) pkt resp delay tr rs'
        else if negb (cmd resp =? cmd pkt) && negb (cmd resp =? FSPCommandErr)
        then recvLoop (set_dupes (uint64 (dupes s + 1)) s) pkt resp delay tr rs'
        else if negb (pos resp =? pos pkt) && posCommand (cmd pkt)
        then recvLoop (set_dupes (uint64 (dupes s + 1)) s) pkt resp delay tr rs'
        else
          let '(s, err) :=
            if cmd resp =? FSPCommandErr
            then (s, Some (ErrServer (cmd resp) (elems (buf resp))))
            else if (cmd resp =? FSPCommandGetFile)
                    || (cmd resp =? FSPCommandGetFile2)
            then (set_trans (updateUnit (trans s) (len resp)) s, None)
            else (s, None) in
          RecvReturn (clientSetKey s (key resp)) resp err rs' tr
      end
  end.

(** What a transaction hands back: the session, the request (its [key]
    and [seq] are written through the pointer), the environment, the
    reply and the error. *)
Record txResult := mkTx {
  txSession : Session;
  txPkt : fspPacket;
  txNet : Net;
  txResp : fspPacket;
  txErr : option fspError
}.

(** The outer [for] of [transaction] (lines 214-270), one clock test
    per round. *)
Fixpoint sendLoop (s : Session) (pkt resp : fspPacket) (retry delay : Z)
    (n : Net) (cl : list bool) : result txResult :=
  match cl with
  | [] => Ret (mkTx s pkt (set_clock [] n) resp (Some ErrTimeout))
  | true :: cl' => Ret (mkTx s pkt (set_clock cl' n) resp (Some ErrTimeout))
  | false :: cl' =>
    let pkt := set_seq (Z.lor (sseq s) (Z.land retry 0x7)) pkt in
    '(err, n) <- write s pkt n ;;
    match err with
    | Some _ =>
      let n := emit (EvSleep second) n in
      let delay := int64 (delay + second) in
      let retry := uint16 (retry - 1) in
      sendLoop s pkt resp (uint16 (retry + 1)) delay n cl'
    | None =>
      let delay := if retry <=? 0 then 1340 * msec
                   else Z.quot (int64 (delay * 3)) 2 in
      match recvLoop s pkt resp delay (trace n) (reads n) with
      | RecvReturn s resp err rs tr =>
        Ret (mkTx s pkt (set_clock cl' (set_trace tr (set_reads rs n))) resp err)
      | RecvBreak s resp rs tr =>
        sendLoop s pkt resp (uint16 (retry + 1)) delay
                 (set_trace tr (set_reads rs n)) cl'
      end
    end
  end.

(** [func (s *Session) transaction(pkt *fspPacket) (resp fspPacket, err error)] *)
Definition transaction (s : Session) (pkt : fspPacket) (n : Net)
  : result txResult :=
  let delay := 1340 * msec in
  let pkt := set_key (clientGetKey s) pkt in
  let '(r, n) := randUint16 n in
  let retry := Z.land r 0xfff8 in
  let s := if sseq s =? retry then set_sseq (Z.lxor (sseq s) 0x1080) s
           else set_sseq retry s in
  sendLoop s pkt zeroPacket 0 delay n (clock n).

(* ------------------------------------------------------------------ *)
(** ** file.go: the directory decoder *)

Definition fspEntryTypeEnd : Z := 0x00.
Definition fspEntryTypeFile : Z := 0x01.
Definition fspEntryTypeDir : Z := 0x02.
Definition fspEntryTypeLink : Z := 0x03.
Definition fspEntryTypeSkip : Z := 0x2A.

Record dirEntry := mkEntry {
  Name : list byte;
  NameLen : Z;      (* uint16 *)
  Type_ : Z;        (* uint8 *)
  RecordLen : Z;    (* uint16 *)
  Size : Z;         (* uint *)
  LastModify : Z    (* int64 *)
}.

Record dir := mkDir {
  dirName : list byte;
  inUse : Z;        (* uint16 *)
  dirPos : Z;       (* int *)
  blockSize : Z;    (* uint16 *)
  dataSize : Z;     (* uint *)
  data : list byte
}.

Definition set_dirPos v d :=
  mkDir (dirName d) (inUse d) v (blockSize d) (dataSize d) (data d).

(** The cursor test shared by [ListEntrys] and [ReadNative]:
    [d.dirPos < 0 || d.dirPos%4 != 0]. *)
Definition misaligned (d : dir) : bool :=
  (dirPos d <? 0) || negb (Z.rem (dirPos d) 4 =? 0).

(** The name scan of [ReadNative] (lines 119-124): [l] runs from the
    cursor to the data size, the byte looked at is
    [data[dirPos+nameLen]]. *)
Fixpoint scanName (fuel : nat) (dt : list byte) (dpos l dsize nameLen : Z)
  : result Z :=
  match fuel with
  | O => Spin
  | S fuel =>
    if l <? dsize then
      b <- idx dt (int64 (dpos + nameLen)) ;;
      if b2z b =? 0 then Ret nameLen
      else scanName fuel dt dpos (int64 (l + 1)) dsize (int64 (nameLen + 1))
    else Ret nameLen
  end.

(** The [for] of [ReadNative] (lines 94-139). *)
Fixpoint ReadNative_loop (fuel : nat) (d : dir) : result (dir * option dirEntry) :=
  match fuel with
  | O => Spin
  | S fuel =>
    if dirPos d >=? int64 (dataSize d) then Ret (d, None)
    else if blockSize d =? 0 then Panic DivideByZero
    else
      fType <-
        (if blockSize d - Z.rem (dirPos d) (blockSize d) <? 9
         then Ret fspEntryTypeSkip
         else b <- idx (data d) (int64 (dirPos d + 8)) ;; Ret (b2z b)) ;;
      if fType =? fspEntryTypeEnd
      then ReadNative_loop fuel (set_dirPos (int64 (dataSize d)) d)
      else if fType =? fspEntryTypeSkip
      then ReadNative_loop fuel
             (set_dirPos
                (int64 ((Z.quot (dirPos d) (blockSize d) + 1) * blockSize d)) d)
      else
        mtime <- uint32At (data d) (dirPos d) ;;
        size <- uint32At (data d) (int64 (dirPos d + 4)) ;;
        let d := set_dirPos (int64 (dirPos d + 9)) d in
        nameLen <- scanName (S (length (data d))) (data d) (dirPos d)
                     (dirPos d) (int64 (dataSize d)) 0 ;;
        if nameLen <=? 0 then Ret (d, None)
        else
          let nm := firstn (Z.to_nat nameLen)
                           (skipn (Z.to_nat (dirPos d)) (data d)) in
          let d := set_dirPos (int64 (dirPos d + (nameLen + 1))) d in
          let rl := uint16 (uint16 nameLen + 10) in
          if negb (rl mod 4 =? 0)
          then
            let n := uint16 (4 - rl mod 4) in
            Ret (set_dirPos (int64 (dirPos d + n)) d,
                 Some (mkEntry nm (uint16 nameLen) fType (uint16 (rl + n))
                               size mtime))
          else
            Ret (d, Some (mkEntry nm (uint16 nameLen) fType rl size mtime))
  end.

(** Every round of the loop that goes round again moves the cursor to
    the data size or to a later block start. *)
Definition ReadNative_fuel (d : dir) : nat :=
  S (S (Z.to_nat (int64 (dataSize d) - dirPos d))).

(** [func (d *dir) ReadNative() (entry *dirEntry, err error)]; the
    error result is never set. *)
Definition ReadNative (d : dir) : result (dir * option dirEntry) :=
  if misaligned d then Ret (d, None)
  else ReadNative_loop (ReadNative_fuel d) d.

(** The [for] of [ListEntrys]. *)
Fixpoint ListEntrys_loop (fuel : nat) (d : dir) (entrys : list dirEntry)
  : result (dir * list dirEntry) :=
  match fuel with
  | O => Spin
  | S fuel =>
    if misaligned d then Ret (d, entrys)
    else
      '(d, entry) <- ReadNative d ;;
      match entry with
      | None => Ret (d, entrys)
      | Some e => ListEntrys_loop fuel d (entrys ++ [e])
      end
  end.

(** [func (d *dir) ListEntrys() (entrys []*dirEntry)] *)
Definition ListEntrys (d : dir) : result (dir * list dirEntry) :=
  ListEntrys_loop (S (length (data d))) d [].

(* ------------------------------------------------------------------ *)
(** ** file.go: file handles *)

Record File := mkFile {
  name : list byte;
  writing : bool;
  eof : bool;
  err : Z;          (* uint8 *)
  buffPos : Z;      (* int *)
  fpos : Z;         (* pos, uint32 *)
  out : fspPacket
}.

Definition set_err v f :=
  mkFile (name f) (writing f) (eof f) v (buffPos f) (fpos f) (out f).
Definition set_buffPos v f :=
  mkFile (name f) (writing f) (eof f) (err f) v (fpos f) (out f).
Definition set_fpos v f :=
  mkFile (name f) (writing f) (eof f) (err f) (buffPos f) v (out f).
Definition set_out v f :=
  mkFile (name f) (writing f) (eof f) (err f) (buffPos f) (fpos f) v.

(** The handle [openFile(remoteFile, "w")] returns. *)
Definition openFile_w (remoteFile : list byte) : File :=
  mkFile remoteFile true false 0 0 0 (set_cmd FSPCommandUpload zeroPacket).

(** What a method of [File] leaves behind. *)
Record fileResult := mkFR {
  frFile : File;
  frSession : Session;
  frNet : Net;
  frErr : option fspError
}.

(** The [for] of [Write] (lines 196-219); [total] and [pos] are the
    locals of the same names, [src] is the caller's buffer. *)
Fixpoint Write_loop (fuel : nat) (f : File) (s : Session) (n : Net)
    (src : list byte) (total done pos_ : Z) : result fileResult :=
  match fuel with
  | O => Spin
  | S fuel =>
    let continue_ (f : File) (s : Session) (n : Net) (done : Z) :=
      let freeBytes := FSPSpace - buffPos f in
      if freeBytes <=? total then
        b <- copyAt (buf (out f)) (buffPos f)
               (firstn (Z.to_nat freeBytes) (skipn (Z.to_nat pos_) src)) ;;
        let f := set_out (set_buf b (out f)) f in
        let f := set_buffPos FSPSpace f in
        Write_loop fuel f s n src (total - freeBytes) done (pos_ + freeBytes)
      else
        b <- copyAt (buf (out f)) (buffPos f)
               (firstn (Z.to_nat total) (skipn (Z.to_nat pos_) src)) ;;
        let f := set_out (set_buf b (out f)) f in
        Ret (mkFR (set_buffPos (buffPos f + total) f) s n None) in
    if buffPos f >=? FSPSpace then
      let f := set_out (set_pos (fpos f) (out f)) f in
      r <- transaction s (out f) n ;;
      let f := set_out (txPkt r) f in
      match txErr r with
      | Some e => Ret (mkFR (set_err 1 f) (txSession r) (txNet r) (Some e))
      | None =>
        let f := set_buffPos 0 f in
        let f := set_fpos (uint32 (fpos f + len (out f))) f in
        continue_ f (txSession r) (txNet r) (done + len (out f))
      end
    else continue_ f s n done
  end.

(** [func (f *File) Write(buff []byte) (err error)] *)
Definition Write (f : File) (s : Session) (n : Net) (buff : list byte)
  : result fileResult :=
  if eof f || negb (err f =? 0) then Ret (mkFR f s n None)
  else
    let f := if (slen (buf (out f)) =? 0)%nat
             then set_out (set_buf (make (Z.to_nat FSPSpace)) (out f)) f
             else f in
    let f := set_out (set_len FSPSpace (out f)) f in
    Write_loop (S (length buff)) f s n buff (zlen buff) 0 0.

(** [func (f *File) Flush() (err error)] *)
Definition Flush (f : File) (s : Session) (n : Net) : result fileResult :=
  if negb (writing f) then Ret (mkFR f s n (Some ErrBadFile))
  else if eof f || (buffPos f =? 0) then Ret (mkFR f s n None)
  else
    let f := set_out (set_pos (fpos f) (out f)) f in
    let f := set_out (set_len (uint16 (buffPos f)) (out f)) f in
    r <- transaction s (out f) n ;;
    let f := set_out (txPkt r) f in
    match txErr r with
    | Some e => Ret (mkFR (set_err 1 f) (txSession r) (txNet r) (Some e))
    | None =>
      let f := set_buffPos 0 f in
      Ret (mkFR (set_fpos (uint32 (fpos f + len (out f))) f)
                (txSession r) (txNet r) None)
    end.

(** The packet that [install] assembles in its local [out]
    (lines 246-259). *)
Definition install_out (f : File) (s : Session) (timeStamp : Z)
  : result (fspPacket * option fspError) :=
  let out_ := set_pos 0 (set_xlen 0 (set_cmd FSPCommandInstall zeroPacket)) in
  let '(out_, e) := buildFileName out_ (name f) (password s) in
  match e with
  | Some _ => Ret (out_, e)
  | None =>
    if negb (timeStamp =? 0) then
      let b := append (buf out_) [x00; x00; x00; x00] in
      b <- putUint32At b (len out_) (uint32 timeStamp) ;;
      Ret (set_pos 4 (set_xlen 4 (set_buf b out_)), None)
    else Ret (out_, None)
  end.

(** [func (f *File) install(timeStamp int64) (err error)].  The
    transaction on line 260 is given [&f.out]. *)
Definition install (f : File) (s : Session) (n : Net) (timeStamp : Z)
  : result fileResult :=
  '(out_, e) <- install_out f s timeStamp ;;
  match e with
  | Some _ => Ret (mkFR f s n e)
  | None =>
    r <- transaction s (out f) n ;;
    Ret (mkFR (set_out (txPkt r) f) (txSession r) (txNet r) (txErr r))
  end.

(** [func (f *File) Close() (err error)]; [now] is
    [time.Now().Unix()]. *)
Definition Close (f : File) (s : Session) (n : Net) (now : Z)
  : result fileResult :=
  if writing f then
    r <- Flush f s n ;;
    match frErr r with
    | None => install (frFile r) (frSession r) (frNet r) now
    | Some _ => Ret r
    end
  else Ret (mkFR f s n None).

(* ------------------------------------------------------------------ *)
(** ** fsp.go: Rename and GetProtecion *)

(** The packet [Rename] hands to [transaction] (lines 195-219), or the
    error it returns before. *)
Definition Rename_out (s : Session) (from to : list byte)
  : result (fspPacket * option fspError) :=
  let '(out_, e) := buildFileName zeroPacket from (password s) in
  match e with
  | Some _ => Ret (out_, e)
  | None =>
    if zlen to + len out_ >? FSPSpace then Ret (out_, Some ErrFileNameTooLong)
    else
      b <- copyAt (buf out_) (len out_) to ;;
      let out_ := set_buf b out_ in
      let out_ := set_xlen (uint16 (zlen to)) out_ in
      r <-
        match password s with
        | [] => Ret (out_, None)
        | _ :: _ =>
          if uint16 (len out_ + xlen out_) >? FSPSpace
          then Ret (out_, Some ErrFileNameTooLong)
          else
            let out_ := set_buf (append (buf out_) [x0a]) out_ in
            let out_ := set_xlen (uint16 (xlen out_ + 1)) out_ in
            b <- copyAt (buf out_) (uint16 (len out_ + xlen out_))
                   (password s) ;;
            let out_ := set_buf b out_ in
            Ret (set_xlen (uint16 (xlen out_ + uint16 (zlen (password s))))
                          out_, None)
        end ;;
      match r with
      | (out_, Some e) => Ret (out_, Some e)
      | (out_, None) =>
        let out_ := set_buf (append (buf out_) [x00]) out_ in
        let out_ := set_xlen (uint16 (xlen out_ + 1)) out_ in
        let out_ := set_cmd FSPCommandRename out_ in
        Ret (set_pos (uint32 (xlen out_)) out_, None)
      end
  end.

(** What a session operation without a result value leaves behind. *)
Record opResult (A : Type) := mkOp {
  opVal : A;
  opSession : Session;
  opNet : Net;
  opErr : option fspError
}.
Arguments mkOp {A}.
Arguments opVal {A}.
Arguments opSession {A}.
Arguments opNet {A}.
Arguments opErr {A}.

(** [func (s *Session) Rename(from, to string) (err error)] *)
Definition Rename (s : Session) (n : Net) (from to : list byte)
  : result (opResult unit) :=
  '(out_, e) <- Rename_out s from to ;;
  match e with
  | Some _ => Ret (mkOp tt s n e)
  | None =>
    r <- transaction s out_ n ;;
    Ret (mkOp tt (txSession r) (txNet r) (txErr r))
  end.

(** [func (s *Session) GetProtecion(directory string)
     (protection uint8, err error)] *)
Definition GetProtecion (s : Session) (n : Net) (directory : list byte)
  : result (opResult Z) :=
  let '(out_, e) := buildFileName zeroPacket directory (password s) in
  match e with
  | Some _ => Ret (mkOp 0 s n e)
  | None =>
    let out_ := set_pos 0 (set_xlen 0 (set_cmd FSPCommandGetPro out_)) in
    r <- transaction s out_ n ;;
    match txErr r with
    | Some _ => Ret (mkOp 0 (txSession r) (txNet r) (txErr r))
    | None =>
      if negb (pos (txResp r) =? FSPProBytes)
      then Ret (mkOp 0 (txSession r) (txNet r) (Some ErrENOMSG))
      else
        b <- index (buf (txResp r)) (len (txResp r)) ;;
        Ret (mkOp (b2z b) (txSession r) (txNet r) None)
    end
  end.

End Client.

Arguments mkOp {A}.
Arguments opVal {A}.
Arguments opSession {A}.
Arguments opNet {A}.
Arguments opErr {A}.

(* ------------------------------------------------------------------ *)
(** ** The remaining operations of session.go, file.go and fsp.go *)

Definition FSPCommandStat : Z := 0x4D.
Definition FSPCommandChangePass : Z := 0x4F.


(** [os.ModeDir], and the permissions [0755] and [0644]. *)
Definition ModeDir : Z := 2 ^ 31.
Definition perm0755 : Z := 493.
Definition perm0644 : Z := 420.

(** The errors of the operations: those of the packet and transaction
    layer, and the messages built in session.go and fsp.go. *)
Inductive opError :=
| OfPacket (e : fspError)
| ErrNoSuchFile                        (* "No such file" *)
| ErrCannotAdd                         (* "files cann't be added to this dir" *)
| ErrFileExists                        (* "file exist already" *)
| ErrReadDirFail (dirName : list byte) (* "read dir %s fail" *)
| ErrInvalidParam                      (* "invald param for open fsp file" *)
| ErrNotSupport                        (* "not support" *)
| ErrLocalFile                         (* "local file not exist" *)
| ErrLocalRead.                        (* the error of the local read *)

(** What an operation with these errors leaves behind. *)
Record apiResult (A : Type) := mkApi {
  apiVal : A;
  apiSession : Session;
  apiNet : Net;
  apiErr : option opError
}.
Arguments mkApi {A}.
Arguments apiVal {A}.
Arguments apiSession {A}.
Arguments apiNet {A}.
Arguments apiErr {A}.

(** [fileStat] (called [Stat] in session.go); [stModTime] is the
    argument of [time.Unix]. *)
Record fileStat := mkStat {
  stName : list byte;
  stSize : Z;       (* int64 *)
  stMode : Z;       (* os.FileMode *)
  stModTime : Z     (* seconds *)
}.

Definition set_blockSize v d :=
  mkDir (dirName d) (inUse d) (dirPos d) v (dataSize d) (data d).
Definition set_data v d :=
  mkDir (dirName d) (inUse d) (dirPos d) (blockSize d) (dataSize d) v.

Definition set_writing v f :=
  mkFile (name f) v (eof f) (err f) (buffPos f) (fpos f) (out f).

(** [a == b] on strings. *)
Fixpoint bytes_eqb (a b : list byte) : bool :=
  match a, b with
  | [], [] => true
  | x :: a', y :: b' => Byte.eqb x y && bytes_eqb a' b'
  | _, _ => false
  end.



Section Operations.

Variable growslice : nat -> nat -> nat.
Variable FSPCommandGetFile2 : Z.
(** [path/filepath.Dir] *)
Variable filepathDir : list byte -> list byte.





(** [func (s *Session) Stat(rPath string) (info os.FileInfo, err error)] *)
Definition Stat (s : Session) (n : Net) (rPath : list byte)
  : result (apiResult (option fileStat)) :=
  let '(out_, e) := buildFileName growslice zeroPacket rPath (password s) in
  match e with
  | Some e => Ret (mkApi None s n (Some (OfPacket e)))
  | None =>
    let out_ := set_pos 0 (set_xlen 0 (set_cmd FSPCommandStat out_)) in
    r <- transaction FSPCommandGetFile2 s out_ n ;;
    let resp := txResp r in
    match txErr r with
    | Some e => Ret (mkApi None (txSession r) (txNet r) (Some (OfPacket e)))
    | None =>
      noFile <-
        (if Z.of_nat (slen (buf resp)) <=? 8 then Ret true
         else b <- index (buf resp) 8 ;; Ret (b2z b =? 0)) ;;
      if noFile : bool
      then Ret (mkApi None (txSession r) (txNet r) (Some ErrNoSuchFile))
      else
        hd <- subSlice (buf resp) 0 4 ;;
        modTime <- uint32At hd 0 ;;
        tl <- subSlice (buf resp) 4 (Z.of_nat (slen (buf resp))) ;;
        size <- uint32At tl 0 ;;
        b <- index (buf resp) 8 ;;
        let mode := if b2z b =? fspEntryTypeDir
                    then Z.lor ModeDir perm0755 else perm0644 in
        Ret (mkApi (Some (mkStat rPath size mode modTime))
                   (txSession r) (txNet r) None)
    end
  end.


(** The request that [ChangePassword] assembles (lines 353-373).  The
    conversion [[]byte("\n")] allocates as an append to a nil slice
    does. *)
Definition ChangePassword_req (s : Session) (newPassword : list byte)
  : fspPacket :=
  let req := set_buf (append growslice nilSlice [x0a]) zeroPacket in
  let req := set_len 1 req in
  let req :=
    if 0 <? zlen (password s) then
      let req := set_buf (append growslice (buf req) (password s)) req in
      set_len (uint16 (len req + uint16 (zlen (password s)))) req
    else req in
  let req := set_buf (append growslice (buf req) [x0a]) req in
  let req := set_len (uint16 (len req + 1)) req in
  let req :=
    if 0 <? zlen newPassword then
      let req := set_buf (append growslice (buf req) newPassword) req in
      set_len (uint16 (len req + uint16 (zlen newPassword))) req
    else req in
  let req := set_buf (append growslice (buf req) [x00]) req in
  let req := set_len (uint16 (len req + 1)) req in
  set_pos 0 (set_xlen 0 (set_cmd FSPCommandChangePass req)).

(** [func (s *Session) ChangePassword(newPassword string) (err error)] *)
Definition ChangePassword (s : Session) (n : Net) (newPassword : list byte)
  : result (opResult unit) :=
  r <- transaction FSPCommandGetFile2 s (ChangePassword_req s newPassword) n ;;
  Ret (mkOp tt (txSession r) (txNet r) (txErr r)).

(** The [for] of [getDir] (lines 364-382): [p] is the request, [pos_]
    the local [pos], [d] the directory being filled. *)
Fixpoint getDir_loop (fuel : nat) (s : Session) (n : Net) (p : fspPacket)
    (pos_ : Z) (d : dir)
  : result (dir * Z * Session * Net * option fspError) :=
  match fuel with
  | O => Spin
  | S fuel =>
    let p := set_pos pos_ p in
    r <- transaction FSPCommandGetFile2 s p n ;;
    let p := txPkt r in
    let resp := txResp r in
    match txErr r with
    | Some e => Ret (set_data [] d, pos_, txSession r, txNet r, Some e)
    | None =>
      if len resp =? 0 then Ret (d, pos_, txSession r, txNet r, None)
      else
        let d := if blockSize d =? 0 then set_blockSize (len resp) d else d in
        let d := set_data (data d ++ elems (buf resp)) d in
        let pos_ := uint32 (pos_ + len resp) in
        if len resp <? blockSize d
        then Ret (d, pos_, txSession r, txNet r, None)
        else getDir_loop fuel (txSession r) (txNet r) p pos_ d
    end
  end.

(** [func (s *Session) getDir(dirName string) (dir *Dir, err error)].
    Every transaction that does not end the loop uses up a test of the
    clock. *)
Definition getDir (s : Session) (n : Net) (dirName_ : list byte)
  : result (apiResult (option dir)) :=
  let dirName_ := match dirName_ with [] => [x2f] | _ :: _ => dirName_ end in
  let '(p, e) := buildFileName growslice zeroPacket dirName_ (password s) in
  match e with
  | Some e => Ret (mkApi None s n (Some (OfPacket e)))
  | None =>
    let d := mkDir [] 0 0 0 0 [] in
    let p := set_cmd FSPCommandGetDir p in
    let p := set_buf (append growslice (buf p)
                        (PutUint16 (pktSize (trans s)))) p in
    let p := set_xlen 2 p in
    '(d, pos_, s, n, e) <- getDir_loop (S (length (clock n))) s n p 0 d ;;
    match e with
    | Some e => Ret (mkApi (Some d) s n (Some (OfPacket e)))
    | None =>
      if 0 <? zlen (data d)
      then Ret (mkApi (Some (mkDir dirName_ 1 (dirPos d) (blockSize d)
                                   pos_ (data d))) s n None)
      else Ret (mkApi None s n (Some (ErrReadDirFail dirName_)))
    end
  end.

(** [func (s *Session) Readdir(dirpath string) (fi []os.FileInfo, err error)];
    [st] is the local of the loop body. *)
Definition Readdir (s : Session) (n : Net) (dirpath : list byte)
  : result (apiResult (list fileStat)) :=
  g <- getDir s n dirpath ;;
  match apiErr g, apiVal g with
  | Some e, _ => Ret (mkApi [] (apiSession g) (apiNet g) (Some e))
  | None, None => Ret (mkApi [] (apiSession g) (apiNet g) None)
  | None, Some di =>
    '(di, entrys) <- ListEntrys di ;;
    let fi :=
      fold_left
        (fun (fi : list fileStat) (entry : dirEntry) =>
           let st := mkStat (Name entry) (int64 (Size entry))
                       (if Type_ entry =? fspEntryTypeDir
                        then Z.lor ModeDir perm0755 else perm0644)
                       (LastModify entry) in
           fi)
        entrys [] in
    Ret (mkApi fi (apiSession g) (apiNet g) None)
  end.

(** [func (s *Session) openFile(remoteFile, mode string)
     (fspFile *File, err error)] *)
Definition openFile (s : Session) (remoteFile mode : list byte)
  : option File * option opError :=
  match remoteFile, mode with
  | [], _ => (None, Some ErrInvalidParam)
  | _ :: _, [] => (None, Some ErrInvalidParam)
  | _ :: _, m0 :: rest =>
    let fspFile := mkFile remoteFile false false 0 0 0 zeroPacket in
    let sw := if b2z m0 =? 114 then Some fspFile
              else if b2z m0 =? 119 then Some (set_writing true fspFile)
              else None in
    match sw with
    | None => (None, Some ErrNotSupport)
    | Some fspFile =>
      if bytes_eqb rest [x2b] || bytes_eqb rest [x62; x2b]
      then (None, Some ErrNotSupport)
      else
        let fspFile := set_out (set_xlen 0 (out fspFile)) fspFile in
        if writing fspFile
        then (Some (set_out (set_cmd FSPCommandUpload (out fspFile)) fspFile),
              None)
        else
          let '(o, e) :=
            buildFileName growslice (out fspFile) remoteFile (password s) in
          match e with
          | Some e => (None, Some (OfPacket e))
          | None =>
            (Some (set_buffPos FSPSpace
                     (set_out (set_xlen 2 (set_cmd FSPCommandGetFile o))
                              fspFile)),
             None)
          end
    end
  end.





End Operations.

(* ------------------------------------------------------------------ *)
(** ** The checksum as the protocol description words it, and the
       peers used in the examples *)

(** [s = L + sum of B], [sum = (s + (s >> 8)) & 0xFF], with [B] the
    datagram with its sum byte zeroed and [L] its length. *)
Definition describedSum (D : list byte) : Z :=
  let s := zlen D + sumBytes (setByte fspOffsetSum x00 D) in
  Z.land (s + Z.shiftr s 8) 0xFF.

(** The same without the length: what [read] compares the sum byte
    with. *)
Definition replySum (D : list byte) : Z :=
  let s := sumBytes (setByte fspOffsetSum x00 D) in
  Z.land (s + Z.shiftr s 8) 0xFF.

(** A datagram as a server frames it: header, region A, region B, and
    the sum byte that [read] accepts. *)
Definition serverDatagram (c k sq ps : Z) (a b : list byte) : list byte :=
  let d := [z2b c; x00] ++ PutUint16 k ++ PutUint16 sq
             ++ PutUint16 (zlen a) ++ PutUint32 ps ++ a ++ b in
  setByte fspOffsetSum (z2b (replySum d)) d.

(** An allocator that rounds capacities up to a multiple of eight. *)
Definition grow8 (_ needed : nat) : nat := (8 * ((needed + 7) / 8))%nat.
(** An allocator that never over-allocates. *)
Definition growExact (_ needed : nat) : nat := needed.

(** A file name of 14,706 bytes. *)
Definition longName : list byte := repeat x61 (Z.to_nat 14706).

(** A twelve-byte VERSION datagram whose sum byte is the folded sum of
    its other bytes. *)
Definition datagram_C2 : list byte :=
  [x10; x10; x00; x00; x00; x00; x00; x00; x00; x00; x00; x00].

Definition session0 (pass lk : list byte) : Session :=
  mkSession pass lk 10 2 (mkTrans 0 0 0 0 0) 0 0.

(* ------------------------------------------------------------------ *)
(** ** Predicates used in the statements *)

(** A slice whose length does not exceed its capacity. *)
Definition wfSlice (s : slice) : Prop := (slen s <= cap s)%nat.

(** A slice whose spare capacity holds only zero bytes. *)
Definition zeroTail (s : slice) : Prop :=
  exists k, arr s = elems s ++ zeros k.


(** The three checks a decoded reply must pass (session.go lines
    247-260), for the sequence base [base] and the request [pkt]. *)
Definition validReply (base : Z) (pkt resp : fspPacket) : Prop :=
  Z.land (seq resp) 0xfff8 = base /\
  (cmd resp = cmd pkt \/ cmd resp = FSPCommandErr) /\
  (posCommand (cmd pkt) = true -> pos resp = pos pkt).

(** [mapResult h m]: [h] applied to what [m] returns. *)
Definition mapResult {A B} (h : A -> B) (m : result A) : result B :=
  match m with
  | Ret a => Ret (h a)
  | Panic p => Panic p
  | Spin => Spin
  end.

(** Everything a method of [File] leaves behind, the error flag
    excepted. *)
Definition besidesFlag (r : fileResult)
  : File * Session * Net * option fspError :=
  (set_err 0 (frFile r), frSession r, frNet r, frErr r).

(** The sequence base a transaction picks (session.go lines 207-212). *)
Definition nextBase (s : Session) (n : Net) : Z :=
  let r := Z.land (fst (randUint16 n)) 0xfff8 in
  if sseq s =? r then Z.lxor (sseq s) 0x1080 else r.

(* ------------------------------------------------------------------ *)
(** ** Environments used in the examples *)

(** The examples give the undeclared [FSPCommandGetFile2] the value of
    [FSPCommandGetFile]. *)
Definition getFile2 : Z := FSPCommandGetFile.

(** A VERSION request, as [Session.Version] builds it. *)
Definition versionPkt : fspPacket := set_cmd FSPCommandVersion zeroPacket.


(** Region B as [write] puts it on the wire: for GET_FILE the session's
    packet-size hint when [xlen = 2] and nothing otherwise, for every
    other command the [xlen] bytes that follow region A in the
    buffer. *)
Definition wireB (pktSize : Z) (p : fspPacket) : list byte :=
  if cmd p =? FSPCommandGetFile
  then if xlen p =? 2 then PutUint16 pktSize else []
  else regionB p.

(** The twelve header bytes of an outgoing datagram, sum byte [c]. *)
Definition headerBytes (c : byte) (p : fspPacket) : list byte :=
  [z2b (cmd p); c] ++ PutUint16 (key p) ++ PutUint16 (seq p)
    ++ PutUint16 (len p) ++ PutUint32 (pos p).

(** A VERSION request with 243 zero bytes in region A: a datagram of
    255 bytes, for which the sum with the length added and the sum
    without it fold to the same byte. *)
Definition packet255 : fspPacket :=
  mkPacket FSPCommandVersion 0 0 0 243 0 0 (make 243).

(** A directory of one ten-byte block whose type byte is END. *)
Definition dirTenBytes : dir := mkDir [] 1 0 10 10 (zeros 10).

(** A directory of one twelve-byte block holding a file record with an
    empty name. *)
Definition dirEmptyName : dir :=
  mkDir [] 1 0 12 12
        [x00; x00; x00; x00; x00; x00; x00; x00; x01; x00; x00; x00].

(** A directory of one 32-byte block: the file [a] (mtime 1, size 2),
    the directory [sub] (mtime 3, size 0), then END. *)
Definition dirTwoEntries : dir :=
  mkDir [] 1 0 32 32
        ([x00; x00; x00; x01; x00; x00; x00; x02; x01; x61; x00; x00] ++
         [x00; x00; x00; x03; x00; x00; x00; x00; x02; x73; x75; x62;
          x00; x00; x00; x00] ++
         [x00; x00; x00; x00]).

(** A GET_PRO reply without region B: [pos = 1], [len = 0], twelve
    bytes in all, for the sequence base [0x1230]. *)
Definition replyNoProtection : list byte :=
  serverDatagram FSPCommandGetPro 0 4656 1 [] [].

(** The same reply with the protection byte [0x45] in region B. *)
Definition replyProtection : list byte :=
  serverDatagram FSPCommandGetPro 0 4656 1 [] [x45].

(** One random draw giving the base [0x1230], a clock that has not run
    out, and the server's answer. *)
Definition netReply (d : list byte) : Net :=
  mkNet None [4660] [false] [] [Some d] [].

(** The server's acknowledgement of an UPLOAD at position 0, for the
    sequence base [base]. *)
Definition ackUpload (base : Z) : list byte :=
  serverDatagram FSPCommandUpload 0 base 0 [] [].

(** A server that acknowledges two transactions, with bases [0x1230]
    and [0x5678]. *)
Definition netUpload : Net :=
  mkNet None [4660; 22136] [false; false] []
        [Some (ackUpload 4656); Some (ackUpload 22136)] [].

(** A first transaction that runs into the timeout, then a server that
    acknowledges the next two, with bases [0x5678] and [0x9AB8]. *)
Definition netTimeoutThenAcks : Net :=
  mkNet None [4660; 22136; 39612] [true; false; false] []
        [Some (ackUpload 22136); Some (ackUpload 39608)] [].

(** A rename of [a] to [b] with the clock letting one datagram out. *)
Definition netSilent : Net := mkNet None [4660] [false; true] [] [] [].

(** The three bytes written in the examples. *)
Definition threeBytes : list byte := [x01; x02; x03].

(** The wall-clock second handed to [Close] in the examples. *)
Definition nowC4 : Z := 1568100000.

(** A VERSION exchange for the base [0x1230] in which the socket
    delivers, in this order, a datagram with a wrong sum byte, a well
    formed reply for another sequence base, and the reply [fspd] with
    key 7. *)
Definition badSumDatagram : list byte :=
  [x10; x11; x00; x00; x00; x00; x00; x00; x00; x00; x00; x00].
Definition staleReply : list byte :=
  serverDatagram FSPCommandVersion 0 8 0 [] [].
Definition versionReply : list byte :=
  serverDatagram FSPCommandVersion 7 4656 0 [x66; x73; x70; x64] [].
Definition netThreeDatagrams : Net :=
  mkNet None [4660] [false] []
        [Some badSumDatagram; Some staleReply; Some versionReply] [].

(** The same exchange with an empty datagram delivered before the
    reply, and a clock that allows two rounds. *)
Definition netEmptyDatagram : Net :=
  mkNet None [4660] [false; false] [] [Some []; Some versionReply] [].

(** Two sessions with the same password, timeouts and packet size: a
    transaction changes the key string, the sequence base and the
    counters only. *)
Definition sameSetup (s s' : Session) : Prop :=
  password s' = password s /\ timeOut s' = timeOut s /\
  maxDelay s' = maxDelay s /\ pktSize (trans s') = pktSize (trans s).

(** What a transaction may add to the trace for the request [pkt] of a
    session with packet size [ps] and sequence base [base]: datagrams
    that [write] made of the request with a retry count in the low
    three bits of the sequence number, sleeps of a second, and read
    deadlines. *)
Definition requestEvent (ps base : Z) (pkt : fspPacket) (ev : event) : Prop :=
  match ev with
  | EvSend d | EvSendFail d =>
    exists k, 0 <= k < 8 /\
      write_sendBuff ps (set_seq (Z.lor base k) pkt) = Ret (inr d)
  | EvSleep ns => ns = second
  | EvDeadline _ => True
  end.

(** The datagram of a request on the wire: the header, region A and
    region B, with the sum byte of the send path. *)
Definition datagramOf (ps : Z) (p : fspPacket) : list byte :=
  let body := headerBytes x00 p ++ regionA p ++ wireB ps p in
  headerBytes (z2b (sendSum body (zlen body))) p ++ regionA p ++ wireB ps p.

(** A request whose payload the buffer holds, so that [write] does not
    slice out of bounds. *)
Definition sendable (p : fspPacket) : Prop :=
  0 <= len p <= Z.of_nat (cap (buf p)) /\
  (cmd p = FSPCommandGetFile \/ xlen p <= 0 \/
   (len p + xlen p <= Z.of_nat (cap (buf p)) /\ len p + xlen p < 2 ^ 16)).

(** The events of a trace that hand a datagram to the socket. *)
Definition isSend (ev : event) : bool :=
  match ev with
  | EvSend _ | EvSendFail _ => true
  | _ => false
  end.

(** A VERSION request whose length field exceeds what a datagram can
    carry. *)
Definition pktTooBig : fspPacket :=
  mkPacket FSPCommandVersion 0 0 0 14709 0 0 nilSlice.

(** A request without region B as it goes out: the twelve header bytes
    with the sum byte [sumb], then region A. *)
Definition requestBytes (c : Z) (sumb : byte) (k sq ps : Z) (a : list byte)
  : list byte :=
  [z2b c; sumb] ++ PutUint16 k ++ PutUint16 sq ++ PutUint16 (zlen a)
    ++ PutUint32 ps ++ a.

(** [d] is the request with command [c], position [ps] and region A
    [a] of the session [s] in the environment [n]: the key is the
    session's, the sequence number is the base that the transaction
    draws with a retry count in its low three bits. *)
Definition isRequest (s : Session) (n : Net) (c ps : Z) (a d : list byte)
  : Prop :=
  exists k sumb, 0 <= k < 8 /\
    d = requestBytes c sumb (clientGetKey s) (Z.lor (nextBase s n) k) ps a.

(** From [n] to [n'] the socket was handed datagrams that satisfy [P],
    and no others. *)
Definition sendsOnly (n n' : Net) (P : list byte -> Prop) : Prop :=
  exists ds, sent n' = sent n ++ ds /\ Forall P ds.

(** The request of the operations that name a file: region A holds
    the name and the password, there is no region B and the position
    is zero (as in [simpleCommand], [Stat] and [GetProtecion]). *)
Definition nameRequest (growslice : nat -> nat -> nat) (c : Z)
    (fileName password : list byte) : fspPacket :=
  set_pos 0 (set_xlen 0 (set_cmd c
    (fst (buildFileName growslice zeroPacket fileName password)))).

(** What [Stat] makes of the payload [P] of an accepted reply. *)
Definition statOfPayload (rPath P : list byte) : option fileStat :=
  if (zlen P <=? 8) || (b2z (nth 8 P x00) =? 0) then None
  else Some (mkStat rPath
               (Uint32 (nth 4 P x00) (nth 5 P x00) (nth 6 P x00) (nth 7 P x00))
               (if b2z (nth 8 P x00) =? fspEntryTypeDir
                then Z.lor ModeDir perm0755 else perm0644)
               (Uint32 (nth 0 P x00) (nth 1 P x00) (nth 2 P x00) (nth 3 P x00))).

(** Region A of the request of [ChangePassword]. *)
Definition passwordPayload (old new : list byte) : list byte :=
  [x0a] ++ old ++ [x0a] ++ new ++ [x00].

(** The packet [req] holds [p]: its buffer has the elements [p], its
    length field their number as a [uint16]. *)
Definition holdsPayload (req : fspPacket) (p : list byte) : Prop :=
  wfSlice (buf req) /\ elems (buf req) = p /\ len req = uint16 (zlen p).

(** A STAT reply for the base [0x1230]: modification time 1, size 2,
    a plain file. *)
Definition replyStat : list byte :=
  serverDatagram FSPCommandStat 0 4656 0
    [x00; x00; x00; x01; x00; x00; x00; x02; x01] [].

(** A session with the password [p]. *)
Definition sessionP : Session := session0 [x70] defaultLock.

(** A handle opened for writing, between two calls: the buffer has not
    been made yet and nothing is pending, or it has its 14,708 bytes;
    the length field does not exceed the capacity. *)
Definition writeHandle (f : File) : Prop :=
  writing f = true /\ eof f = false /\
  cmd (out f) = FSPCommandUpload /\ xlen (out f) = 0 /\
  0 <= buffPos f <= FSPSpace /\ 0 <= fpos f < 2 ^ 32 /\
  0 <= len (out f) <= Z.of_nat (cap (buf (out f))) /\
  ((slen (buf (out f)) = 0%nat /\ buffPos f = 0) \/
   (slen (buf (out f)) = Z.to_nat FSPSpace /\ wfSlice (buf (out f)))).

(** The same handle inside [Write], where the length field is that of
    a full block. *)
Definition uploadState (f : File) : Prop :=
  writing f = true /\ eof f = false /\
  cmd (out f) = FSPCommandUpload /\ xlen (out f) = 0 /\
  0 <= buffPos f <= FSPSpace /\ 0 <= fpos f < 2 ^ 32 /\
  len (out f) = FSPSpace /\
  slen (buf (out f)) = Z.to_nat FSPSpace /\ wfSlice (buf (out f)).

(** The bytes written to a handle and not sent yet. *)
Definition pending (f : File) : list byte :=
  firstn (Z.to_nat (buffPos f)) (arr (buf (out f))).





(** What the read loop leaves of the socket's deliveries, and the
    trace it ends with. *)
Definition recvRest (e : recvEnd) : list (option (list byte)) :=
  match e with
  | RecvBreak _ _ rs _ => rs
  | RecvReturn _ _ _ rs _ => rs
  end.
Definition recvTrace (e : recvEnd) : list event :=
  match e with
  | RecvBreak _ _ _ tr => tr
  | RecvReturn _ _ _ _ tr => tr
  end.

(** A server that lists a directory: the 32-byte block of
    [dirTwoEntries] at position 0 for the base [0x1230], then an empty
    block at position 32 for the base [0x5678]. *)
Definition netListing : Net :=
  mkNet None [4660; 22136] [false; false] []
        [Some (serverDatagram FSPCommandGetDir 0 4656 0 (data dirTwoEntries) []);
         Some (serverDatagram FSPCommandGetDir 0 22136 32 [] [])] [].
(** A server that sends the three bytes of a file at position 0 for
    the base [0x1230], then an empty block at position 3 for the base
    [0x5678]. *)
Definition netDownload : Net :=
  mkNet None [4660; 22136] [false; false] []
        [Some (serverDatagram FSPCommandGetFile 0 4656 0 threeBytes []);
         Some (serverDatagram FSPCommandGetFile 0 22136 3 [] [])] [].


(** The handle that [openFile] makes for reading [a], without a
    password. *)
Definition handleRead : File :=
  match fst (openFile grow8 (session0 [] defaultLock) [x61] [x72]) with
  | Some f => f
  | None => mkFile [] false false 0 0 0 zeroPacket
  end.


(* ------------------------------------------------------------------ *)
(** * Properties *)

(** Lengths such as [Z.to_nat FSPMaxPacket] stay folded. *)
Arguments Z.to_nat : simpl never.

(** ** Bytes *)

Lemma b2z_range (b : byte) : 0 <= b2z b < 256.
Proof.
  unfold b2z. pose proof (Byte.to_N_bounded b). lia.
Qed.

Lemma z2b_b2z (b : byte) : z2b (b2z b) = b.
Proof.
  unfold z2b. pose proof (b2z_range b) as H.
  rewrite Z.mod_small by exact H.
  unfold b2z. rewrite N2Z.id, Byte.of_to_N. reflexivity.
Qed.

Lemma b2z_z2b (z : Z) : b2z (z2b z) = z mod 256.
Proof.
  unfold z2b, b2z.
  assert (Hr : 0 <= z mod 256 < 256) by (apply Z.mod_pos_bound; lia).
  destruct (Byte.of_N (Z.to_N (z mod 256))) as [b|] eqn:E.
  - apply Byte.to_of_N in E. rewrite E. rewrite Z2N.id; lia.
  - apply Byte.of_N_None_iff in E. lia.
Qed.

Lemma b2z_z2b_small (z : Z) : 0 <= z < 256 -> b2z (z2b z) = z.
Proof. intros H. rewrite b2z_z2b. apply Z.mod_small. exact H. Qed.

Lemma lor_shiftl_add (hi lo k : Z) :
  0 <= k -> 0 <= lo < 2 ^ k -> Z.lor lo (Z.shiftl hi k) = lo + hi * 2 ^ k.
Proof.
  intros Hk Hlo.
  rewrite Z.shiftl_mul_pow2 by exact Hk.
  rewrite <- Z.lxor_lor.
  - symmetry. apply Z.add_nocarry_lxor.
    apply Z.bits_inj'. intros n Hn.
    rewrite Z.land_spec, Z.bits_0.
    destruct (Z.lt_ge_cases n k) as [Hlt|Hge].
    + rewrite Z.mul_pow2_bits_low by exact Hlt. apply andb_false_r.
    + destruct (Z.eq_dec lo 0) as [->|Hne].
      * rewrite Z.bits_0. reflexivity.
      * rewrite (Z.bits_above_log2 lo n); [reflexivity| lia |].
        apply Z.log2_lt_pow2; [lia|].
        apply Z.lt_le_trans with (2 ^ k); [lia|].
        apply Z.pow_le_mono_r; lia.
  - apply Z.bits_inj'. intros n Hn.
    rewrite Z.land_spec, Z.bits_0.
    destruct (Z.lt_ge_cases n k) as [Hlt|Hge].
    + rewrite Z.mul_pow2_bits_low by exact Hlt. apply andb_false_r.
    + destruct (Z.eq_dec lo 0) as [->|Hne].
      * rewrite Z.bits_0. reflexivity.
      * rewrite (Z.bits_above_log2 lo n); [reflexivity| lia |].
        apply Z.log2_lt_pow2; [lia|].
        apply Z.lt_le_trans with (2 ^ k); [lia|].
        apply Z.pow_le_mono_r; lia.
Qed.

Lemma Uint16_eq (b0 b1 : byte) : Uint16 b0 b1 = b2z b0 * 256 + b2z b1.
Proof.
  unfold Uint16. pose proof (b2z_range b1).
  rewrite lor_shiftl_add; [change (2 ^ 8) with 256; lia | lia |].
  change (2 ^ 8) with 256. lia.
Qed.

Lemma Uint32_eq (b0 b1 b2 b3 : byte) :
  Uint32 b0 b1 b2 b3 =
  b2z b0 * 16777216 + b2z b1 * 65536 + b2z b2 * 256 + b2z b3.
Proof.
  unfold Uint32.
  pose proof (b2z_range b0). pose proof (b2z_range b1).
  pose proof (b2z_range b2). pose proof (b2z_range b3).
  rewrite (lor_shiftl_add (b2z b2) (b2z b3) 8);
    [| lia | change (2 ^ 8) with 256; lia].
  rewrite (lor_shiftl_add (b2z b1) _ 16);
    [| lia | change (2 ^ 8) with 256; change (2 ^ 16) with 65536; lia].
  rewrite (lor_shiftl_add (b2z b0) _ 24);
    [| lia | change (2 ^ 8) with 256; change (2 ^ 16) with 65536;
             change (2 ^ 24) with 16777216; lia].
  change (2 ^ 8) with 256; change (2 ^ 16) with 65536;
    change (2 ^ 24) with 16777216. lia.
Qed.

Lemma Uint16_range (b0 b1 : byte) : 0 <= Uint16 b0 b1 < 65536.
Proof.
  rewrite Uint16_eq. pose proof (b2z_range b0). pose proof (b2z_range b1). lia.
Qed.

Lemma Uint16_PutUint16 (v : Z) :
  0 <= v < 2 ^ 16 ->
  Uint16 (z2b (Z.shiftr v 8)) (z2b v) = v.
Proof.
  intros Hv. change (2 ^ 16) with 65536 in Hv.
  rewrite Uint16_eq, !b2z_z2b, Z.shiftr_div_pow2 by lia.
  change (2 ^ 8) with 256.
  rewrite (Z.mod_small (v / 256)).
  - pose proof (Z.div_mod v 256). lia.
  - split; [apply Z.div_pos; lia | apply Z.div_lt_upper_bound; lia].
Qed.

Lemma Uint32_PutUint32 (v : Z) :
  0 <= v < 2 ^ 32 ->
  Uint32 (z2b (Z.shiftr v 24)) (z2b (Z.shiftr v 16))
         (z2b (Z.shiftr v 8)) (z2b v) = v.
Proof.
  intros Hv. change (2 ^ 32) with 4294967296 in Hv.
  rewrite Uint32_eq, !b2z_z2b, !Z.shiftr_div_pow2 by lia.
  change (2 ^ 8) with 256; change (2 ^ 16) with 65536;
    change (2 ^ 24) with 16777216.
  pose proof (Z.div_mod v 256 ltac:(lia)).
  pose proof (Z.div_mod (v / 256) 256 ltac:(lia)).
  pose proof (Z.div_mod (v / 256 / 256) 256 ltac:(lia)).
  pose proof (Z.mod_pos_bound v 256 ltac:(lia)).
  pose proof (Z.mod_pos_bound (v / 256) 256 ltac:(lia)).
  pose proof (Z.mod_pos_bound (v / 256 / 256) 256 ltac:(lia)).
  replace (v / 65536) with (v / 256 / 256)
    by (rewrite Z.div_div by lia; reflexivity).
  replace (v / 16777216) with (v / 256 / 256 / 256)
    by (rewrite !Z.div_div by lia; reflexivity).
  rewrite (Z.mod_small (v / 256 / 256 / 256)); [lia|].
  split; [repeat apply Z.div_pos; lia|].
  repeat (apply Z.div_lt_upper_bound; [lia|]). lia.
Qed.

Lemma land_255 (z : Z) : Z.land z 255 = z mod 256.
Proof. change 255 with (Z.ones 8). rewrite Z.land_ones by lia. reflexivity. Qed.

Lemma sumBytes_fold (l : list byte) (a : Z) :
  fold_left (fun acc b => acc + b2z b) l a = a + sumBytes l.
Proof.
  unfold sumBytes. revert a.
  induction l as [|b l IH]; intros a; simpl.
  - lia.
  - rewrite IH. rewrite (IH (b2z b)). lia.
Qed.

Lemma sumBytes_cons (b : byte) (l : list byte) :
  sumBytes (b :: l) = b2z b + sumBytes l.
Proof. unfold sumBytes at 1. simpl. rewrite sumBytes_fold. lia. Qed.

Lemma sumBytes_app (l1 l2 : list byte) :
  sumBytes (l1 ++ l2) = sumBytes l1 + sumBytes l2.
Proof.
  induction l1 as [|b l1 IH]; simpl.
  - reflexivity.
  - rewrite !sumBytes_cons, IH. lia.
Qed.

Lemma sumBytes_nonneg (l : list byte) : 0 <= sumBytes l.
Proof.
  induction l as [|b l IH].
  - unfold sumBytes. simpl. lia.
  - rewrite sumBytes_cons. pose proof (b2z_range b). lia.
Qed.

Lemma sumBytes_setSum (v : byte) (l : list byte) :
  (2 <= length l)%nat ->
  sumBytes (setByte fspOffsetSum v l) =
  sumBytes l - b2z (nth fspOffsetSum l x00) + b2z v.
Proof.
  intros H. destruct l as [|a [|b l]]; simpl in H; try lia.
  unfold fspOffsetSum. simpl.
  rewrite !sumBytes_cons. lia.
Qed.

Lemma replySum_recvSum (D : list byte) :
  (2 <= length D)%nat -> replySum D = recvSum D.
Proof.
  intros H. unfold replySum, recvSum, fold8.
  rewrite sumBytes_setSum by exact H.
  change (b2z x00) with 0. rewrite Z.add_0_r. reflexivity.
Qed.

(* ------------------------------------------------------------------ *)
(** ** Decode *)

Lemma read_ok_inv (p : fspPacket) (D : list byte) :
  snd (read p D) = None ->
  12 <= zlen D <= 14720 /\
  recvSum D = b2z (nth 1 D x00) /\
  Uint16 (nth 6 D x00) (nth 7 D x00) + 12 <= zlen D.
Proof.
  unfold read, FSPMaxPacket, FSPHSzie, FSPSpace, fspOffsetSum. simpl len.
  destruct (zlen D <? 12) eqn:E1; [discriminate|].
  destruct (zlen D >? 12 + 14708) eqn:E2; [discriminate|].
  destruct (recvSum D =? b2z (nth 1 D x00)) eqn:E3; simpl; [|discriminate].
  destruct (Uint16 (nth 6 D x00) (nth 7 D x00) + 12 >? zlen D) eqn:E4;
    simpl; [discriminate|].
  intros _. apply Z.eqb_eq in E3. lia.
Qed.

Lemma read_ok_intro (p : fspPacket) (D : list byte) :
  12 <= zlen D <= 14720 ->
  recvSum D = b2z (nth 1 D x00) ->
  Uint16 (nth 6 D x00) (nth 7 D x00) + 12 <= zlen D ->
  read p D =
  (mkPacket (b2z (nth 0 D x00)) (uint8 (recvSum D))
            (Uint16 (nth 2 D x00) (nth 3 D x00))
            (Uint16 (nth 4 D x00) (nth 5 D x00))
            (Uint16 (nth 6 D x00) (nth 7 D x00))
            (Uint32 (nth 8 D x00) (nth 9 D x00) (nth 10 D x00) (nth 11 D x00))
            (zlen D - Uint16 (nth 6 D x00) (nth 7 D x00) - 12)
            (mkSlice (skipn 12 D) (length (skipn 12 D))),
   None).
Proof.
  intros H1 H2 H3.
  unfold read, FSPMaxPacket, FSPHSzie, FSPSpace, fspOffsetSum. simpl len.
  destruct (zlen D <? 12) eqn:E1; [lia|].
  destruct (zlen D >? 12 + 14708) eqn:E2; [lia|].
  destruct (recvSum D =? b2z (nth 1 D x00)) eqn:E3;
    [| apply Z.eqb_neq in E3; contradiction].
  simpl negb. cbv iota.
  destruct (Uint16 (nth 6 D x00) (nth 7 D x00) + 12 >? zlen D) eqn:E4; [lia|].
  unfold set_buf, set_xlen. simpl.
  change (Pos.to_nat 12) with 12%nat.
  f_equal. f_equal.
  pose proof (Uint16_range (nth 6 D x00) (nth 7 D x00)).
  unfold uint16. change (2 ^ 16) with 65536.
  rewrite (Z.mod_small (zlen D)) by lia.
  apply Z.mod_small. lia.
Qed.

(** C2, as the code has it: Decode succeeds exactly when the datagram
    is 12 to 14,720 bytes long, [12 + len] fits in it, and the sum byte
    equals [(s + (s >> 8)) & 0xFF] with [s] the sum of the bytes with
    the sum byte zeroed; the datagram length is not part of [s]. *)
Theorem read_succeeds_iff (p : fspPacket) (D : list byte) :
  snd (read p D) = None <->
  (12 <= zlen D <= 14720 /\
   12 + Uint16 (nth 6 D x00) (nth 7 D x00) <= zlen D /\
   b2z (nth 1 D x00) = replySum D).
Proof.
  split.
  - intros H. apply read_ok_inv in H. destruct H as (H1 & H2 & H3).
    assert (2 <= length D)%nat by (unfold zlen in H1; lia).
    rewrite replySum_recvSum by assumption. lia.
  - intros (H1 & H2 & H3).
    assert (2 <= length D)%nat by (unfold zlen in H1; lia).
    rewrite replySum_recvSum in H3 by assumption.
    rewrite read_ok_intro; [reflexivity | lia | congruence | lia].
Qed.

(** C2 as stated fails: a twelve-byte VERSION datagram whose sum byte
    is the folded byte sum is decoded, although the sum with the length
    added differs from it. *)
Lemma read_ignores_length_in_sum :
  ~ (snd (read zeroPacket datagram_C2) = None <->
     (12 <= zlen datagram_C2 <= 14720 /\
      12 + Uint16 (nth 6 datagram_C2 x00) (nth 7 datagram_C2 x00)
        <= zlen datagram_C2 /\
      b2z (nth 1 datagram_C2 x00) = describedSum datagram_C2)).
Proof.
  intros [H _].
  assert (E : snd (read zeroPacket datagram_C2) = None) by reflexivity.
  destruct (H E) as (_ & _ & H3).
  vm_compute in H3. discriminate.
Qed.

(* ------------------------------------------------------------------ *)
(** ** Slices *)

Section SliceFacts.
Variable growslice : nat -> nat -> nat.

Lemma append_slen (s : slice) (xs : list byte) :
  slen (append growslice s xs) = (slen s + length xs)%nat.
Proof.
  unfold append. destruct (slen s + length xs <=? cap s)%nat; reflexivity.
Qed.

Lemma append_arr (s : slice) (xs : list byte) :
  wfSlice s ->
  exists rest, arr (append growslice s xs) = elems s ++ xs ++ rest.
Proof.
  intros _. unfold append, elems.
  destruct (slen s + length xs <=? cap s)%nat; simpl; eauto.
Qed.

Lemma append_wf (s : slice) (xs : list byte) :
  wfSlice s -> wfSlice (append growslice s xs).
Proof.
  unfold wfSlice, append. unfold cap. intros H.
  destruct (slen s + length xs <=? length (arr s))%nat eqn:E; cbn [arr slen].
  - apply Nat.leb_le in E.
    rewrite !length_app, length_firstn, length_skipn. lia.
  - rewrite !length_app, length_firstn. unfold zeros. rewrite repeat_length. lia.
Qed.

Lemma append_elems (s : slice) (xs : list byte) :
  wfSlice s -> elems (append growslice s xs) = elems s ++ xs.
Proof.
  intros H. destruct (append_arr s xs H) as [rest E].
  unfold elems at 1. rewrite append_slen, E.
  assert (L : length (elems s) = slen s).
  { unfold elems. rewrite length_firstn. unfold wfSlice, cap in H. lia. }
  rewrite app_assoc.
  rewrite firstn_app.
  rewrite length_app, L.
  replace (slen s + length xs - (slen s + length xs))%nat with 0%nat by lia.
  rewrite firstn_O, app_nil_r.
  apply firstn_all2. rewrite length_app, L. lia.
Qed.

End SliceFacts.

Lemma elems_length (s : slice) : wfSlice s -> length (elems s) = slen s.
Proof.
  unfold elems, wfSlice, cap. intros H. rewrite length_firstn. lia.
Qed.

(* ------------------------------------------------------------------ *)
(** ** The file-name payload builder *)

Section BuildFileName.
Variable growslice : nat -> nat -> nat.

Lemma fileNamePayload_length (f p : list byte) :
  zlen (fileNamePayload f p) =
  match p with [] => zlen f + 1 | _ :: _ => zlen f + zlen p + 2 end.
Proof.
  unfold fileNamePayload, zlen. destruct p; rewrite ?length_app; simpl;
    rewrite ?length_app; simpl; lia.
Qed.

Lemma buildFileName_fails_iff (pkt : fspPacket) (f p : list byte) :
  snd (buildFileName growslice pkt f p) = Some ErrFileNameTooLong <->
  zlen f + zlen p + 2 >= 14708.
Proof.
  unfold buildFileName, FSPSpace.
  destruct (zlen f + zlen p + 2 >=? 14708) eqn:E; simpl.
  - split; [intros _; lia | reflexivity].
  - split; [discriminate | intros H; lia].
Qed.

Lemma buildFileName_ok (pkt : fspPacket) (f p : list byte) :
  wfSlice (buf pkt) ->
  zlen f + zlen p + 2 < 14708 ->
  let r := buildFileName growslice pkt f p in
  snd r = None /\
  wfSlice (buf (fst r)) /\
  elems (buf (fst r)) = elems (buf pkt) ++ fileNamePayload f p /\
  len (fst r) = zlen (fileNamePayload f p) /\
  cmd (fst r) = cmd pkt /\ key (fst r) = key pkt /\ seq (fst r) = seq pkt /\
  pos (fst r) = pos pkt /\ xlen (fst r) = xlen pkt.
Proof.
  intros Hwf Hlen. unfold buildFileName, FSPSpace.
  destruct (zlen f + zlen p + 2 >=? 14708) eqn:E; [lia|]. clear E.
  assert (Hf : 0 <= zlen f) by (unfold zlen; lia).
  assert (Hp : 0 <= zlen p) by (unfold zlen; lia).
  rewrite fileNamePayload_length.
  destruct p as [|c p]; cbn -[append uint16 zlen].
  - repeat split; auto using append_wf.
    + rewrite !append_elems by auto using append_wf. unfold fileNamePayload.
      rewrite app_assoc. reflexivity.
    + unfold uint16. change (2 ^ 16) with 65536.
      rewrite (Z.mod_small (zlen f)) by lia.
      apply Z.mod_small. lia.
  - repeat split; auto using append_wf.
    + rewrite !append_elems by auto using append_wf. unfold fileNamePayload.
      rewrite <- !app_assoc. reflexivity.
    + unfold uint16. change (2 ^ 16) with 65536.
      rewrite (Z.mod_small (zlen f)) by lia.
      rewrite (Z.mod_small (zlen f + 1)) by lia.
      rewrite (Z.mod_small (zlen (c :: p))) by lia.
      rewrite (Z.mod_small (zlen f + 1 + zlen (c :: p))) by lia.
      rewrite Z.mod_small; lia.
Qed.

(** C7, as the code has it: on a fresh packet the builder puts
    [filename \n password \0] (or [filename \0] when the password is
    empty) in region A and sets [len] to its length; it reports
    name-too-long exactly when
    [len(filename) + len(password) + 2 >= 14708], whether or not a
    password is present. *)
Theorem buildFileName_spec (pkt : fspPacket) (f p : list byte)
    (Hfresh : slen (buf pkt) = 0%nat) :
  let r := buildFileName growslice pkt f p in
  (snd r = Some ErrFileNameTooLong <-> zlen f + zlen p + 2 >= 14708) /\
  (snd r <> Some ErrFileNameTooLong ->
   snd r = None /\
   regionA (fst r) = fileNamePayload f p /\
   len (fst r) = zlen (fileNamePayload f p)).
Proof.
  intros r. split; [apply buildFileName_fails_iff|].
  intros Hne.
  assert (Hlt : zlen f + zlen p + 2 < 14708).
  { destruct (Z_lt_ge_dec (zlen f + zlen p + 2) 14708) as [H|H]; [exact H|].
    exfalso. apply Hne. apply buildFileName_fails_iff. exact H. }
  assert (Hwf : wfSlice (buf pkt)) by (unfold wfSlice; lia).
  destruct (buildFileName_ok pkt f p Hwf Hlt)
    as (H1 & H2 & H3 & H4 & _).
  fold r in H1, H2, H3, H4.
  repeat split; auto.
  assert (He : elems (buf pkt) = []).
  { unfold elems. rewrite Hfresh. reflexivity. }
  rewrite He in H3. simpl in H3.
  unfold regionA. rewrite H4. unfold zlen. rewrite Nat2Z.id.
  assert (L : length (fileNamePayload f p) = slen (buf (fst r)))
    by (rewrite <- H3; apply elems_length; exact H2).
  rewrite L. exact H3.
Qed.

End BuildFileName.

(** The builder at work, on [a] without a password. *)
Lemma buildFileName_spec_witness :
  let r := buildFileName grow8 zeroPacket [x61] [] in
  (snd r = Some ErrFileNameTooLong <-> zlen [x61] + zlen (@nil byte) + 2 >= 14708) /\
  (snd r <> Some ErrFileNameTooLong ->
   snd r = None /\
   regionA (fst r) = fileNamePayload [x61] [] /\
   len (fst r) = zlen (fileNamePayload [x61] [])).
Proof.
  apply (buildFileName_spec grow8 zeroPacket [x61] []). reflexivity.
Defined.

(** C7 as stated fails: a name of 14,706 bytes without a password
    serializes to 14,707 bytes, which does not exceed 14,708, and is
    refused all the same. *)
Lemma buildFileName_refuses_below_limit :
  ~ (snd (buildFileName growExact zeroPacket longName []) = Some ErrFileNameTooLong
     <-> zlen (fileNamePayload longName []) > 14708).
Proof.
  intros [H _].
  assert (L : zlen longName = 14706).
  { unfold zlen, longName. rewrite repeat_length. reflexivity. }
  assert (E : snd (buildFileName growExact zeroPacket longName [])
              = Some ErrFileNameTooLong).
  { apply buildFileName_fails_iff. rewrite L. unfold zlen. simpl. lia. }
  apply H in E. rewrite fileNamePayload_length, L in E. lia.
Qed.

(* ------------------------------------------------------------------ *)
(** ** The key store *)




(* ------------------------------------------------------------------ *)
(** ** The transaction engine *)

Section Transaction.
Variable GetFile2 : Z.

Lemma validReply_dec (base : Z) (pkt resp : fspPacket) :
  validReply base pkt resp <->
  (negb (Z.land (seq resp) 0xfff8 =? base) = false /\
   negb (cmd resp =? cmd pkt) && negb (cmd resp =? FSPCommandErr) = false /\
   negb (pos resp =? pos pkt) && posCommand (cmd pkt) = false).
Proof.
  unfold validReply.
  destruct (Z.eqb_spec (Z.land (seq resp) 0xfff8) base);
    destruct (Z.eqb_spec (cmd resp) (cmd pkt));
    destruct (Z.eqb_spec (cmd resp) FSPCommandErr);
    destruct (Z.eqb_spec (pos resp) (pos pkt));
    destruct (posCommand (cmd pkt)); simpl; intuition (try discriminate; auto).
Qed.

(** One datagram that does not decode: dropped, nothing counted, the
    next read is armed with the same delay. *)
Lemma recvLoop_drop_undecodable s pkt resp delay tr d rs :
  firstn (Z.to_nat FSPMaxPacket) d <> [] ->
  snd (read resp (firstn (Z.to_nat FSPMaxPacket) d)) <> None ->
  recvLoop GetFile2 s pkt resp delay tr (Some d :: rs) =
  recvLoop GetFile2 s pkt (fst (read resp (firstn (Z.to_nat FSPMaxPacket) d)))
           delay (EvDeadline delay :: tr) rs.
Proof.
  intros Hne Herr. cbn [recvLoop].
  destruct (firstn (Z.to_nat FSPMaxPacket) d) as [|b buff] eqn:E;
    [contradiction|].
  replace (zlen (b :: buff) <=? 0) with false
    by (symmetry; apply Z.leb_gt; unfold zlen; simpl length; lia).
  destruct (read resp (b :: buff)) as [resp1 [e|]]; simpl in *.
  - reflexivity.
  - contradiction.
Qed.

(** One datagram that decodes but fails the sequence, command or
    position check: dropped and counted as a duplicate. *)
Lemma recvLoop_drop_duplicate s pkt resp delay tr d rs :
  firstn (Z.to_nat FSPMaxPacket) d <> [] ->
  snd (read resp (firstn (Z.to_nat FSPMaxPacket) d)) = None ->
  ~ validReply (sseq s) pkt (fst (read resp (firstn (Z.to_nat FSPMaxPacket) d))) ->
  recvLoop GetFile2 s pkt resp delay tr (Some d :: rs) =
  recvLoop GetFile2 (set_dupes (uint64 (dupes s + 1)) s) pkt
           (fst (read resp (firstn (Z.to_nat FSPMaxPacket) d)))
           delay (EvDeadline delay :: tr) rs.
Proof.
  intros Hne Hok Hbad. cbn [recvLoop].
  destruct (firstn (Z.to_nat FSPMaxPacket) d) as [|b buff] eqn:E;
    [contradiction|].
  replace (zlen (b :: buff) <=? 0) with false
    by (symmetry; apply Z.leb_gt; unfold zlen; simpl length; lia).
  destruct (read resp (b :: buff)) as [resp1 [e|]]; simpl in *;
    [discriminate|].
  rewrite validReply_dec in Hbad.
  destruct (negb (Z.land (seq resp1) 65528 =? sseq s)); [reflexivity|].
  destruct (negb (cmd resp1 =? cmd pkt) && negb (cmd resp1 =? FSPCommandErr));
    [reflexivity|].
  destruct (negb (pos resp1 =? pos pkt) && posCommand (cmd pkt));
    [reflexivity|].
  exfalso. apply Hbad. auto.
Qed.

Lemma clientSetKey_sseq s k : sseq (clientSetKey s k) = sseq s.
Proof. reflexivity. Qed.

(** What is known when the inner loop returns a reply. *)
Lemma recvLoop_return s pkt resp delay tr rs s' resp' e rs' tr' :
  recvLoop GetFile2 s pkt resp delay tr rs = RecvReturn s' resp' e rs' tr' ->
  exists pre d resp0,
    rs = pre ++ Some d :: rs' /\
    read resp0 (firstn (Z.to_nat FSPMaxPacket) d) = (resp', None) /\
    validReply (sseq s) pkt resp' /\
    sseq s' = sseq s /\
    e <> Some ErrTimeout.
Proof.
  revert s resp tr.
  induction rs as [|[d|] rs IH]; intros s resp tr H; cbn [recvLoop] in H.
  - discriminate.
  - destruct (zlen (firstn (Z.to_nat FSPMaxPacket) d) <=? 0); [discriminate|].
    destruct (read resp (firstn (Z.to_nat FSPMaxPacket) d))
      as [resp1 [e1|]] eqn:R.
    + apply IH in H. destruct H as (pre & d0 & resp0 & E & H).
      exists (Some d :: pre), d0, resp0. rewrite E. split; [reflexivity|exact H].
    + destruct (negb (Z.land (seq resp1) 65528 =? sseq s)) eqn:C1.
      { apply IH in H. destruct H as (pre & d0 & resp0 & E & H).
        exists (Some d :: pre), d0, resp0. rewrite E.
        split; [reflexivity|exact H]. }
      destruct (negb (cmd resp1 =? cmd pkt) && negb (cmd resp1 =? FSPCommandErr))
        eqn:C2.
      { apply IH in H. destruct H as (pre & d0 & resp0 & E & H).
        exists (Some d :: pre), d0, resp0. rewrite E.
        split; [reflexivity|exact H]. }
      destruct (negb (pos resp1 =? pos pkt) && posCommand (cmd pkt)) eqn:C3.
      { apply IH in H. destruct H as (pre & d0 & resp0 & E & H).
        exists (Some d :: pre), d0, resp0. rewrite E.
        split; [reflexivity|exact H]. }
      exists [], d, resp.
      assert (V : validReply (sseq s) pkt resp1)
        by (apply validReply_dec; auto).
      destruct (cmd resp1 =? FSPCommandErr).
      * inversion H; subst. repeat split; try apply V; auto. discriminate.
      * destruct ((cmd resp1 =? FSPCommandGetFile) || (cmd resp1 =? GetFile2));
          inversion H; subst; repeat split; try apply V; auto; discriminate.
  - discriminate.
Qed.

Lemma recvLoop_break s pkt resp delay tr rs s' resp' rs' tr' :
  recvLoop GetFile2 s pkt resp delay tr rs = RecvBreak s' resp' rs' tr' ->
  (exists pre, rs = pre ++ rs') /\ sseq s' = sseq s.
Proof.
  revert s resp tr.
  induction rs as [|[d|] rs IH]; intros s resp tr H; cbn [recvLoop] in H.
  - inversion H; subst. split; [exists []; reflexivity | reflexivity].
  - destruct (zlen (firstn (Z.to_nat FSPMaxPacket) d) <=? 0).
    { inversion H; subst. split; [exists [Some d]; reflexivity | reflexivity]. }
    assert (K : forall s0 resp0 tr0,
               recvLoop GetFile2 s0 pkt resp0 delay tr0 rs = RecvBreak s' resp' rs' tr' ->
               sseq s0 = sseq s ->
               (exists pre, Some d :: rs = pre ++ rs') /\ sseq s' = sseq s).
    { intros s0 resp0 tr0 H0 Hs. apply IH in H0.
      destruct H0 as [[pre E] H0]. split; [|congruence].
      exists (Some d :: pre). rewrite E. reflexivity. }
    destruct (read resp (firstn (Z.to_nat FSPMaxPacket) d))
      as [resp1 [e1|]] eqn:R.
    + eapply K; eauto.
    + destruct (negb (Z.land (seq resp1) 65528 =? sseq s)).
      { eapply K; eauto. }
      destruct (negb (cmd resp1 =? cmd pkt) && negb (cmd resp1 =? FSPCommandErr)).
      { eapply K; eauto. }
      destruct (negb (pos resp1 =? pos pkt) && posCommand (cmd pkt)).
      { eapply K; eauto. }
      destruct (cmd resp1 =? FSPCommandErr); [discriminate|].
      destruct ((cmd resp1 =? FSPCommandGetFile) || (cmd resp1 =? GetFile2));
        discriminate.
  - inversion H; subst. split; [exists [None]; reflexivity | reflexivity].
Qed.

Lemma write_reads s pkt n e n' :
  write s pkt n = Ret (e, n') -> reads n' = reads n /\ clock n' = clock n.
Proof.
  unfold write. destruct (write_sendBuff (pktSize (trans s)) pkt) as [[e0|d]|p|];
    simpl; try discriminate.
  - intros H. inversion H; subst. auto.
  - destruct (sendOk n) as [|[|] oks]; intros H; inversion H; subst; auto.
Qed.


Lemma sendLoop_accept s pkt resp retry delay n cl r :
  sendLoop GetFile2 s pkt resp retry delay n cl = Ret r ->
  txErr r <> Some ErrTimeout ->
  exists d resp0,
    In (Some d) (reads n) /\
    read resp0 (firstn (Z.to_nat FSPMaxPacket) d) = (txResp r, None) /\
    validReply (sseq s) pkt (txResp r) /\
    sseq (txSession r) = sseq s.
Proof.
  revert s pkt resp retry delay n.
  induction cl as [|[|] cl IH]; intros s pkt resp retry delay n H Hne;
    cbn [sendLoop] in H.
  - inversion H; subst. simpl in Hne. contradiction.
  - inversion H; subst. simpl in Hne. contradiction.
  - destruct (write s _ n) as [[[e|] n1]|p|] eqn:W; cbn [bind] in H;
      try discriminate.
    + apply write_reads in W. destruct W as [W _].
      apply IH in H; [|exact Hne].
      destruct H as (d & resp0 & Hin & Hr & Hv & Hq).
      exists d, resp0. 
      simpl in Hin. rewrite W in Hin.
      split; [exact Hin|]. split; [exact Hr|]. split; [exact Hv|exact Hq].
    + apply write_reads in W. destruct W as [W _].
      destruct (recvLoop GetFile2 s _ resp _ (trace n1) (reads n1))
        as [s1 resp1 rs1 tr1 | s1 resp1 e1 rs1 tr1] eqn:R.
      * apply recvLoop_break in R. destruct R as [[pre E] Hs].
        apply IH in H; [|exact Hne].
        destruct H as (d & resp0 & Hin & Hr & Hv & Hq).
        exists d, resp0. cbn [reads set_trace set_reads] in Hin.
        rewrite Hs in Hv, Hq. 
        split; [|split; [exact Hr|split; [exact Hv|exact Hq]]].
        rewrite <- W, E. apply in_or_app. right. exact Hin.
      * apply recvLoop_return in R.
        destruct R as (pre & d & resp0 & E & Hr & Hv & Hs & _).
        inversion H; subst. cbn [txResp txSession].
        exists d, resp0.
        split; [|split; [exact Hr|split; [exact Hv|exact Hs]]].
        rewrite <- W, E. apply in_or_app. right. left. reflexivity.
Qed.

Lemma base_masked (b k : Z) :
  Z.land b 0xfff8 = b -> Z.land (Z.lor b (Z.land k 0x7)) 0xfff8 = b.
Proof.
  intros Hb. rewrite Z.land_lor_distr_l, Hb.
  rewrite <- Z.land_assoc. change (Z.land 7 65528) with 0.
  rewrite Z.land_0_r, Z.lor_0_r. reflexivity.
Qed.

Lemma land_lxor_distr (a b c : Z) :
  Z.land (Z.lxor a b) c = Z.lxor (Z.land a c) (Z.land b c).
Proof.
  apply Z.bits_inj'. intros i Hi.
  rewrite !Z.land_spec, !Z.lxor_spec, !Z.land_spec.
  destruct (Z.testbit a i), (Z.testbit b i), (Z.testbit c i); reflexivity.
Qed.

Lemma nextBase_masked s n : Z.land (nextBase s n) 0xfff8 = nextBase s n.
Proof.
  unfold nextBase. cbv zeta.
  destruct (Z.eqb_spec (sseq s) (Z.land (fst (randUint16 n)) 65528)) as [E|E].
  - rewrite E, land_lxor_distr.
    rewrite <- Z.land_assoc. reflexivity.
  - rewrite <- Z.land_assoc. reflexivity.
Qed.

Lemma sendLoop_seq s pkt resp retry delay n cl r :
  sendLoop GetFile2 s pkt resp retry delay n cl = Ret r ->
  txErr r <> Some ErrTimeout ->
  exists k, seq (txPkt r) = Z.lor (sseq s) (Z.land k 0x7).
Proof.
  revert s pkt resp retry delay n.
  induction cl as [|[|] cl IH]; intros s pkt resp retry delay n H Hne;
    cbn [sendLoop] in H.
  - inversion H; subst. cbn [txErr] in Hne. contradiction.
  - inversion H; subst. cbn [txErr] in Hne. contradiction.
  - destruct (write s _ n) as [[[e|] n1]|p|] eqn:W; cbn [bind] in H;
      try discriminate.
    + exact (IH _ _ _ _ _ _ H Hne).
    + destruct (recvLoop GetFile2 s _ resp _ (trace n1) (reads n1))
        as [s1 resp1 rs1 tr1 | s1 resp1 e1 rs1 tr1] eqn:R.
      * apply recvLoop_break in R. destruct R as [_ Hs].
        destruct (IH _ _ _ _ _ _ H Hne) as [k Hk].
        exists k. rewrite Hk, Hs. reflexivity.
      * inversion H; subst. cbn [txPkt seq set_seq]. eauto.
Qed.


(** Every read is armed with a deadline of its own, the full delay of
    the round: the loop records one for each datagram it takes from
    the socket, and one when the read fails. *)
Lemma recvLoop_deadline_per_read pkt delay rs : forall s resp tr,
  exists k,
    (1 <= k)%nat /\
    (length rs
     <= k + length (recvRest (recvLoop GetFile2 s pkt resp delay tr rs)))%nat /\
    recvTrace (recvLoop GetFile2 s pkt resp delay tr rs)
    = repeat (EvDeadline delay) k ++ tr.
Proof.
  induction rs as [|[d|] rs IH]; intros s resp tr; cbn [recvLoop].
  - exists 1%nat. cbn. repeat split; lia.
  - assert (K : forall s0 resp0,
               exists k,
                 (1 <= k)%nat /\
                 (length (Some d :: rs)
                  <= k + length (recvRest
                                   (recvLoop GetFile2 s0 pkt resp0 delay
                                             (EvDeadline delay :: tr) rs)))%nat /\
                 recvTrace (recvLoop GetFile2 s0 pkt resp0 delay
                                     (EvDeadline delay :: tr) rs)
                 = repeat (EvDeadline delay) k ++ tr).
    { intros s0 resp0.
      destruct (IH s0 resp0 (EvDeadline delay :: tr)) as (k & K1 & K2 & K3).
      exists (S k). split; [lia|]. split; [cbn [length]; lia|].
      rewrite K3.
      change (repeat (EvDeadline delay) (S k) ++ tr)
        with ((EvDeadline delay :: repeat (EvDeadline delay) k) ++ tr).
      rewrite repeat_cons, <- app_assoc. reflexivity. }
    destruct (zlen (firstn (Z.to_nat FSPMaxPacket) d) <=? 0).
    { exists 1%nat. cbn. repeat split; lia. }
    destruct (read resp (firstn (Z.to_nat FSPMaxPacket) d))
      as [resp1 [e1|]].
    + apply K.
    + destruct (negb (Z.land (seq resp1) 65528 =? sseq s)); [apply K|].
      destruct (negb (cmd resp1 =? cmd pkt) && negb (cmd resp1 =? FSPCommandErr));
        [apply K|].
      destruct (negb (pos resp1 =? pos pkt) && posCommand (cmd pkt));
        [apply K|].
      exists 1%nat.
      destruct (cmd resp1 =? FSPCommandErr);
        [|destruct ((cmd resp1 =? FSPCommandGetFile) || (cmd resp1 =? GetFile2))];
        cbn; repeat split; lia.
  - exists 1%nat. cbn. repeat split; lia.
Qed.

(** C3, amended: [transaction] hands back a reply only if a datagram
    that was read decodes without error and passes the sequence-base,
    command and position checks, the base being the one in the [seq]
    of the request as sent; a non-empty datagram that does not decode
    is dropped, one that decodes and fails a check is dropped and
    counted in [dupes], and in both cases the loop reads again with
    nothing sent; a read that delivers no byte is not dropped: it ends
    the loop as a failed read does, and the request goes out again;
    every read is armed with a deadline of its own, the full delay of
    the round, not with what is left of an earlier one. *)
Theorem transaction_reply_checked :
  (forall s pkt n r,
     transaction GetFile2 s pkt n = Ret r ->
     txErr r <> Some ErrTimeout ->
     exists d resp0,
       In (Some d) (reads n) /\
       read resp0 (firstn (Z.to_nat FSPMaxPacket) d) = (txResp r, None) /\
       validReply (sseq (txSession r)) pkt (txResp r) /\
       Z.land (seq (txPkt r)) 0xfff8 = sseq (txSession r)) /\
  (forall s pkt resp delay tr d rs,
     let buff := firstn (Z.to_nat FSPMaxPacket) d in
     buff <> [] ->
     (snd (read resp buff) <> None ->
      recvLoop GetFile2 s pkt resp delay tr (Some d :: rs) =
      recvLoop GetFile2 s pkt (fst (read resp buff)) delay
               (EvDeadline delay :: tr) rs) /\
     (snd (read resp buff) = None ->
      ~ validReply (sseq s) pkt (fst (read resp buff)) ->
      recvLoop GetFile2 s pkt resp delay tr (Some d :: rs) =
      recvLoop GetFile2 (set_dupes (uint64 (dupes s + 1)) s) pkt
               (fst (read resp buff)) delay (EvDeadline delay :: tr) rs)) /\
  (forall s pkt resp delay tr rs,
     recvLoop GetFile2 s pkt resp delay tr (Some [] :: rs) =
     RecvBreak (clientSetKey s (key pkt)) resp rs (EvDeadline delay :: tr)) /\
  (forall s pkt resp delay tr rs,
     exists k,
       (1 <= k)%nat /\
       (length rs
        <= k + length (recvRest (recvLoop GetFile2 s pkt resp delay tr rs)))%nat /\
       recvTrace (recvLoop GetFile2 s pkt resp delay tr rs)
       = repeat (EvDeadline delay) k ++ tr).
Proof.
  split; [|split; [|split]].
  - intros s pkt n r H Hne. unfold transaction in H.
    destruct (randUint16 n) as [v n1] eqn:Rn.
    assert (Hreads : reads n1 = reads n).
    { unfold randUint16 in Rn. destruct (rands n); inversion Rn; reflexivity. }
    pose proof (sendLoop_seq _ _ _ _ _ _ _ _ H Hne) as [k Hk].
    apply sendLoop_accept in H; [|exact Hne].
    destruct H as (d & resp0 & Hin & Hr & Hv & Hs).
    exists d, resp0. rewrite Hs. rewrite <- Hreads.
    split; [exact Hin|]. split; [exact Hr|].
    split; [destruct (sseq s =? Z.land v 65528); exact Hv|].
    rewrite Hk. apply base_masked.
    pose proof (nextBase_masked s n) as B. unfold nextBase in B.
    rewrite Rn in B. cbn [fst] in B. cbv zeta in B.
    destruct (sseq s =? Z.land v 65528); exact B.
  - intros s pkt resp delay tr d rs buff Hne. split.
    + apply recvLoop_drop_undecodable. exact Hne.
    + apply recvLoop_drop_duplicate. exact Hne.
  - intros s pkt resp delay tr rs. cbn [recvLoop].
    rewrite firstn_nil. reflexivity.
  - intros s pkt resp delay tr rs. apply recvLoop_deadline_per_read.
Qed.

End Transaction.

(** A VERSION exchange: the datagram with the wrong sum is dropped, the
    stale reply is dropped and counted, the third datagram is handed
    back, after three reads armed with the same delay and one send. *)
Lemma transaction_reply_checked_witness :
  exists r d resp0,
    transaction getFile2 (session0 [] defaultLock) versionPkt
                netThreeDatagrams = Ret r /\
    txErr r = None /\ dupes (txSession r) = 1 /\
    regionA (txResp r) = [x66; x73; x70; x64] /\
    lock (txSession r) = [x37] /\
    trace (txNet r) =
      [EvDeadline (1340 * msec); EvDeadline (1340 * msec);
       EvDeadline (1340 * msec);
       EvSend [x10; x9e; x35; x0b; x12; x30; x00; x00; x00; x00; x00; x00]] /\
    In (Some d) (reads netThreeDatagrams) /\
    read resp0 (firstn (Z.to_nat FSPMaxPacket) d) = (txResp r, None) /\
    validReply (sseq (txSession r)) versionPkt (txResp r).
Proof.
  assert (R : exists r,
             transaction getFile2 (session0 [] defaultLock) versionPkt
                         netThreeDatagrams = Ret r /\
             txErr r = None /\ dupes (txSession r) = 1 /\
             regionA (txResp r) = [x66; x73; x70; x64] /\
             lock (txSession r) = [x37] /\
             trace (txNet r) =
               [EvDeadline (1340 * msec); EvDeadline (1340 * msec);
                EvDeadline (1340 * msec);
                EvSend [x10; x9e; x35; x0b; x12; x30; x00; x00; x00; x00;
                        x00; x00]])
    by (eexists; split; [vm_compute; reflexivity|];
        split; [reflexivity|]; split; [reflexivity|];
        split; [reflexivity|]; split; reflexivity).
  destruct R as (r & R & E & Hd & Ha & Hl & Ht).
  destruct (transaction_reply_checked getFile2) as [H _].
  destruct (H _ _ _ _ R) as (d & resp0 & H1 & H2 & H3 & _).
  { rewrite E. discriminate. }
  exists r, d, resp0. repeat split; try assumption; apply H3.
Defined.

(** C3 as stated fails for an empty datagram: it does not decode, yet
    it is not dropped with the engine reading on, which would hand
    back the reply that follows; the read loop ends, and the request
    is sent again, with the retry count 1 in [seq] and a longer delay,
    before the reply is read. *)
Lemma empty_datagram_ends_reading :
  exists r d1 d2,
    snd (read zeroPacket []) = Some ErrRecvTooShort /\
    recvLoop getFile2 (set_sseq 4656 (session0 [] defaultLock))
             (set_seq 4656 (set_key 13579 versionPkt)) zeroPacket
             (1340 * msec) [] [Some []; Some versionReply]
    <> recvLoop getFile2 (set_sseq 4656 (session0 [] defaultLock))
                (set_seq 4656 (set_key 13579 versionPkt))
                (fst (read zeroPacket [])) (1340 * msec)
                [EvDeadline (1340 * msec)] [Some versionReply] /\
    transaction getFile2 (session0 [] defaultLock) versionPkt
                netEmptyDatagram = Ret r /\
    txErr r = None /\ dupes (txSession r) = 0 /\
    trace (txNet r) =
      [EvDeadline (Z.quot (1340 * msec * 3) 2); EvSend d2;
       EvDeadline (1340 * msec); EvSend d1] /\
    Uint16 (nth 4 d1 x00) (nth 5 d1 x00) = 4656 /\
    Uint16 (nth 4 d2 x00) (nth 5 d2 x00) = 4657.
Proof.
  do 3 eexists.
  split; [reflexivity|].
  split; [vm_compute; discriminate|].
  split; [vm_compute; reflexivity|].
  split; [reflexivity|]. split; [reflexivity|].
  split; [vm_compute; reflexivity|].
  split; vm_compute; reflexivity.
Qed.

(* ------------------------------------------------------------------ *)
(** ** The key of a new session *)



Section KeyOnTheWire.
Variable GetFile2 : Z.



End KeyOnTheWire.




(* ------------------------------------------------------------------ *)
(** ** Encode, then decode *)

Lemma regionA_length (p : fspPacket) :
  0 <= len p <= Z.of_nat (cap (buf p)) -> zlen (regionA p) = len p.
Proof.
  intros H. unfold zlen, regionA, cap in *. rewrite length_firstn. lia.
Qed.

Lemma regionB_length (p : fspPacket) :
  0 <= len p -> 0 <= xlen p -> len p + xlen p <= Z.of_nat (cap (buf p)) ->
  zlen (regionB p) = xlen p.
Proof.
  intros H1 H2 H3. unfold zlen, regionB, cap in *.
  rewrite length_firstn, length_skipn. lia.
Qed.

Lemma wireB_length (ps : Z) (p : fspPacket) :
  0 <= len p -> 0 <= xlen p -> len p + xlen p <= Z.of_nat (cap (buf p)) ->
  zlen (wireB ps p) =
  if cmd p =? FSPCommandGetFile then (if xlen p =? 2 then 2 else 0)
  else xlen p.
Proof.
  intros H1 H2 H3. unfold wireB.
  destruct (cmd p =? FSPCommandGetFile).
  - destruct (xlen p =? 2); reflexivity.
  - apply regionB_length; assumption.
Qed.

Lemma firstn_zlen {A} (l : list A) (n : Z) :
  zlen l = n -> firstn (Z.to_nat n) l = l.
Proof.
  intros H. apply firstn_all2. unfold zlen in H. lia.
Qed.

(** The datagram [write] produces. *)
Lemma write_sendBuff_frame (ps : Z) (p : fspPacket) :
  wfPacket p ->
  len p + xlen p <= FSPSpace ->
  len p + xlen p <= Z.of_nat (cap (buf p)) ->
  let body := headerBytes x00 p ++ regionA p ++ wireB ps p in
  write_sendBuff ps p =
  Ret (inr (headerBytes (z2b (sendSum body (zlen body))) p
              ++ regionA p ++ wireB ps p)).
Proof.
  intros (Hc & Hk & Hs & Hl & Hp & Hx) Hsp Hcap body.
  unfold FSPSpace in Hsp.
  assert (LA : zlen (regionA p) = len p) by (apply regionA_length; lia).
  assert (LB := wireB_length ps p ltac:(lia) ltac:(lia) Hcap).
  unfold write_sendBuff.
  assert (U : uint16 (xlen p + len p) = xlen p + len p).
  { unfold uint16. apply Z.mod_small. change (2 ^ 16) with 65536. lia. }
  rewrite U. unfold FSPSpace.
  destruct (xlen p + len p >? 14708) eqn:E; [lia|]. clear E.
  assert (SA : subSlice (buf p) 0 (len p) = Ret (regionA p)).
  { unfold subSlice.
    replace ((0 <=? 0) && (0 <=? len p) && (len p <=? Z.of_nat (cap (buf p))))
      with true by (symmetry; rewrite !andb_true_iff, !Z.leb_le; lia).
    rewrite Z.sub_0_r. reflexivity. }
  rewrite SA. cbn [bind].
  assert (R : (if cmd p =? FSPCommandGetFile
               then if xlen p =? 2
                    then Ret ((([z2b (cmd p); x00] ++ PutUint16 (key p)
                                 ++ PutUint16 (seq p) ++ PutUint16 (len p)
                                 ++ PutUint32 (pos p)) ++ regionA p)
                                ++ PutUint16 ps, FSPHSzie + len p + xlen p)
                    else Ret (([z2b (cmd p); x00] ++ PutUint16 (key p)
                                 ++ PutUint16 (seq p) ++ PutUint16 (len p)
                                 ++ PutUint32 (pos p)) ++ regionA p,
                              FSPHSzie + len p)
               else if xlen p >? 0
                    then b <- subSlice (buf p) (len p) (uint16 (len p + xlen p)) ;;
                         Ret ((([z2b (cmd p); x00] ++ PutUint16 (key p)
                                  ++ PutUint16 (seq p) ++ PutUint16 (len p)
                                  ++ PutUint32 (pos p)) ++ regionA p) ++ b,
                              FSPHSzie + len p + xlen p)
                    else Ret (([z2b (cmd p); x00] ++ PutUint16 (key p)
                                 ++ PutUint16 (seq p) ++ PutUint16 (len p)
                                 ++ PutUint32 (pos p)) ++ regionA p,
                              FSPHSzie + len p))
              = Ret (body, zlen body)).
  { assert (LH : zlen body = 12 + len p + zlen (wireB ps p)).
    { unfold body, zlen in *. rewrite !length_app. simpl length. lia. }
    rewrite LH, LB. unfold body, headerBytes, wireB, FSPHSzie.
    destruct (cmd p =? FSPCommandGetFile).
    - destruct (xlen p =? 2) eqn:E2.
      + apply Z.eqb_eq in E2. rewrite E2, <- !app_assoc. reflexivity.
      + rewrite app_nil_r, Z.add_0_r. reflexivity.
    - destruct (xlen p >? 0) eqn:E0.
      + unfold subSlice.
        replace (uint16 (len p + xlen p)) with (len p + xlen p)
          by (rewrite Z.add_comm; symmetry; exact U).
        replace ((0 <=? len p) && (len p <=? len p + xlen p)
                 && (len p + xlen p <=? Z.of_nat (cap (buf p))))
          with true by (symmetry; rewrite !andb_true_iff, !Z.leb_le; lia).
        cbn [bind]. replace (len p + xlen p - len p) with (xlen p) by lia.
        unfold regionB. rewrite <- !app_assoc. reflexivity.
      + assert (X0 : xlen p = 0) by lia.
        unfold regionB. rewrite X0. change (Z.to_nat 0) with 0%nat.
        rewrite firstn_O, app_nil_r, Z.add_0_r. reflexivity. }
  rewrite R. cbn [bind].
  rewrite (firstn_zlen body (zlen body) eq_refl).
  unfold body at 2. unfold headerBytes. cbn [app setByte fspOffsetSum].
  rewrite firstn_zlen; [reflexivity|].
  unfold body, headerBytes, zlen. cbn [app length]. reflexivity.
Qed.

Lemma read_bad_sum (p : fspPacket) (D : list byte) :
  12 <= zlen D <= 14720 ->
  recvSum D <> b2z (nth 1 D x00) ->
  read p D = (p, Some (ErrChecksum (recvSum D) (b2z (nth 1 D x00)))).
Proof.
  intros H1 H2.
  unfold read, FSPMaxPacket, FSPHSzie, FSPSpace, fspOffsetSum.
  destruct (zlen D <? 12) eqn:E1; [lia|].
  destruct (zlen D >? 12 + 14708) eqn:E2; [lia|].
  destruct (recvSum D =? b2z (nth 1 D x00)) eqn:E3;
    [apply Z.eqb_eq in E3; contradiction|].
  reflexivity.
Qed.

(** C1, as the code has it: for a packet whose payload fits, [write]
    produces header, region A and region B with a sum byte that counts
    the datagram length; [read], which does not count the length,
    rejects that datagram with a checksum error unless the two sums
    happen to agree, and when they agree it reconstructs [cmd], [key],
    [seq], [len], [pos], region A and the region B that was put on the
    wire (the buffer's region B, except for GET_FILE). *)
Theorem write_read_roundtrip (pktSize : Z) (P p0 : fspPacket)
    (Hwf : wfPacket P)
    (Hfit : len P + xlen P <= FSPSpace)
    (Hcap : len P + xlen P <= Z.of_nat (cap (buf P))) :
  exists D,
    write_sendBuff pktSize P = Ret (inr D) /\
    b2z (nth 1 D x00) = sendSum (setByte fspOffsetSum x00 D) (zlen D) /\
    (recvSum D <> b2z (nth 1 D x00) ->
     read p0 D = (p0, Some (ErrChecksum (recvSum D) (b2z (nth 1 D x00))))) /\
    (recvSum D = b2z (nth 1 D x00) ->
     exists P',
       read p0 D = (P', None) /\
       cmd P' = cmd P /\ key P' = key P /\ seq P' = seq P /\
       len P' = len P /\ pos P' = pos P /\
       regionA P' = regionA P /\
       regionB P' = wireB pktSize P /\
       (cmd P <> FSPCommandGetFile ->
        xlen P' = xlen P /\ regionB P' = regionB P)).
Proof.
  pose proof (write_sendBuff_frame pktSize P Hwf Hfit Hcap) as HW.
  cbv zeta in HW.
  destruct Hwf as (Hc & Hk & Hs & Hl & Hp & Hx). unfold FSPSpace in Hfit.
  assert (LA : zlen (regionA P) = len P) by (apply regionA_length; lia).
  assert (LB := wireB_length pktSize P ltac:(lia) ltac:(lia) Hcap).
  set (body := headerBytes x00 P ++ regionA P ++ wireB pktSize P) in *.
  set (c := z2b (sendSum body (zlen body))) in *.
  set (D := headerBytes c P ++ regionA P ++ wireB pktSize P) in *.
  assert (LD : zlen D = 12 + len P + zlen (wireB pktSize P)).
  { unfold D, headerBytes, zlen in *. rewrite !length_app. simpl length. lia. }
  assert (LW : 0 <= zlen (wireB pktSize P) <= xlen P).
  { rewrite LB. destruct (cmd P =? FSPCommandGetFile); [|lia].
    destruct (xlen P =? 2) eqn:E; [apply Z.eqb_eq in E|]; lia. }
  assert (Hbody : setByte fspOffsetSum x00 D = body) by reflexivity.
  assert (Hlen : zlen D = zlen body).
  { unfold D, body, headerBytes, zlen. rewrite !length_app. reflexivity. }
  assert (N1 : nth 1 D x00 = c) by reflexivity.
  exists D. split; [exact HW|]. split; [|split].
  - rewrite Hbody, Hlen, N1. unfold c. rewrite b2z_z2b_small; [reflexivity|].
    unfold sendSum, uint8. apply Z.mod_pos_bound. reflexivity.
  - intros Hbad. apply read_bad_sum; [lia | exact Hbad].
  - intros Hgood.
    assert (N6 : Uint16 (nth 6 D x00) (nth 7 D x00) = len P).
    { unfold D, headerBytes, PutUint16. cbn [app nth].
      apply Uint16_PutUint16. exact Hl. }
    eexists. split.
    { apply read_ok_intro; [lia | exact Hgood | rewrite N6; lia]. }
    assert (SK : skipn 12 D = regionA P ++ wireB pktSize P) by reflexivity.
    assert (RA : regionA
                   (mkPacket (b2z (nth 0 D x00)) (uint8 (recvSum D))
                      (Uint16 (nth 2 D x00) (nth 3 D x00))
                      (Uint16 (nth 4 D x00) (nth 5 D x00))
                      (Uint16 (nth 6 D x00) (nth 7 D x00))
                      (Uint32 (nth 8 D x00) (nth 9 D x00) (nth 10 D x00)
                              (nth 11 D x00))
                      (zlen D - Uint16 (nth 6 D x00) (nth 7 D x00) - 12)
                      (mkSlice (skipn 12 D) (length (skipn 12 D))))
                 = regionA P).
    { unfold regionA at 1. cbn [len buf arr]. rewrite N6, SK.
      rewrite firstn_app.
      rewrite (firstn_zlen _ _ LA).
      replace (Z.to_nat (len P) - length (regionA P))%nat with 0%nat
        by (unfold zlen in LA; lia).
      rewrite firstn_O, app_nil_r. reflexivity. }
    assert (RB : regionB
                   (mkPacket (b2z (nth 0 D x00)) (uint8 (recvSum D))
                      (Uint16 (nth 2 D x00) (nth 3 D x00))
                      (Uint16 (nth 4 D x00) (nth 5 D x00))
                      (Uint16 (nth 6 D x00) (nth 7 D x00))
                      (Uint32 (nth 8 D x00) (nth 9 D x00) (nth 10 D x00)
                              (nth 11 D x00))
                      (zlen D - Uint16 (nth 6 D x00) (nth 7 D x00) - 12)
                      (mkSlice (skipn 12 D) (length (skipn 12 D))))
                 = wireB pktSize P).
    { unfold regionB at 1. cbn [len xlen buf arr]. rewrite N6, SK.
      rewrite skipn_app.
      replace (Z.to_nat (len P) - length (regionA P))%nat with 0%nat
        by (unfold zlen in LA; lia).
      rewrite skipn_all2 by (unfold zlen in LA; lia).
      cbn [app skipn].
      apply firstn_zlen. lia. }
    split; [unfold D, headerBytes; cbn [app nth cmd];
            apply b2z_z2b_small; exact Hc|].
    split; [unfold D, headerBytes, PutUint16; cbn [app nth key];
            apply Uint16_PutUint16; exact Hk|].
    split; [unfold D, headerBytes, PutUint16; cbn [app nth seq];
            apply Uint16_PutUint16; exact Hs|].
    split; [exact N6|].
    split; [unfold D, headerBytes, PutUint16, PutUint32; cbn [app nth pos];
            apply Uint32_PutUint32; exact Hp|].
    split; [exact RA|]. split; [exact RB|].
    intros Hcmd. split.
    + cbn [xlen]. rewrite N6, LD, LB.
      destruct (Z.eqb_spec (cmd P) FSPCommandGetFile); [contradiction|lia].
    + rewrite RB. unfold wireB.
      destruct (Z.eqb_spec (cmd P) FSPCommandGetFile); [contradiction|].
      reflexivity.
Qed.

(** A packet for which decoding the encoded datagram succeeds. *)
Lemma write_read_roundtrip_witness :
  exists D P',
    write_sendBuff 0 packet255 = Ret (inr D) /\
    read zeroPacket D = (P', None) /\
    cmd P' = cmd packet255 /\ len P' = len packet255 /\
    regionA P' = regionA packet255 /\ regionB P' = regionB packet255.
Proof.
  assert (Hwf : wfPacket packet255) by (vm_compute; intuition discriminate).
  assert (Hfit : len packet255 + xlen packet255 <= FSPSpace)
    by (vm_compute; discriminate).
  assert (Hcap : len packet255 + xlen packet255
                 <= Z.of_nat (cap (buf packet255)))
    by (vm_compute; discriminate).
  destruct (write_read_roundtrip 0 packet255 zeroPacket Hwf Hfit Hcap)
    as (D & HD & _ & _ & Hok).
  assert (Hsum : recvSum D = b2z (nth 1 D x00)).
  { vm_compute in HD. inversion HD; subst D. vm_compute. reflexivity. }
  destruct (Hok Hsum) as (P' & HR & H1 & _ & _ & H4 & _ & H6 & _ & H8).
  exists D, P'. repeat split; try assumption.
  apply H8. vm_compute. discriminate.
Defined.

(** C1 as stated fails: the datagram encoded for a VERSION request
    with an empty payload is rejected by the decoder with a checksum
    error. *)
Lemma write_then_read_checksum_fails :
  exists D,
    len versionPkt + xlen versionPkt <= 14708 /\
    write_sendBuff 0 versionPkt = Ret (inr D) /\
    read zeroPacket D = (zeroPacket, Some (ErrChecksum 16 28)).
Proof.
  eexists. split; [vm_compute; discriminate|].
  split; vm_compute; reflexivity.
Qed.

(* ------------------------------------------------------------------ *)
(** ** The directory decoder *)

Lemma mod4_shift (a b k : Z) : a = b + 4 * k -> a mod 4 = b mod 4.
Proof.
  intros ->. replace (b + 4 * k) with (b + k * 4) by lia.
  apply Z.mod_add. lia.
Qed.

Lemma int64_shift (z : Z) : exists k, int64 z = z + 4 * k.
Proof.
  unfold int64.
  exists (- (2 ^ 62 * ((z + 2 ^ 63) / 2 ^ 64))).
  pose proof (Z.div_mod (z + 2 ^ 63) (2 ^ 64) ltac:(lia)) as H.
  change (2 ^ 64) with (4 * 2 ^ 62) in *. lia.
Qed.

Lemma uint16_shift (z : Z) : exists k, uint16 z = z + 4 * k.
Proof.
  unfold uint16.
  exists (- (2 ^ 14 * (z / 2 ^ 16))).
  pose proof (Z.div_mod z (2 ^ 16) ltac:(lia)) as H.
  change (2 ^ 16) with (4 * 2 ^ 14) in *. lia.
Qed.

Lemma int64_mod4 (z : Z) : int64 z mod 4 = z mod 4.
Proof. destruct (int64_shift z) as [k ->]. eapply mod4_shift. reflexivity. Qed.

Lemma uint16_mod4 (z : Z) : uint16 z mod 4 = z mod 4.
Proof. destruct (uint16_shift z) as [k ->]. eapply mod4_shift. reflexivity. Qed.

Lemma mul_mod4 (a b : Z) : b mod 4 = 0 -> (a * b) mod 4 = 0.
Proof.
  intros H. rewrite Z.mul_mod by lia. rewrite H, Z.mul_0_r. reflexivity.
Qed.

(** The padded record length is a multiple of four, wrap or not. *)
Lemma padded_mod4 (rl : Z) :
  uint16 (rl + uint16 (4 - rl mod 4)) mod 4 = 0.
Proof.
  rewrite uint16_mod4.
  destruct (uint16_shift (4 - rl mod 4)) as [k ->].
  pose proof (Z.div_mod rl 4 ltac:(lia)) as H.
  rewrite (mod4_shift _ 0 (rl / 4 + 1 + k)); [reflexivity | lia].
Qed.

(** The cursor after a record with a non-empty name. *)
Lemma cursor_after_record (p nameLen : Z) :
  p mod 4 = 0 ->
  let rl := uint16 (uint16 nameLen + 10) in
  (rl mod 4 = 0 -> int64 (int64 (p + 9) + (nameLen + 1)) mod 4 = 0) /\
  int64 (int64 (int64 (p + 9) + (nameLen + 1)) + uint16 (4 - rl mod 4)) mod 4
  = 0.
Proof.
  intros Hp rl.
  assert (Hrl : rl mod 4 = (nameLen + 10) mod 4).
  { unfold rl. rewrite uint16_mod4.
    destruct (uint16_shift nameLen) as [k ->].
    apply (mod4_shift _ _ k). lia. }
  assert (H2 : int64 (int64 (p + 9) + (nameLen + 1)) mod 4
               = (nameLen + 10) mod 4).
  { rewrite int64_mod4. destruct (int64_shift (p + 9)) as [k ->].
    pose proof (Z.div_mod p 4 ltac:(lia)) as H.
    apply (mod4_shift _ _ (k + p / 4)). lia. }
  split.
  - intros H0. rewrite H2, <- Hrl. exact H0.
  - rewrite int64_mod4.
    destruct (uint16_shift (4 - rl mod 4)) as [k ->].
    pose proof (Z.div_mod (int64 (int64 (p + 9) + (nameLen + 1))) 4
                  ltac:(lia)) as H.
    rewrite H2, <- Hrl in H.
    apply (mod4_shift _ 0
             (int64 (int64 (p + 9) + (nameLen + 1)) / 4 + 1 + k)). lia.
Qed.

Lemma ReadNative_loop_inv (fuel : nat) (d d' : dir) (oe : option dirEntry) :
  ReadNative_loop fuel d = Ret (d', oe) ->
  (blockSize d' = blockSize d /\ dataSize d' = dataSize d /\
   data d' = data d) /\
  (forall e, oe = Some e -> RecordLen e mod 4 = 0) /\
  (blockSize d mod 4 = 0 -> dataSize d mod 4 = 0 -> dirPos d mod 4 = 0 ->
   dirPos d' mod 4 = 0 \/ (oe = None /\ dirPos d' mod 4 = 1)).
Proof.
  revert d. induction fuel as [|fuel IH]; intros d H; [discriminate|].
  cbn [ReadNative_loop] in H.
  destruct (dirPos d >=? int64 (dataSize d)).
  { inversion H; subst. split; [auto|]. split; [discriminate|]. auto. }
  destruct (blockSize d =? 0); [discriminate|].
  assert (Kend : ReadNative_loop fuel (set_dirPos (int64 (dataSize d)) d)
                 = Ret (d', oe) -> _) by (intros X; exact (IH _ X)).
  assert (Kskip : ReadNative_loop fuel
                    (set_dirPos (int64 ((Z.quot (dirPos d) (blockSize d) + 1)
                                        * blockSize d)) d)
                  = Ret (d', oe) -> _) by (intros X; exact (IH _ X)).
  cbn [blockSize dataSize data dirPos set_dirPos] in Kend, Kskip.
  set (ft := if blockSize d - Z.rem (dirPos d) (blockSize d) <? 9
             then Ret fspEntryTypeSkip
             else b <- idx (data d) (int64 (dirPos d + 8)) ;; Ret (b2z b)) in H.
  destruct ft as [fType|p|]; cbn [bind] in H; try discriminate.
  destruct (fType =? fspEntryTypeEnd).
  { destruct (Kend H) as (K1 & K2 & K3). split; [exact K1|].
    split; [exact K2|]. intros Hb Hd Hp. apply K3; auto.
    rewrite int64_mod4. exact Hd. }
  destruct (fType =? fspEntryTypeSkip).
  { destruct (Kskip H) as (K1 & K2 & K3). split; [exact K1|].
    split; [exact K2|]. intros Hb Hd Hp. apply K3; auto.
    rewrite int64_mod4. apply mul_mod4. exact Hb. }
  destruct (uint32At (data d) (dirPos d)) as [mtime|p|]; cbn [bind] in H;
    try discriminate.
  destruct (uint32At (data d) (int64 (dirPos d + 4))) as [size|p|];
    cbn [bind] in H; try discriminate.
  cbn [blockSize dataSize data dirPos set_dirPos] in H.
  destruct (scanName _ _ _ _ _ _) as [nameLen|p|]; cbn [bind] in H;
    try discriminate.
  destruct (nameLen <=? 0).
  { inversion H; subst. cbn [blockSize dataSize data dirPos set_dirPos].
    split; [auto|]. split; [discriminate|].
    intros _ _ Hp. right. split; [reflexivity|].
    rewrite int64_mod4.
    pose proof (Z.div_mod (dirPos d) 4 ltac:(lia)) as Hq.
    apply (mod4_shift _ 1 (dirPos d / 4 + 2)). lia. }
  destruct (negb (uint16 (uint16 nameLen + 10) mod 4 =? 0)) eqn:Epad;
    inversion H; subst; cbn [blockSize dataSize data dirPos set_dirPos].
  - split; [auto|]. split.
    + intros e He. inversion He; subst. cbn [RecordLen]. apply padded_mod4.
    + intros _ _ Hp. left.
      apply (cursor_after_record (dirPos d) nameLen Hp).
  - apply negb_false_iff, Z.eqb_eq in Epad.
    split; [auto|]. split.
    + intros e He. inversion He; subst. cbn [RecordLen]. exact Epad.
    + intros _ _ Hp. left.
      apply (cursor_after_record (dirPos d) nameLen Hp). exact Epad.
Qed.

Lemma misaligned_false (d : dir) :
  misaligned d = false -> 0 <= dirPos d /\ dirPos d mod 4 = 0.
Proof.
  unfold misaligned. intros H. apply orb_false_iff in H. destruct H as [H1 H2].
  apply Z.ltb_ge in H1. apply negb_false_iff, Z.eqb_eq in H2.
  split; [exact H1|]. rewrite <- Z.rem_mod_nonneg by lia. exact H2.
Qed.

Lemma ListEntrys_loop_records (fuel : nat) (d d' : dir)
    (acc es : list dirEntry) :
  ListEntrys_loop fuel d acc = Ret (d', es) ->
  Forall (fun e => RecordLen e mod 4 = 0) acc ->
  Forall (fun e => RecordLen e mod 4 = 0) es.
Proof.
  revert d acc. induction fuel as [|fuel IH]; intros d acc H Hacc;
    [discriminate|].
  cbn [ListEntrys_loop] in H.
  destruct (misaligned d) eqn:M.
  { inversion H; subst. exact Hacc. }
  unfold ReadNative in H. rewrite M in H.
  destruct (ReadNative_loop (ReadNative_fuel d) d) as [[d1 [e|]]|p|] eqn:R;
    cbn [bind] in H; try discriminate.
  - apply IH in H; [exact H|].
    apply Forall_app. split; [exact Hacc|].
    constructor; [|constructor].
    apply ReadNative_loop_inv in R. destruct R as (_ & R & _).
    apply R. reflexivity.
  - inversion H; subst. exact Hacc.
Qed.

(** C8, as the code has it: [ReadNative] leaves a cursor that is
    negative or not a multiple of 4 untouched, so a step only starts on
    a 4-byte boundary; every yielded entry's record length is a
    multiple of 4, also in the list [ListEntrys] returns; and when the
    block size and the data size are multiples of 4 the cursor is a
    multiple of 4 after every step as well, except that a record with
    an empty name stops the step nine bytes into that record. *)
Theorem directory_cursor_alignment :
  (forall d, misaligned d = true -> ReadNative d = Ret (d, None)) /\
  (forall d d' e, ReadNative d = Ret (d', Some e) -> RecordLen e mod 4 = 0) /\
  (forall d d' es, ListEntrys d = Ret (d', es) ->
                   Forall (fun e => RecordLen e mod 4 = 0) es) /\
  (forall d d' oe,
     blockSize d mod 4 = 0 -> dataSize d mod 4 = 0 -> dirPos d mod 4 = 0 ->
     ReadNative d = Ret (d', oe) ->
     dirPos d' mod 4 = 0 \/ (oe = None /\ dirPos d' mod 4 = 1)).
Proof.
  split; [|split; [|split]].
  - intros d M. unfold ReadNative. rewrite M. reflexivity.
  - intros d d' e H. unfold ReadNative in H.
    destruct (misaligned d); [discriminate|].
    apply ReadNative_loop_inv in H. destruct H as (_ & H & _).
    apply H. reflexivity.
  - intros d d' es H. unfold ListEntrys in H.
    eapply ListEntrys_loop_records; [exact H | constructor].
  - intros d d' oe Hb Hd Hp H. unfold ReadNative in H.
    destruct (misaligned d).
    + inversion H; subst. left. exact Hp.
    + apply ReadNative_loop_inv in H. destruct H as (_ & _ & H).
      apply H; assumption.
Qed.

(** C8 as stated fails: on a ten-byte block that holds END the cursor
    starts at 0 and the step leaves it at 10. *)
Lemma cursor_leaves_boundary_at_end :
  exists d',
    ReadNative dirTenBytes = Ret (d', None) /\
    dirPos dirTenBytes mod 4 = 0 /\ dirPos d' mod 4 <> 0.
Proof.
  eexists. split; [vm_compute; reflexivity|].
  split; [reflexivity | vm_compute; discriminate].
Qed.

(** The first step on a block of two records yields [a] with record
    length 12 and leaves the cursor at 12. *)
Lemma directory_cursor_alignment_witness :
  exists d' e,
    ReadNative dirTwoEntries = Ret (d', Some e) /\
    Name e = [x61] /\ dirPos d' = 12 /\
    RecordLen e mod 4 = 0 /\ dirPos d' mod 4 = 0.
Proof.
  assert (R : exists d' e,
             ReadNative dirTwoEntries = Ret (d', Some e) /\
             Name e = [x61] /\ dirPos d' = 12)
    by (do 2 eexists; repeat split; vm_compute; reflexivity).
  destruct R as (d' & e & R & Hn & Hp).
  destruct directory_cursor_alignment as (_ & H2 & _ & H4).
  exists d', e. split; [exact R|]. split; [exact Hn|]. split; [exact Hp|].
  split; [exact (H2 _ _ _ R)|].
  destruct (H4 dirTwoEntries d' (Some e) eq_refl eq_refl eq_refl R)
    as [H|[H _]]; [exact H | discriminate H].
Defined.

(** With aligned sizes, a record with an empty name still leaves the
    cursor at 9. *)
Example cursor_after_empty_name :
  exists d', ReadNative dirEmptyName = Ret (d', None) /\ dirPos d' = 9.
Proof. eexists. split; vm_compute; reflexivity. Qed.

(** A block with two records decodes to two entries with record lengths
    12 and 16 and the cursor at the block's end. *)
Example list_two_entries :
  exists d' e1 e2,
    ListEntrys dirTwoEntries = Ret (d', [e1; e2]) /\
    Name e1 = [x61] /\ RecordLen e1 = 12 /\
    Name e2 = [x73; x75; x62] /\ RecordLen e2 = 16 /\ dirPos d' = 32.
Proof. do 3 eexists. repeat split; vm_compute; reflexivity. Qed.

(* ------------------------------------------------------------------ *)
(** ** A reply that passes the checks is handed back *)

Section Accept.
Variable GetFile2 : Z.

Lemma recvLoop_accept s pkt resp0 delay tr d rs resp :
  firstn (Z.to_nat FSPMaxPacket) d <> [] ->
  read resp0 (firstn (Z.to_nat FSPMaxPacket) d) = (resp, None) ->
  validReply (sseq s) pkt resp ->
  cmd resp <> FSPCommandErr ->
  exists s',
    recvLoop GetFile2 s pkt resp0 delay tr (Some d :: rs) =
    RecvReturn s' resp None rs (EvDeadline delay :: tr).
Proof.
  intros Hne Hr Hv Hc. cbn [recvLoop].
  destruct (firstn (Z.to_nat FSPMaxPacket) d) as [|b buff] eqn:E;
    [contradiction|].
  replace (zlen (b :: buff) <=? 0) with false
    by (symmetry; apply Z.leb_gt; unfold zlen; simpl length; lia).
  rewrite Hr.
  apply validReply_dec in Hv. destruct Hv as (V1 & V2 & V3).
  rewrite V1, V2, V3.
  destruct (Z.eqb_spec (cmd resp) FSPCommandErr); [contradiction|].
  destruct ((cmd resp =? FSPCommandGetFile) || (cmd resp =? GetFile2));
    eexists; reflexivity.
Qed.

Lemma transaction_accept s pkt n cl D d rs resp :
  clock n = false :: cl ->
  write_sendBuff (pktSize (trans s))
    (set_seq (Z.lor (nextBase s n) (Z.land 0 7))
             (set_key (clientGetKey s) pkt)) = Ret (inr D) ->
  match sendOk n with false :: _ => False | _ => True end ->
  reads n = Some d :: rs ->
  firstn (Z.to_nat FSPMaxPacket) d <> [] ->
  read zeroPacket (firstn (Z.to_nat FSPMaxPacket) d) = (resp, None) ->
  validReply (nextBase s n) pkt resp ->
  cmd resp <> FSPCommandErr ->
  exists r,
    transaction GetFile2 s pkt n = Ret r /\
    txResp r = resp /\ txErr r = None /\ reads (txNet r) = rs /\
    clock (txNet r) = cl.
Proof.
  intros Hcl HW Hok Hrd Hne Hr Hv Hc.
  unfold transaction, nextBase in *.
  destruct (randUint16 n) as [rv n1] eqn:Rn. cbn [fst] in *.
  assert (Hn1 : clock n1 = clock n /\ sendOk n1 = sendOk n /\
                reads n1 = reads n).
  { unfold randUint16 in Rn. destruct (rands n); inversion Rn; auto. }
  destruct Hn1 as (C1 & C2 & C3).
  rewrite C1, Hcl. cbn [sendLoop].
  set (s1 := if sseq s =? Z.land rv 65528
             then set_sseq (Z.lxor (sseq s) 4224) s
             else set_sseq (Z.land rv 65528) s) in *.
  assert (Hs1 : sseq s1 = (if sseq s =? Z.land rv 65528
                           then Z.lxor (sseq s) 4224 else Z.land rv 65528)
                /\ pktSize (trans s1) = pktSize (trans s)).
  { unfold s1. destruct (sseq s =? Z.land rv 65528); auto. }
  destruct Hs1 as [Hs1 Hps].
  rewrite Hs1. unfold write. rewrite Hps, HW. cbn [bind].
  rewrite C2.
  assert (K : forall n2, reads n2 = Some d :: rs ->
              exists r,
                match
                  recvLoop GetFile2 s1
                    (set_seq
                       (Z.lor (if sseq s =? Z.land rv 65528
                               then Z.lxor (sseq s) 4224
                               else Z.land rv 65528) (Z.land 0 7))
                       (set_key (clientGetKey s) pkt))
                    zeroPacket (if 0 <=? 0 then 1340 * msec
                                else Z.quot (int64 (1340 * msec * 3)) 2)
                    (trace n2) (reads n2)
                with
                | RecvBreak s2 resp2 rs2 tr2 =>
                    sendLoop GetFile2 s2
                      (set_seq
                         (Z.lor (if sseq s =? Z.land rv 65528
                                 then Z.lxor (sseq s) 4224
                                 else Z.land rv 65528) (Z.land 0 7))
                         (set_key (clientGetKey s) pkt))
                      resp2 (uint16 (0 + 1))
                      (if 0 <=? 0 then 1340 * msec
                       else Z.quot (int64 (1340 * msec * 3)) 2)
                      (set_trace tr2 (set_reads rs2 n2)) cl
                | RecvReturn s2 resp2 e2 rs2 tr2 =>
                    Ret (mkTx s2
                           (set_seq
                              (Z.lor (if sseq s =? Z.land rv 65528
                                      then Z.lxor (sseq s) 4224
                                      else Z.land rv 65528) (Z.land 0 7))
                              (set_key (clientGetKey s) pkt))
                           (set_clock cl (set_trace tr2 (set_reads rs2 n2)))
                           resp2 e2)
                end = Ret r /\
                txResp r = resp /\ txErr r = None /\ reads (txNet r) = rs /\
                clock (txNet r) = cl).
  { intros n2 H2. rewrite H2.
    destruct (recvLoop_accept s1 (set_seq
                       (Z.lor (if sseq s =? Z.land rv 65528
                               then Z.lxor (sseq s) 4224
                               else Z.land rv 65528) (Z.land 0 7))
                       (set_key (clientGetKey s) pkt)) zeroPacket
                (if 0 <=? 0 then 1340 * msec
                 else Z.quot (int64 (1340 * msec * 3)) 2)
                (trace n2) d rs resp Hne Hr) as [s' Hs'].
    - rewrite Hs1. exact Hv.
    - exact Hc.
    - rewrite Hs'. eexists. split; [reflexivity|]. cbn. auto. }
  destruct (sendOk n) as [|[|] oks]; try contradiction.
  - apply K. cbn. rewrite C3. exact Hrd.
  - apply K. cbn. rewrite C3. exact Hrd.
Qed.

End Accept.

(* ------------------------------------------------------------------ *)
(** ** GetProtecion *)

Lemma read_ok_buf (p0 resp : fspPacket) (D : list byte) :
  read p0 D = (resp, None) ->
  arr (buf resp) = skipn 12 D /\
  Z.of_nat (slen (buf resp)) = len resp + xlen resp /\
  0 <= len resp /\ 0 <= xlen resp /\ zlen D = 12 + len resp + xlen resp.
Proof.
  intros H.
  assert (Hs : snd (read p0 D) = None) by (rewrite H; reflexivity).
  apply read_ok_inv in Hs. destruct Hs as (H1 & H2 & H3).
  rewrite (read_ok_intro p0 D H1 H2 H3) in H.
  apply (f_equal fst) in H. cbn [fst] in H. subst resp.
  cbn [buf arr slen len xlen].
  pose proof (Uint16_range (nth 6 D x00) (nth 7 D x00)).
  rewrite length_skipn. unfold zlen in *. repeat split; lia.
Qed.

Section Protection.
Variable growslice : nat -> nat -> nat.
Variable GetFile2 : Z.

(** The byte [GetProtecion] reads is [resp.buf[resp.len]]: on a
    decoded reply the access is in bounds exactly when [xlen >= 1],
    and a reply of twelve bytes with [pos = 1] is accepted by the
    transaction and makes the call panic with an index out of
    range. *)
Lemma GetProtecion_panic_reachable :
  (forall p0 D resp,
     read p0 D = (resp, None) ->
     (1 <= xlen resp /\
      index (buf resp) (len resp) =
        Ret (nth (Z.to_nat (12 + len resp)) D x00)) \/
     (xlen resp = 0 /\
      index (buf resp) (len resp) = Panic IndexOutOfRange)) /\
  (exists r,
     transaction GetFile2 (session0 [] defaultLock)
       (set_pos 0 (set_xlen 0 (set_cmd FSPCommandGetPro
          (fst (buildFileName growslice zeroPacket [] [])))))
       (netReply replyNoProtection) = Ret r /\
     txErr r = None /\ pos (txResp r) = FSPProBytes /\ xlen (txResp r) = 0) /\
  GetProtecion growslice GetFile2 (session0 [] defaultLock)
               (netReply replyNoProtection) []
  = Panic IndexOutOfRange.
Proof.
  assert (Hrun : exists r,
     transaction GetFile2 (session0 [] defaultLock)
       (set_pos 0 (set_xlen 0 (set_cmd FSPCommandGetPro
          (fst (buildFileName growslice zeroPacket [] [])))))
       (netReply replyNoProtection) = Ret r /\
     txResp r = fst (read zeroPacket replyNoProtection) /\ txErr r = None).
  { destruct (buildFileName_ok growslice zeroPacket [] [])
      as (B1 & B2 & B3 & B4 & B5 & B6 & B7 & B8 & B9);
      [unfold wfSlice; simpl; lia | vm_compute; reflexivity |].
    set (out_ := fst (buildFileName growslice zeroPacket [] [])) in *.
    set (pk := set_seq (Z.lor (nextBase (session0 [] defaultLock)
                                        (netReply replyNoProtection))
                              (Z.land 0 7))
                 (set_key (clientGetKey (session0 [] defaultLock))
                    (set_pos 0 (set_xlen 0 (set_cmd FSPCommandGetPro out_))))).
    assert (L1 : len pk = 1)
      by (unfold pk; cbn [len set_seq set_key set_pos set_xlen set_cmd];
          rewrite B4; reflexivity).
    assert (Hcap : 1 <= Z.of_nat (cap (buf out_))).
    { unfold wfSlice in B2.
      assert (slen (buf out_) = 1%nat).
      { rewrite <- (elems_length _ B2), B3. reflexivity. }
      lia. }
    destruct (transaction_accept GetFile2 (session0 [] defaultLock)
                (set_pos 0 (set_xlen 0 (set_cmd FSPCommandGetPro out_)))
                (netReply replyNoProtection) []
                (headerBytes
                   (z2b (sendSum (headerBytes x00 pk ++ regionA pk ++ wireB 0 pk)
                           (zlen (headerBytes x00 pk ++ regionA pk ++ wireB 0 pk))))
                   pk ++ regionA pk ++ wireB 0 pk)
                replyNoProtection []
                (fst (read zeroPacket replyNoProtection)))
      as (r & R1 & R2 & R3 & _).
    - reflexivity.
    - apply (write_sendBuff_frame 0 pk).
      + unfold wfPacket. rewrite L1. unfold pk.
        cbn [cmd key seq pos xlen set_seq set_key set_pos set_xlen set_cmd].
        vm_compute. intuition discriminate.
      + rewrite L1. unfold pk.
        cbn [xlen set_seq set_key set_pos set_xlen set_cmd].
        vm_compute. discriminate.
      + rewrite L1. unfold pk.
        cbn [xlen buf set_seq set_key set_pos set_xlen set_cmd]. lia.
    - exact I.
    - reflexivity.
    - vm_compute. discriminate.
    - vm_compute. reflexivity.
    - unfold validReply. split; [vm_compute; reflexivity|].
      split; [left; reflexivity | intros X; vm_compute in X; discriminate].
    - vm_compute. discriminate.
    - exists r. auto. }
  split; [|split].
  - intros p0 D resp H. apply read_ok_buf in H.
    destruct H as (Ha & Hl & H0 & Hx & _).
    unfold index.
    destruct (Z.eq_dec (xlen resp) 0) as [E|E].
    + right. split; [exact E|].
      replace ((0 <=? len resp) && (len resp <? Z.of_nat (slen (buf resp))))
        with false; [reflexivity|].
      symmetry. apply andb_false_iff. right. apply Z.ltb_ge. lia.
    + left. split; [lia|].
      replace ((0 <=? len resp) && (len resp <? Z.of_nat (slen (buf resp))))
        with true
        by (symmetry; apply andb_true_iff; rewrite Z.leb_le, Z.ltb_lt; lia).
      rewrite Ha, nth_skipn. f_equal. f_equal. lia.
  - destruct Hrun as (r & R1 & R2 & R3). exists r.
    split; [exact R1|]. split; [exact R3|]. rewrite R2.
    split; vm_compute; reflexivity.
  - destruct Hrun as (r & R1 & R2 & R3).
    unfold GetProtecion.
    destruct (buildFileName growslice zeroPacket [] (password (session0 [] defaultLock)))
      as [out_ e] eqn:B.
    assert (Be : e = None).
    { pose proof (buildFileName_ok growslice zeroPacket [] []) as K.
      destruct K as (K & _); [unfold wfSlice; simpl; lia
                             | vm_compute; reflexivity |].
      change (password (session0 [] defaultLock)) with (@nil byte) in B.
      rewrite B in K. exact K. }
    subst e.
    change (password (session0 [] defaultLock)) with (@nil byte) in B.
    rewrite B in R1. cbn [fst] in R1.
    rewrite R1. cbn [bind]. rewrite R3, R2.
    vm_compute. reflexivity.
Qed.

End Protection.

(** With a region B the same call returns the protection byte. *)
Example GetProtecion_returns_region_B :
  exists r,
    GetProtecion grow8 getFile2 (session0 [] defaultLock)
                 (netReply replyProtection) [] = Ret r /\
    opErr r = None /\ opVal r = 0x45.
Proof. eexists. repeat split; vm_compute; reflexivity. Qed.

(* ------------------------------------------------------------------ *)
(** ** File handles: the error flag *)

(** Case analysis on the test, or on the first step, of the program in
    hypothesis [H]. *)
Ltac case_if H :=
  match type of H with
  | (if ?c then _ else _) = _ => destruct c
  end.
Ltac case_bind H :=
  match type of H with
  | bind ?m _ = _ =>
    let p := fresh "p" in
    destruct m as [?|p|]; cbn [bind] in H; try discriminate H
  end.

Section FileHandle.
Variable growslice : nat -> nat -> nat.
Variable GetFile2 : Z.

Lemma Write_loop_latches fuel f s n src total done pos_ r :
  Write_loop GetFile2 fuel f s n src total done pos_ = Ret r ->
  frErr r <> None -> err (frFile r) = 1.
Proof.
  revert f s n total done pos_.
  induction fuel as [|fuel IH]; intros f s n total done pos_ H Hne;
    [discriminate|].
  cbn [Write_loop] in H.
  destruct (buffPos f >=? FSPSpace).
  - destruct (transaction GetFile2 s _ n) as [t|p|]; cbn [bind] in H;
      try discriminate.
    destruct (txErr t) as [e|].
    + inversion H; subst. reflexivity.
    + case_if H; case_bind H.
      * eapply IH; eauto.
      * inversion H; subst. cbn [frErr] in Hne. contradiction.
  - case_if H; case_bind H.
    + eapply IH; eauto.
    + inversion H; subst. cbn [frErr] in Hne. contradiction.
Qed.

Lemma Flush_ignores_flag f s n v :
  mapResult besidesFlag (Flush GetFile2 (set_err v f) s n) =
  mapResult besidesFlag (Flush GetFile2 f s n).
Proof.
  unfold Flush.
  cbn [writing eof buffPos fpos out set_err set_out].
  destruct (writing f); [|reflexivity]. cbn [negb].
  destruct (eof f || (buffPos f =? 0)); [reflexivity|].
  destruct (transaction GetFile2 s _ n) as [t|p|]; cbn [bind];
    try reflexivity.
  destruct (txErr t) as [e|]; reflexivity.
Qed.

Lemma install_ignores_flag f s n ts v :
  mapResult besidesFlag (install growslice GetFile2 (set_err v f) s n ts) =
  mapResult besidesFlag (install growslice GetFile2 f s n ts).
Proof.
  unfold install.
  change (install_out growslice (set_err v f) s ts)
    with (install_out growslice f s ts).
  destruct (install_out growslice f s ts) as [[o [e|]]|p|]; cbn [bind];
    try reflexivity.
  cbn [out set_err].
  destruct (transaction GetFile2 s (out f) n) as [t|p|]; reflexivity.
Qed.

Lemma besidesFlag_file r1 r2 :
  besidesFlag r1 = besidesFlag r2 ->
  frFile r1 = set_err (err (frFile r1)) (frFile r2) /\
  frSession r1 = frSession r2 /\ frNet r1 = frNet r2 /\ frErr r1 = frErr r2.
Proof.
  unfold besidesFlag. intros H. inversion H as [[H1 H2 H3 H4]].
  repeat split; try assumption.
  destruct (frFile r1), (frFile r2). unfold set_err in *. cbn in *.
  inversion H1; subst. reflexivity.
Qed.

Lemma Close_ignores_flag f s n now v :
  mapResult besidesFlag (Close growslice GetFile2 (set_err v f) s n now) =
  mapResult besidesFlag (Close growslice GetFile2 f s n now).
Proof.
  unfold Close. cbn [writing set_err].
  destruct (writing f); [|reflexivity].
  pose proof (Flush_ignores_flag f s n v) as HF.
  destruct (Flush GetFile2 (set_err v f) s n) as [r1|p1|];
    destruct (Flush GetFile2 f s n) as [r2|p2|]; cbn [mapResult] in HF;
    try discriminate; cbn [bind].
  - assert (HB : besidesFlag r1 = besidesFlag r2) by congruence.
    apply besidesFlag_file in HB.
    destruct HB as (B1 & B2 & B3 & B4).
    rewrite B4. destruct (frErr r2) as [e|].
    + exact HF.
    + rewrite B1, B2, B3. apply install_ignores_flag.
  - inversion HF; subst. reflexivity.
  - reflexivity.
Qed.

(** C9, as the code has it: an error of the transaction in [Write] or
    in [Flush] on a write handle sets the handle's error flag; with the
    flag set [Write] returns at once, the handle, the session and the
    network untouched; [Close] never reads the flag: it flushes and
    installs again and returns the error of those transactions, which
    is none when they succeed. *)
Theorem write_error_flag :
  (forall f s n buff r,
     Write GetFile2 f s n buff = Ret r -> frErr r <> None ->
     err (frFile r) = 1) /\
  (forall f s n r,
     writing f = true -> Flush GetFile2 f s n = Ret r -> frErr r <> None ->
     err (frFile r) = 1) /\
  (forall f s n buff,
     err f <> 0 -> Write GetFile2 f s n buff = Ret (mkFR f s n None)) /\
  (forall f s n now v,
     mapResult besidesFlag (Close growslice GetFile2 (set_err v f) s n now) =
     mapResult besidesFlag (Close growslice GetFile2 f s n now)) /\
  (forall f s n now r,
     writing f = true -> Flush GetFile2 f s n = Ret r ->
     Close growslice GetFile2 f s n now =
     match frErr r with
     | Some _ => Ret r
     | None => install growslice GetFile2 (frFile r) (frSession r) (frNet r) now
     end).
Proof.
  split; [|split; [|split; [|split]]].
  - intros f s n buff r H Hne. unfold Write in H.
    destruct (eof f || negb (err f =? 0)).
    + inversion H; subst. cbn [frErr] in Hne. contradiction.
    + eapply Write_loop_latches; eauto.
  - intros f s n r Hw H Hne. unfold Flush in H. rewrite Hw in H.
    cbn [negb] in H.
    destruct (eof f || (buffPos f =? 0)).
    + inversion H; subst. cbn [frErr] in Hne. contradiction.
    + destruct (transaction GetFile2 s _ n) as [t|p|]; cbn [bind] in H;
        try discriminate.
      destruct (txErr t) as [e|]; inversion H; subst.
      * reflexivity.
      * cbn [frErr] in Hne. contradiction.
  - intros f s n buff He. unfold Write.
    apply Z.eqb_neq in He. rewrite He. cbn [negb]. rewrite orb_true_r.
    reflexivity.
  - intros. apply Close_ignores_flag.
  - intros f s n now r Hw H. unfold Close. rewrite Hw, H. cbn [bind].
    destruct (frErr r); reflexivity.
Qed.

(** [install] runs its transaction on the handle's [out], whatever it
    has assembled. *)
Lemma install_sends_file_out f s n ts o :
  install_out growslice f s ts = Ret (o, None) ->
  install growslice GetFile2 f s n ts =
  (r <- transaction GetFile2 s (out f) n ;;
   Ret (mkFR (set_out (txPkt r) f) (txSession r) (txNet r) (txErr r))).
Proof. intros H. unfold install. rewrite H. reflexivity. Qed.

End FileHandle.

(** The flag at work: the flush of three buffered bytes runs into the
    timeout and sets it, and the write that follows changes nothing. *)
Lemma write_error_flag_witness :
  exists r1 r2,
    Write getFile2 (openFile_w [x61]) (session0 [] defaultLock)
          netTimeoutThenAcks threeBytes = Ret r1 /\
    Flush getFile2 (frFile r1) (frSession r1) (frNet r1) = Ret r2 /\
    frErr r2 = Some ErrTimeout /\ err (frFile r2) = 1 /\
    Write getFile2 (frFile r2) (frSession r2) (frNet r2) threeBytes
    = Ret (mkFR (frFile r2) (frSession r2) (frNet r2) None).
Proof.
  destruct (write_error_flag grow8 getFile2) as (_ & H2 & H3 & _).
  assert (R1 : exists r1,
             Write getFile2 (openFile_w [x61]) (session0 [] defaultLock)
                   netTimeoutThenAcks threeBytes = Ret r1 /\
             writing (frFile r1) = true)
    by (eexists; split; vm_compute; reflexivity).
  destruct R1 as (r1 & R1 & W1).
  assert (R2 : exists r2,
             Flush getFile2 (frFile r1) (frSession r1) (frNet r1) = Ret r2 /\
             frErr r2 = Some ErrTimeout).
  { vm_compute in R1. inversion R1; subst r1.
    eexists; split; vm_compute; reflexivity. }
  destruct R2 as (r2 & R2 & E2).
  assert (L : err (frFile r2) = 1).
  { apply (H2 _ _ _ _ W1 R2). rewrite E2. discriminate. }
  exists r1, r2. repeat split; try assumption.
  apply H3. rewrite L. discriminate.
Defined.

(** C9 as stated fails in its last part: after a flush has failed and
    set the flag, [Close] on a server that answers again returns no
    error. *)
Lemma Close_forgets_latched_error :
  exists r1 r2 r3,
    Write getFile2 (openFile_w [x61]) (session0 [] defaultLock)
          netTimeoutThenAcks threeBytes = Ret r1 /\
    Flush getFile2 (frFile r1) (frSession r1) (frNet r1) = Ret r2 /\
    frErr r2 = Some ErrTimeout /\ err (frFile r2) = 1 /\
    Close grow8 getFile2 (frFile r2) (frSession r2) (frNet r2) nowC4 = Ret r3 /\
    err (frFile r3) = 1 /\ frErr r3 = None.
Proof.
  do 3 eexists.
  split; [vm_compute; reflexivity|].
  split; [vm_compute; reflexivity|].
  split; [reflexivity|]. split; [reflexivity|].
  split; [vm_compute; reflexivity|].
  split; reflexivity.
Qed.

(* ------------------------------------------------------------------ *)
(** ** Close and install *)

(** C4, evaluated: three bytes are written to a fresh handle for [a]
    and the handle is closed against a server that acknowledges.  Two
    datagrams go out; both carry the command UPLOAD and the three
    bytes; the INSTALL packet that [install] assembled, with the name
    in region A and the timestamp in region B, is never sent. *)
Lemma Close_sends_upload_twice :
  exists r1 r d1 d2 o,
    Write getFile2 (openFile_w [x61]) (session0 [] defaultLock)
          netUpload threeBytes = Ret r1 /\
    err (frFile r1) = 0 /\
    Close grow8 getFile2 (frFile r1) (frSession r1) (frNet r1) nowC4 = Ret r /\
    frErr r = None /\
    sent (frNet r) = [d1; d2] /\
    b2z (nth 0 d1 x00) = FSPCommandUpload /\ skipn 12 d1 = threeBytes /\
    b2z (nth 0 d2 x00) = FSPCommandUpload /\ skipn 12 d2 = threeBytes /\
    b2z (nth 0 d2 x00) <> FSPCommandInstall /\
    install_out grow8 (frFile r1) (frSession r1) nowC4 = Ret (o, None) /\
    cmd o = FSPCommandInstall /\ xlen o = 4 /\ pos o = 4 /\
    regionA o = fileNamePayload [x61] [] /\ regionB o = PutUint32 nowC4.
Proof.
  do 5 eexists.
  split; [vm_compute; reflexivity|].
  split; [reflexivity|].
  split; [vm_compute; reflexivity|].
  split; [reflexivity|].
  split; [vm_compute; reflexivity|].
  split; [reflexivity|]. split; [reflexivity|].
  split; [reflexivity|]. split; [reflexivity|].
  split; [vm_compute; discriminate|].
  split; [vm_compute; reflexivity|].
  repeat split; vm_compute; reflexivity.
Qed.

(* ------------------------------------------------------------------ *)
(** ** Rename *)

(** C5, evaluated on [Rename("a", "b")]: without a password and with
    an allocator that rounds up, the datagram carries the command
    RENAME, [a \0] in region A and two zero bytes in region B, not
    [b \0]; with an allocator that does not over-allocate the call
    panics; with a password it panics whatever the allocator. *)
Lemma Rename_does_not_send_new_name :
  (exists r d,
     Rename grow8 getFile2 (session0 [] defaultLock) netSilent [x61] [x62]
     = Ret r /\
     sent (opNet r) = [d] /\
     b2z (nth 0 d x00) = FSPCommandRename /\
     firstn 2 (skipn 12 d) = fileNamePayload [x61] [] /\
     skipn 14 d = [x00; x00] /\ skipn 14 d <> [x62; x00]) /\
  Rename growExact getFile2 (session0 [] defaultLock) netSilent [x61] [x62]
  = Panic SliceBounds /\
  Rename grow8 getFile2 (session0 [x70] defaultLock) netSilent [x61] [x62]
  = Panic SliceBounds.
Proof.
  split; [|split; vm_compute; reflexivity].
  do 2 eexists.
  split; [vm_compute; reflexivity|].
  split; [vm_compute; reflexivity|].
  split; [reflexivity|]. split; [reflexivity|].
  split; [reflexivity | discriminate].
Qed.

(* ------------------------------------------------------------------ *)
(** ** The loops of the model are given enough steps *)

Lemma int64_small (z : Z) : - 2 ^ 63 <= z < 2 ^ 63 -> int64 z = z.
Proof.
  intros H. unfold int64. rewrite Z.mod_small; lia.
Qed.

Lemma scanName_no_spin (fuel : nat) (dt : list byte) (dpos l dsize nl : Z) :
  0 <= dpos -> 0 <= nl -> zlen dt < 2 ^ 62 ->
  dpos + nl < 2 ^ 63 ->
  (Z.to_nat (zlen dt - (dpos + nl)) < fuel)%nat ->
  scanName fuel dt dpos l dsize nl <> Spin.
Proof.
  revert l nl. induction fuel as [|fuel IH]; intros l nl Hd Hn Hz Hle Hf;
    [lia|].
  cbn [scanName].
  destruct (l <? dsize); [|discriminate].
  rewrite (int64_small (dpos + nl)) by lia.
  unfold idx.
  destruct ((0 <=? dpos + nl) && (dpos + nl <? zlen dt)) eqn:E;
    cbn [bind]; [|discriminate].
  apply andb_true_iff in E. destruct E as [_ E]. apply Z.ltb_lt in E.
  destruct (b2z _ =? 0); [discriminate|].
  rewrite (int64_small (nl + 1)) by lia.
  apply IH; lia.
Qed.

Lemma ReadNative_loop_no_spin (fuel : nat) (d : dir) :
  0 <= dirPos d -> 0 <= dataSize d < 2 ^ 62 -> 0 <= blockSize d < 2 ^ 16 ->
  zlen (data d) < 2 ^ 62 ->
  (Z.to_nat (dataSize d - dirPos d) < fuel)%nat ->
  ReadNative_loop fuel d <> Spin.
Proof.
  revert d. induction fuel as [|fuel IH]; intros d Hp Hd Hb Hz Hf; [lia|].
  cbn [ReadNative_loop].
  rewrite (int64_small (dataSize d)) by lia.
  destruct (dirPos d >=? dataSize d) eqn:E1; [discriminate|].
  assert (Hlt : dirPos d < dataSize d) by lia.
  destruct (Z.eqb_spec (blockSize d) 0) as [E0|E0]; [discriminate|].
  destruct (if blockSize d - Z.rem (dirPos d) (blockSize d) <? 9
            then Ret fspEntryTypeSkip
            else b <- idx (data d) (int64 (dirPos d + 8)) ;; Ret (b2z b))
    as [fType|p|] eqn:EF; cbn [bind].
  - destruct (fType =? fspEntryTypeEnd).
    { apply IH; cbn [dirPos dataSize blockSize data set_dirPos]; lia. }
    destruct (fType =? fspEntryTypeSkip).
    { assert (Hq : dirPos d < (Z.quot (dirPos d) (blockSize d) + 1) * blockSize d
                   <= dirPos d + blockSize d).
      { rewrite Z.quot_div_nonneg by lia.
        pose proof (Z.div_mod (dirPos d) (blockSize d) E0) as Hdm.
        pose proof (Z.mod_pos_bound (dirPos d) (blockSize d) ltac:(lia)).
        nia. }
      rewrite int64_small by lia.
      apply IH; cbn [dirPos dataSize blockSize data set_dirPos]; lia. }
    destruct (uint32At (data d) (dirPos d)) as [mtime|p|] eqn:EU; cbn [bind];
      try discriminate.
    + destruct (uint32At (data d) (int64 (dirPos d + 4))) as [size|p|] eqn:EV;
        cbn [bind]; try discriminate.
      * cbn [dirPos dataSize blockSize data set_dirPos].
        rewrite (int64_small (dirPos d + 9)) by lia.
        rewrite (int64_small (dataSize d)) by lia.
        destruct (scanName (S (length (data d))) (data d) (dirPos d + 9)
                    (dirPos d + 9) (dataSize d) 0) as [nameLen|p|] eqn:ES;
          cbn [bind]; try discriminate.
        -- destruct (nameLen <=? 0); [discriminate|].
           destruct (negb _); discriminate.
        -- exfalso. revert ES. apply scanName_no_spin; try lia.
           unfold zlen. lia.
      * unfold uint32At in EV.
        destruct (_ && _); [|discriminate].
        destruct (_ <=? _); discriminate.
    + unfold uint32At in EU.
      destruct (_ && _); [|discriminate].
      destruct (_ <=? _); discriminate.
  - discriminate.
  - destruct (blockSize d - Z.rem (dirPos d) (blockSize d) <? 9);
      [discriminate|].
    unfold idx in EF. destruct (_ && _); discriminate.
Qed.

(** [ReadNative] never runs out of steps on a directory whose sizes are
    those of a Go slice. *)
Lemma ReadNative_no_spin (d : dir) :
  0 <= dataSize d < 2 ^ 62 -> 0 <= blockSize d < 2 ^ 16 ->
  zlen (data d) < 2 ^ 62 ->
  ReadNative d <> Spin.
Proof.
  intros Hd Hb Hz. unfold ReadNative.
  destruct (misaligned d) eqn:M; [discriminate|].
  apply misaligned_false in M. destruct M as [M _].
  apply ReadNative_loop_no_spin; try assumption.
  unfold ReadNative_fuel. rewrite (int64_small (dataSize d)) by lia. lia.
Qed.

Lemma scanName_bound (fuel : nat) (dt : list byte) (dpos l dsize nl r : Z) :
  0 <= dpos -> 0 <= nl -> zlen dt < 2 ^ 62 -> dpos + nl < 2 ^ 63 ->
  scanName fuel dt dpos l dsize nl = Ret r ->
  nl <= r /\ (nl < r -> dpos + r <= zlen dt).
Proof.
  revert l nl. induction fuel as [|fuel IH]; intros l nl Hd Hn Hz Hw H;
    [discriminate|].
  cbn [scanName] in H.
  destruct (l <? dsize); [|inversion H; subst; lia].
  rewrite (int64_small (dpos + nl)) in H by lia.
  unfold idx in H.
  destruct ((0 <=? dpos + nl) && (dpos + nl <? zlen dt)) eqn:E;
    cbn [bind] in H; [|discriminate].
  apply andb_true_iff in E. destruct E as [_ E]. apply Z.ltb_lt in E.
  destruct (b2z _ =? 0); [inversion H; subst; lia|].
  rewrite (int64_small (nl + 1)) in H by lia.
  apply IH in H; lia.
Qed.

(** A step that yields an entry found nine header bytes at or after
    the cursor and leaves the cursor further on. *)
Lemma ReadNative_loop_progress (fuel : nat) (d d' : dir) (e : dirEntry) :
  0 <= dirPos d -> 0 <= dataSize d < 2 ^ 62 -> 0 <= blockSize d < 2 ^ 16 ->
  zlen (data d) < 2 ^ 62 ->
  ReadNative_loop fuel d = Ret (d', Some e) ->
  dirPos d < dirPos d' /\ dirPos d + 8 < zlen (data d).
Proof.
  revert d. induction fuel as [|fuel IH]; intros d Hp Hd Hb Hz H;
    [discriminate|].
  cbn [ReadNative_loop] in H.
  rewrite (int64_small (dataSize d)) in H by lia.
  destruct (dirPos d >=? dataSize d) eqn:E1; [discriminate|].
  assert (Hlt : dirPos d < dataSize d) by lia.
  destruct (Z.eqb_spec (blockSize d) 0) as [E0|E0]; [discriminate|].
  destruct (blockSize d - Z.rem (dirPos d) (blockSize d) <? 9) eqn:E9;
    cbn [bind] in H.
  - (* too little room in the block: skip *)
    change (fspEntryTypeSkip =? fspEntryTypeEnd) with false in H.
    change (fspEntryTypeSkip =? fspEntryTypeSkip) with true in H.
    cbv iota in H.
    assert (Hq : dirPos d < (Z.quot (dirPos d) (blockSize d) + 1) * blockSize d
                 <= dirPos d + blockSize d).
    { rewrite Z.quot_div_nonneg by lia.
      pose proof (Z.div_mod (dirPos d) (blockSize d) E0) as Hdm.
      pose proof (Z.mod_pos_bound (dirPos d) (blockSize d) ltac:(lia)).
      nia. }
    rewrite int64_small in H by lia.
    apply IH in H; cbn [dirPos dataSize blockSize data set_dirPos] in *; lia.
  - unfold idx in H.
    destruct ((0 <=? int64 (dirPos d + 8))
              && (int64 (dirPos d + 8) <? zlen (data d))) eqn:E8;
      cbn [bind] in H; [|discriminate].
    rewrite (int64_small (dirPos d + 8)) in E8 by lia.
    apply andb_true_iff in E8. destruct E8 as [_ E8]. apply Z.ltb_lt in E8.
    destruct (b2z _ =? fspEntryTypeEnd).
    { apply IH in H; cbn [dirPos dataSize blockSize data set_dirPos] in *; lia. }
    destruct (b2z _ =? fspEntryTypeSkip).
    { assert (Hq : dirPos d < (Z.quot (dirPos d) (blockSize d) + 1) * blockSize d
                   <= dirPos d + blockSize d).
      { rewrite Z.quot_div_nonneg by lia.
        pose proof (Z.div_mod (dirPos d) (blockSize d) E0) as Hdm.
        pose proof (Z.mod_pos_bound (dirPos d) (blockSize d) ltac:(lia)).
        nia. }
      rewrite int64_small in H by lia.
      apply IH in H; cbn [dirPos dataSize blockSize data set_dirPos] in *; lia. }
    case_bind H. case_bind H.
    cbn [dirPos dataSize blockSize data set_dirPos] in H.
    rewrite (int64_small (dirPos d + 9)) in H by lia.
    rewrite (int64_small (dataSize d)) in H by lia.
    destruct (scanName _ _ _ _ _ _) as [nameLen|p|] eqn:ES; cbn [bind] in H;
      try discriminate.
    apply scanName_bound in ES; try lia.
    destruct (nameLen <=? 0) eqn:EN; [discriminate|].
    assert (Hn : 0 < nameLen) by lia.
    destruct ES as [_ ES]. specialize (ES Hn).
    rewrite (int64_small (dirPos d + 9 + (nameLen + 1))) in H by lia.
    split; [|exact E8].
    destruct (negb _);
      apply (f_equal (fun r => match r with
                               | Ret (x, _) => dirPos x
                               | _ => 0
                               end)) in H;
      cbn [dirPos set_dirPos] in H; rewrite <- H.
    + pose proof (Z.mod_pos_bound (uint16 (uint16 nameLen + 10)) 4 ltac:(lia)).
      set (m := uint16 (uint16 nameLen + 10) mod 4) in *.
      unfold uint16 at 1.
      rewrite (Z.mod_small (4 - m)) by (change (2 ^ 16) with 65536; lia).
      rewrite int64_small; lia.
    + lia.
Qed.

Lemma ListEntrys_loop_no_spin (fuel : nat) (d : dir) (acc : list dirEntry) :
  0 <= dataSize d < 2 ^ 62 -> 0 <= blockSize d < 2 ^ 16 ->
  zlen (data d) < 2 ^ 62 ->
  (misaligned d = false -> (Z.to_nat (zlen (data d) - dirPos d) < fuel)%nat) ->
  (0 < fuel)%nat ->
  ListEntrys_loop fuel d acc <> Spin.
Proof.
  revert d acc. induction fuel as [|fuel IH]; intros d acc Hd Hb Hz Hf H0;
    [lia|].
  cbn [ListEntrys_loop].
  destruct (misaligned d) eqn:M; [discriminate|].
  specialize (Hf eq_refl).
  pose proof (misaligned_false d M) as [Hp _].
  destruct (ReadNative d) as [[d1 [e|]]|p|] eqn:R; cbn [bind];
    try discriminate.
  - unfold ReadNative in R. rewrite M in R.
    pose proof (ReadNative_loop_inv _ _ _ _ R) as ((I1 & I2 & I3) & _).
    apply ReadNative_loop_progress in R; try assumption.
    destruct R as [R1 R2].
    apply IH; rewrite ?I1, ?I2, ?I3; try assumption; lia.
  - exfalso. revert R. apply ReadNative_no_spin; assumption.
Qed.

(** [ListEntrys] never runs out of steps on a directory whose sizes are
    those of a Go slice. *)
Lemma ListEntrys_no_spin (d : dir) :
  0 <= dataSize d < 2 ^ 62 -> 0 <= blockSize d < 2 ^ 16 ->
  zlen (data d) < 2 ^ 62 ->
  ListEntrys d <> Spin.
Proof.
  intros Hd Hb Hz. unfold ListEntrys.
  apply ListEntrys_loop_no_spin; try assumption; [|lia].
  intros M. apply misaligned_false in M. unfold zlen. lia.
Qed.

Section WriteTerminates.
Variable GetFile2 : Z.

Lemma write_no_spin s pkt n : write s pkt n <> Spin.
Proof.
  unfold write, write_sendBuff.
  destruct (_ >? _); cbn [bind]; [discriminate|].
  unfold subSlice.
  destruct (_ && _); cbn [bind]; [|discriminate].
  destruct (cmd pkt =? FSPCommandGetFile).
  - destruct (xlen pkt =? 2); cbn [bind];
      destruct (sendOk n) as [|[|] oks]; discriminate.
  - destruct (xlen pkt >? 0); cbn [bind].
    + destruct (_ && _); cbn [bind]; [|discriminate].
      destruct (sendOk n) as [|[|] oks]; discriminate.
    + destruct (sendOk n) as [|[|] oks]; discriminate.
Qed.

Lemma sendLoop_no_spin s pkt resp retry delay n cl :
  sendLoop GetFile2 s pkt resp retry delay n cl <> Spin.
Proof.
  revert s pkt resp retry delay n.
  induction cl as [|[|] cl IH]; intros s pkt resp retry delay n;
    cbn [sendLoop]; try discriminate.
  destruct (write s _ n) as [[[e|] n1]|p|] eqn:W; cbn [bind].
  - apply IH.
  - destruct (recvLoop _ _ _ _ _ _ _); [apply IH | discriminate].
  - discriminate.
  - exfalso. revert W. apply write_no_spin.
Qed.

(** A transaction ends: every round consumes one test of the clock. *)
Lemma transaction_no_spin s pkt n : transaction GetFile2 s pkt n <> Spin.
Proof.
  unfold transaction. destruct (randUint16 n) as [rv n1].
  apply sendLoop_no_spin.
Qed.

Lemma copyAt_no_spin b lo src : copyAt b lo src <> Spin.
Proof. unfold copyAt. destruct (_ && _); discriminate. Qed.

Lemma Write_loop_no_spin fuel f s n src total done pos_ :
  0 <= buffPos f -> 0 <= total -> (Z.to_nat total < fuel)%nat ->
  Write_loop GetFile2 fuel f s n src total done pos_ <> Spin.
Proof.
  revert f s n total done pos_.
  induction fuel as [|fuel IH]; intros f s n total done pos_ Hb Ht Hf; [lia|].
  cbn [Write_loop]. unfold FSPSpace.
  destruct (buffPos f >=? 14708) eqn:E.
  - destruct (transaction GetFile2 s _ n) as [t|p|] eqn:T; cbn [bind].
    + destruct (txErr t); [discriminate|].
      cbn [buffPos set_fpos set_buffPos set_out out].
      destruct (14708 - 0 <=? total) eqn:E2.
      * destruct (copyAt _ _ _) as [b|p|] eqn:C; cbn [bind]; try discriminate.
        -- apply IH; cbn [buffPos set_buffPos]; lia.
        -- exfalso. revert C. apply copyAt_no_spin.
      * destruct (copyAt _ _ _) as [b|p|] eqn:C; cbn [bind]; try discriminate.
        exfalso. revert C. apply copyAt_no_spin.
    + discriminate.
    + exfalso. revert T. apply transaction_no_spin.
  - destruct (14708 - buffPos f <=? total) eqn:E2.
    + destruct (copyAt _ _ _) as [b|p|] eqn:C; cbn [bind]; try discriminate.
      * apply IH; cbn [buffPos set_buffPos]; lia.
      * exfalso. revert C. apply copyAt_no_spin.
    + destruct (copyAt _ _ _) as [b|p|] eqn:C; cbn [bind]; try discriminate.
      exfalso. revert C. apply copyAt_no_spin.
Qed.

(** [Write] never runs out of steps on a handle whose fill cursor is
    not negative. *)
Lemma Write_no_spin f s n buff :
  0 <= buffPos f -> Write GetFile2 f s n buff <> Spin.
Proof.
  intros Hb. unfold Write.
  destruct (eof f || negb (err f =? 0)); [discriminate|].
  apply Write_loop_no_spin.
  - destruct (slen (buf (out f)) =? 0)%nat; exact Hb.
  - unfold zlen. lia.
  - unfold zlen. lia.
Qed.

End WriteTerminates.

(* ------------------------------------------------------------------ *)
(** ** Rename, for every allocator *)

Lemma skipn_zeros (m k : nat) : skipn m (zeros k) = zeros (k - m).
Proof.
  unfold zeros. revert k. induction m as [|m IH]; intros k.
  - rewrite Nat.sub_0_r. reflexivity.
  - destruct k as [|k]; [reflexivity|]. simpl. apply IH.
Qed.

Lemma firstn_zeros (m k : nat) : firstn m (zeros k) = zeros (Nat.min m k).
Proof.
  unfold zeros. revert k. induction m as [|m IH]; intros k.
  - reflexivity.
  - destruct k as [|k]; [reflexivity|]. simpl. rewrite IH. reflexivity.
Qed.

Section RenameAnyAllocator.
Variable growslice : nat -> nat -> nat.

Lemma append_zeroTail (s : slice) (xs : list byte) :
  wfSlice s -> zeroTail s -> zeroTail (append growslice s xs).
Proof.
  intros Hwf [k Hk]. unfold zeroTail.
  rewrite (append_elems growslice s xs Hwf).
  pose proof (elems_length s Hwf) as L.
  unfold append. destruct (slen s + length xs <=? cap s)%nat; cbn [arr].
  - exists (k - length xs)%nat.
    rewrite Hk at 2. rewrite skipn_app, L.
    rewrite skipn_all2 by lia.
    replace (slen s + length xs - slen s)%nat with (length xs) by lia.
    rewrite skipn_zeros. cbn [app]. rewrite <- app_assoc. reflexivity.
  - eexists. rewrite <- app_assoc. reflexivity.
Qed.

Lemma buildFileName_zeroTail (pkt : fspPacket) (f p : list byte) :
  wfSlice (buf pkt) -> zeroTail (buf pkt) ->
  zeroTail (buf (fst (buildFileName growslice pkt f p))).
Proof.
  intros Hwf Hz. unfold buildFileName.
  destruct (_ >=? _); [exact Hz|].
  destruct p as [|c p]; cbn -[append uint16 zlen];
    repeat (apply append_zeroTail; [auto using append_wf|]); exact Hz.
Qed.

(** Whatever the allocator, the packet [Rename] assembles on a session
    without password has the old name in region A and nothing but zero
    bytes in region B. *)
Lemma Rename_out_regionB_zero (s : Session) (from to : list byte)
    (p : fspPacket) :
  password s = [] ->
  Rename_out growslice s from to = Ret (p, None) ->
  cmd p = FSPCommandRename /\
  regionA p = fileNamePayload from [] /\
  regionB p = zeros (length (regionB p)).
Proof.
  intros Hpw H. unfold Rename_out in H. rewrite Hpw in H.
  destruct (buildFileName growslice zeroPacket from []) as [p1 e1] eqn:B.
  assert (Bf : snd (buildFileName growslice zeroPacket from []) = e1)
    by (rewrite B; reflexivity).
  assert (Bp : fst (buildFileName growslice zeroPacket from []) = p1)
    by (rewrite B; reflexivity).
  destruct e1 as [e1|]; [discriminate|].
  assert (Hlen : zlen from + zlen (@nil byte) + 2 < 14708).
  { destruct (Z_lt_ge_dec (zlen from + zlen (@nil byte) + 2) 14708) as [X|X];
      [exact X|].
    apply (buildFileName_fails_iff growslice zeroPacket) in X.
    rewrite Bf in X. discriminate. }
  assert (W0 : wfSlice (buf zeroPacket)) by (unfold wfSlice; simpl; lia).
  assert (Z0 : zeroTail (buf zeroPacket)) by (exists 0%nat; reflexivity).
  destruct (buildFileName_ok growslice zeroPacket from [] W0 Hlen)
    as (_ & K2 & K3 & K4 & _).
  pose proof (buildFileName_zeroTail zeroPacket from [] W0 Z0) as K5.
  rewrite Bp in K2, K3, K4, K5. cbn [elems buf zeroPacket nilSlice arr slen
                                     firstn app] in K3.
  destruct (zlen to + len p1 >? FSPSpace); [discriminate|].
  pose proof (elems_length _ K2) as L1.
  assert (L2 : len p1 = Z.of_nat (slen (buf p1))).
  { rewrite K4, <- L1, K3. reflexivity. }
  assert (C : copyAt (buf p1) (len p1) to = Ret (buf p1)).
  { unfold copyAt. rewrite L2.
    replace ((0 <=? Z.of_nat (slen (buf p1)))
             && (Z.of_nat (slen (buf p1)) <=? Z.of_nat (slen (buf p1))))
      with true by (symmetry; rewrite andb_true_iff, !Z.leb_le; lia).
    rewrite Nat2Z.id, Nat.sub_diag. cbn [Nat.min firstn app].
    rewrite Nat.add_0_r, firstn_skipn. destruct (buf p1); reflexivity. }
  rewrite C in H. cbn [bind set_buf set_xlen set_cmd set_pos buf xlen len]
    in H.
  apply (f_equal (fun r => match r with Ret (x, _) => x | _ => zeroPacket end))
    in H. subst p.
  split; [reflexivity|].
  destruct p1 as [c0 s0 k0 q0 l0 o0 x0 b0].
  cbn [buf len] in *.
  destruct (append_zeroTail b0 [x00] K2 K5) as [k Hk].
  rewrite (append_elems growslice b0 [x00] K2), K3 in Hk.
  assert (LP : length (fileNamePayload from []) = Z.to_nat l0).
  { rewrite K4. unfold zlen. rewrite Nat2Z.id. reflexivity. }
  unfold regionA, regionB.
  cbn [buf len xlen set_pos set_cmd set_xlen set_buf]. rewrite Hk.
  split.
  - rewrite <- app_assoc, firstn_app, <- LP, Nat.sub_diag, firstn_O,
      app_nil_r.
    apply firstn_all.
  - rewrite <- app_assoc, skipn_app, <- LP, Nat.sub_diag.
    rewrite skipn_all. cbn [app skipn].
    change (x00 :: zeros k) with (zeros (S k)).
    rewrite firstn_zeros. unfold zeros. rewrite repeat_length. reflexivity.
Qed.

(** So a new name that starts with a non-zero byte is never what
    region B holds. *)
Corollary Rename_out_never_new_name (s : Session) (from to : list byte)
    (b : byte) (p : fspPacket) :
  password s = [] -> b <> x00 ->
  Rename_out growslice s from (b :: to) = Ret (p, None) ->
  regionB p <> (b :: to) ++ [x00].
Proof.
  intros Hpw Hb H E.
  apply Rename_out_regionB_zero in H; [|exact Hpw].
  destruct H as (_ & _ & H). rewrite E in H. cbn in H.
  inversion H. congruence.
Qed.

End RenameAnyAllocator.

(* ------------------------------------------------------------------ *)
(** ** The transaction engine, case by case *)

Section TransactionCases.
Variable GetFile2 : Z.

(** What an accepted reply makes of the session and of the error
    (session.go lines 261-267). *)
Lemma recvLoop_cases (pkt : fspPacket) (delay : Z)
    (P : Session -> fspPacket -> list event -> list (option (list byte))
         -> recvEnd -> Prop) :
  (forall s resp tr,
     P s resp tr []
       (RecvBreak (clientSetKey s (key pkt)) resp [] (EvDeadline delay :: tr))) ->
  (forall s resp tr rs,
     P s resp tr (None :: rs)
       (RecvBreak (clientSetKey s (key pkt)) resp rs (EvDeadline delay :: tr))) ->
  (forall s resp tr d rs,
     firstn (Z.to_nat FSPMaxPacket) d = [] ->
     P s resp tr (Some d :: rs)
       (RecvBreak (clientSetKey s (key pkt)) resp rs (EvDeadline delay :: tr))) ->
  (forall s resp tr d rs s1,
     let buff := firstn (Z.to_nat FSPMaxPacket) d in
     buff <> [] ->
     (snd (read resp buff) <> None /\ s1 = s \/
      snd (read resp buff) = None /\
      ~ validReply (sseq s) pkt (fst (read resp buff)) /\
      s1 = set_dupes (uint64 (dupes s + 1)) s) ->
     P s1 (fst (read resp buff)) (EvDeadline delay :: tr) rs
       (recvLoop GetFile2 s1 pkt (fst (read resp buff)) delay
                 (EvDeadline delay :: tr) rs) ->
     P s resp tr (Some d :: rs)
       (recvLoop GetFile2 s1 pkt (fst (read resp buff)) delay
                 (EvDeadline delay :: tr) rs)) ->
  (forall s resp tr d rs resp1,
     let buff := firstn (Z.to_nat FSPMaxPacket) d in
     buff <> [] ->
     read resp buff = (resp1, None) ->
     validReply (sseq s) pkt resp1 ->
     P s resp tr (Some d :: rs)
       (RecvReturn
          (clientSetKey
             (if cmd resp1 =? FSPCommandErr then s
              else if (cmd resp1 =? FSPCommandGetFile) || (cmd resp1 =? GetFile2)
              then set_trans (updateUnit (trans s) (len resp1)) s else s)
             (key resp1))
          resp1
          (if cmd resp1 =? FSPCommandErr
           then Some (ErrServer (cmd resp1) (elems (buf resp1))) else None)
          rs (EvDeadline delay :: tr))) ->
  forall rs s resp tr, P s resp tr rs (recvLoop GetFile2 s pkt resp delay tr rs).
Proof.
  intros Hnil Hnone Hzero Hskip Hacc.
  induction rs as [|[d|] rs IH]; intros s resp tr; cbn [recvLoop].
  - apply Hnil.
  - destruct (zlen (firstn (Z.to_nat FSPMaxPacket) d) <=? 0) eqn:Z0.
    { apply Hzero. apply Z.leb_le in Z0. unfold zlen in Z0.
      destruct (firstn (Z.to_nat FSPMaxPacket) d); [reflexivity|].
      cbn [length] in Z0. lia. }
    assert (Hne : firstn (Z.to_nat FSPMaxPacket) d <> []).
    { intros E. rewrite E in Z0. discriminate Z0. }
    destruct (read resp (firstn (Z.to_nat FSPMaxPacket) d))
      as [resp1 [e1|]] eqn:R.
    + replace resp1 with (fst (read resp (firstn (Z.to_nat FSPMaxPacket) d)))
        by (rewrite R; reflexivity).
      apply Hskip; [exact Hne| |apply IH].
      left. rewrite R. split; [discriminate|reflexivity].
    + destruct (negb (Z.land (seq resp1) 65528 =? sseq s)) eqn:C1;
        [|destruct (negb (cmd resp1 =? cmd pkt) && negb (cmd resp1 =? FSPCommandErr)) eqn:C2;
          [|destruct (negb (pos resp1 =? pos pkt) && posCommand (cmd pkt)) eqn:C3]].
      1-3: replace resp1 with (fst (read resp (firstn (Z.to_nat FSPMaxPacket) d)))
             by (rewrite R; reflexivity);
           apply Hskip; [exact Hne| |apply IH];
           right; rewrite R; cbn [fst snd];
           (split; [reflexivity|split; [|reflexivity]]);
           intros V; apply (validReply_dec (sseq s) pkt resp1) in V;
           destruct V as (V1 & V2 & V3); congruence.
      assert (V : validReply (sseq s) pkt resp1)
        by (apply validReply_dec; auto).
      specialize (Hacc s resp tr d rs resp1 Hne R V).
      destruct (cmd resp1 =? FSPCommandErr); [exact Hacc|].
      destruct ((cmd resp1 =? FSPCommandGetFile) || (cmd resp1 =? GetFile2));
        exact Hacc.
  - apply Hnone.
Qed.

(** The outer loop, likewise: the clock has run out, the send failed,
    the read loop gave up, or a reply was accepted. *)
Lemma sendLoop_cases
    (P : Session -> fspPacket -> fspPacket -> Z -> Z -> Net -> list bool
         -> result txResult -> Prop) :
  (forall s pkt resp retry delay n,
     P s pkt resp retry delay n []
       (Ret (mkTx s pkt (set_clock [] n) resp (Some ErrTimeout)))) ->
  (forall s pkt resp retry delay n cl,
     P s pkt resp retry delay n (true :: cl)
       (Ret (mkTx s pkt (set_clock cl n) resp (Some ErrTimeout)))) ->
  (forall s pkt resp retry delay n cl p,
     write s (set_seq (Z.lor (sseq s) (Z.land retry 0x7)) pkt) n = Panic p ->
     P s pkt resp retry delay n (false :: cl) (Panic p)) ->
  (forall s pkt resp retry delay n cl e n1,
     let pkt1 := set_seq (Z.lor (sseq s) (Z.land retry 0x7)) pkt in
     let n2 := emit (EvSleep second) n1 in
     let retry1 := uint16 (uint16 (retry - 1) + 1) in
     let delay1 := int64 (delay + second) in
     write s pkt1 n = Ret (Some e, n1) ->
     P s pkt1 resp retry1 delay1 n2 cl
       (sendLoop GetFile2 s pkt1 resp retry1 delay1 n2 cl) ->
     P s pkt resp retry delay n (false :: cl)
       (sendLoop GetFile2 s pkt1 resp retry1 delay1 n2 cl)) ->
  (forall s pkt resp retry delay n cl n1 s1 resp1 rs1 tr1,
     let pkt1 := set_seq (Z.lor (sseq s) (Z.land retry 0x7)) pkt in
     let delay1 := if retry <=? 0 then 1340 * msec
                   else Z.quot (int64 (delay * 3)) 2 in
     let n2 := set_trace tr1 (set_reads rs1 n1) in
     write s pkt1 n = Ret (None, n1) ->
     recvLoop GetFile2 s pkt1 resp delay1 (trace n1) (reads n1)
       = RecvBreak s1 resp1 rs1 tr1 ->
     P s1 pkt1 resp1 (uint16 (retry + 1)) delay1 n2 cl
       (sendLoop GetFile2 s1 pkt1 resp1 (uint16 (retry + 1)) delay1 n2 cl) ->
     P s pkt resp retry delay n (false :: cl)
       (sendLoop GetFile2 s1 pkt1 resp1 (uint16 (retry + 1)) delay1 n2 cl)) ->
  (forall s pkt resp retry delay n cl n1 s1 resp1 e1 rs1 tr1,
     let pkt1 := set_seq (Z.lor (sseq s) (Z.land retry 0x7)) pkt in
     let delay1 := if retry <=? 0 then 1340 * msec
                   else Z.quot (int64 (delay * 3)) 2 in
     write s pkt1 n = Ret (None, n1) ->
     recvLoop GetFile2 s pkt1 resp delay1 (trace n1) (reads n1)
       = RecvReturn s1 resp1 e1 rs1 tr1 ->
     P s pkt resp retry delay n (false :: cl)
       (Ret (mkTx s1 pkt1 (set_clock cl (set_trace tr1 (set_reads rs1 n1)))
                  resp1 e1))) ->
  forall cl s pkt resp retry delay n,
    P s pkt resp retry delay n cl (sendLoop GetFile2 s pkt resp retry delay n cl).
Proof.
  intros Hnil Htrue Hpanic Hfail Hbreak Hret.
  induction cl as [|[|] cl IH]; intros s pkt resp retry delay n;
    cbn [sendLoop].
  - apply Hnil.
  - apply Htrue.
  - destruct (write s (set_seq (Z.lor (sseq s) (Z.land retry 7)) pkt) n)
      as [[[e|] n1]|p|] eqn:W; cbn [bind].
    + apply (Hfail s pkt resp retry delay n cl e n1 W). apply IH.
    + destruct (recvLoop GetFile2 s _ resp _ (trace n1) (reads n1))
        as [s1 resp1 rs1 tr1 | s1 resp1 e1 rs1 tr1] eqn:R.
      * apply (Hbreak s pkt resp retry delay n cl n1 s1 resp1 rs1 tr1 W R).
        apply IH.
      * apply (Hret s pkt resp retry delay n cl n1 s1 resp1 e1 rs1 tr1 W R).
    + apply (Hpanic s pkt resp retry delay n cl p W).
    + exfalso. exact (write_no_spin _ _ _ W).
Qed.

End TransactionCases.

(* ------------------------------------------------------------------ *)
(** ** The key string *)

Lemma digit_byte (n : Z) :
  0 <= n -> b2z (z2b (48 + n mod 10)) = 48 + n mod 10.
Proof.
  intros H. apply b2z_z2b_small.
  pose proof (Z.mod_pos_bound n 10). lia.
Qed.

Lemma fmtDigits_parse (fuel : nat) :
  forall n acc, 0 <= n < 10 ^ Z.of_nat fuel ->
    parseDigits (fmtDigits fuel n acc) 0 = parseDigits acc n.
Proof.
  induction fuel as [|f IH]; intros n acc H.
  - change (10 ^ Z.of_nat 0) with 1 in H. cbn [fmtDigits].
    replace n with 0 by lia. reflexivity.
  - assert (Hp : 10 ^ Z.of_nat (S f) = 10 * 10 ^ Z.of_nat f).
    { rewrite Nat2Z.inj_succ, Z.pow_succ_r by lia. reflexivity. }
    cbn [fmtDigits].
    assert (Hd : isDigit (z2b (48 + n mod 10)) = true).
    { unfold isDigit. rewrite digit_byte by lia.
      pose proof (Z.mod_pos_bound n 10). apply andb_true_intro.
      split; apply Z.leb_le; lia. }
    destruct (n / 10 =? 0) eqn:E.
    + apply Z.eqb_eq in E. cbn [parseDigits]. rewrite Hd, digit_byte by lia.
      f_equal. pose proof (Z.div_mod n 10). lia.
    + rewrite IH.
      * cbn [parseDigits]. rewrite Hd, digit_byte by lia.
        f_equal. pose proof (Z.div_mod n 10). lia.
      * split; [apply Z.div_pos; lia|].
        apply Z.div_lt_upper_bound; lia.
Qed.

Lemma fmtDigits_head (fuel : nat) :
  forall n acc, 0 <= n ->
    exists b t, fmtDigits (S fuel) n acc = b :: t /\ isDigit b = true.
Proof.
  induction fuel as [|f IH]; intros n acc H.
  - cbn [fmtDigits]. exists (z2b (48 + n mod 10)), acc.
    split; [destruct (n / 10 =? 0); reflexivity|].
    unfold isDigit. rewrite digit_byte by lia.
    pose proof (Z.mod_pos_bound n 10). apply andb_true_intro.
    split; apply Z.leb_le; lia.
  - change (fmtDigits (S (S f)) n acc)
      with (if n / 10 =? 0 then z2b (48 + n mod 10) :: acc
            else fmtDigits (S f) (n / 10) (z2b (48 + n mod 10) :: acc)).
    destruct (n / 10 =? 0).
    + exists (z2b (48 + n mod 10)), acc. split; [reflexivity|].
      unfold isDigit. rewrite digit_byte by lia.
      pose proof (Z.mod_pos_bound n 10). apply andb_true_intro.
      split; apply Z.leb_le; lia.
    + apply IH. apply Z.div_pos; lia.
Qed.

Lemma Atoi_Sprintf_d (k : Z) : 0 <= k < 65536 -> Atoi (Sprintf_d k) = (k, None).
Proof.
  intros H.
  assert (P : parseDigits (Sprintf_d k) 0 = Some k).
  { unfold Sprintf_d. rewrite fmtDigits_parse; [reflexivity|].
    change (10 ^ Z.of_nat 5) with 100000. lia. }
  destruct (fmtDigits_head 4 k [] (proj1 H)) as (b & t & E & D).
  fold (Sprintf_d k) in E. rewrite E in P. unfold Atoi. rewrite E.
  unfold isDigit in D. apply andb_prop in D. destruct D as [D1 D2].
  apply Z.leb_le in D1. apply Z.leb_le in D2.
  destruct (b2z b =? 45) eqn:E1; [apply Z.eqb_eq in E1; lia|].
  destruct (b2z b =? 43) eqn:E2; [apply Z.eqb_eq in E2; lia|].
  rewrite P.
  destruct (k >? 2 ^ 63 - 1) eqn:E3; [apply Z.gtb_lt in E3; lia|].
  destruct (k <? - 2 ^ 63) eqn:E4; [apply Z.ltb_lt in E4; lia|].
  reflexivity.
Qed.

Lemma clientGetKey_range (s : Session) : 0 <= clientGetKey s < 65536.
Proof. unfold clientGetKey, uint16. apply Z.mod_pos_bound. lia. Qed.

Lemma clientGetKey_Sprintf_d (s : Session) (k : Z) :
  0 <= k < 65536 -> lock s = Sprintf_d k -> clientGetKey s = k.
Proof.
  intros H E. unfold clientGetKey. rewrite E, Atoi_Sprintf_d by exact H.
  cbn [fst]. unfold uint16. apply Z.mod_small. lia.
Qed.

(** X1.  The key string is the decimal form of the key: what
    [clientSetKey] stores, [clientGetKey] reads back, for every 16-bit
    key. *)
Theorem key_decimal_roundtrip (s : Session) (k : Z) :
  0 <= k < 2 ^ 16 -> clientGetKey (clientSetKey s k) = k.
Proof.
  intros H. apply clientGetKey_Sprintf_d; [exact H| reflexivity].
Qed.

Lemma key_decimal_roundtrip_witness :
  clientGetKey (clientSetKey (session0 [] []) 65535) = 65535.
Proof. apply key_decimal_roundtrip. lia. Defined.

Lemma sameSetup_refl s : sameSetup s s.
Proof. repeat split. Qed.

Lemma sameSetup_trans s1 s2 s3 :
  sameSetup s1 s2 -> sameSetup s2 s3 -> sameSetup s1 s3.
Proof.
  unfold sameSetup. intros (A1 & A2 & A3 & A4) (B1 & B2 & B3 & B4).
  repeat split; congruence.
Qed.

Lemma read_key_range (p0 p : fspPacket) (D : list byte) :
  read p0 D = (p, None) ->
  0 <= cmd p < 256 /\ 0 <= key p < 65536 /\ 0 <= seq p < 65536 /\
  0 <= len p < 65536 /\ 0 <= pos p < 2 ^ 32.
Proof.
  intros R.
  assert (S : snd (read p0 D) = None) by (rewrite R; reflexivity).
  apply read_ok_inv in S. destruct S as (S1 & S2 & S3).
  rewrite (read_ok_intro p0 D S1 S2 S3) in R.
  inversion R; subst; clear R. cbn [cmd key seq len pos].
  split; [apply b2z_range|].
  split; [apply Uint16_range|].
  split; [apply Uint16_range|].
  split; [apply Uint16_range|].
  rewrite Uint32_eq.
  pose proof (b2z_range (nth 8 D x00)). pose proof (b2z_range (nth 9 D x00)).
  pose proof (b2z_range (nth 10 D x00)). pose proof (b2z_range (nth 11 D x00)).
  lia.
Qed.

Section KeyRotation.
Variable GetFile2 : Z.

(** How the read loop leaves the session. *)
Lemma recvLoop_session s pkt resp delay tr rs :
  match recvLoop GetFile2 s pkt resp delay tr rs with
  | RecvBreak s' _ _ _ =>
    lock s' = Sprintf_d (key pkt) /\ sseq s' = sseq s /\ sameSetup s s'
  | RecvReturn s' resp' e _ _ =>
    lock s' = Sprintf_d (key resp') /\ sseq s' = sseq s /\ sameSetup s s' /\
    0 <= key resp' < 65536 /\
    e = (if cmd resp' =? FSPCommandErr
         then Some (ErrServer (cmd resp') (elems (buf resp'))) else None)
  end.
Proof.
  revert rs s resp tr.
  apply (recvLoop_cases GetFile2 pkt delay
           (fun s resp tr rs out =>
              match out with
              | RecvBreak s' _ _ _ =>
                lock s' = Sprintf_d (key pkt) /\ sseq s' = sseq s /\
                sameSetup s s'
              | RecvReturn s' resp' e _ _ =>
                lock s' = Sprintf_d (key resp') /\ sseq s' = sseq s /\
                sameSetup s s' /\ 0 <= key resp' < 65536 /\
                e = (if cmd resp' =? FSPCommandErr
                     then Some (ErrServer (cmd resp') (elems (buf resp')))
                     else None)
              end)).
  - intros. repeat split.
  - intros. repeat split.
  - intros. repeat split.
  - intros s resp tr d rs s1 buff Hne Hs IH.
    assert (E : sseq s1 = sseq s /\ sameSetup s s1).
    { destruct Hs as [[_ ->]|(_ & _ & ->)]; repeat split. }
    destruct E as [E1 E2].
    destruct (recvLoop GetFile2 s1 pkt _ delay _ rs).
    + destruct IH as (A & B & C). split; [exact A|]. split; [congruence|].
      eapply sameSetup_trans; eauto.
    + destruct IH as (A & B & C & D). split; [exact A|]. split; [congruence|].
      split; [eapply sameSetup_trans; eauto|exact D].
  - intros s resp tr d rs resp1 buff Hne R V.
    apply read_key_range in R.
    split; [reflexivity|].
    split; [destruct (cmd resp1 =? FSPCommandErr); [reflexivity|];
            destruct (_ || _); reflexivity|].
    split; [destruct (cmd resp1 =? FSPCommandErr); [repeat split|];
            destruct (_ || _); repeat split|].
    split; [apply R|reflexivity].
Qed.

Lemma write_frame s pkt n e n1 :
  write s pkt n = Ret (e, n1) ->
  lockFile n1 = lockFile n /\ rands n1 = rands n /\ reads n1 = reads n /\
  clock n1 = clock n.
Proof.
  unfold write.
  destruct (write_sendBuff (pktSize (trans s)) pkt) as [[e0|d]|p|];
    cbn [bind]; try discriminate.
  - intros H. inversion H; subst. auto.
  - destruct (sendOk n) as [|[|] oks]; intros H; inversion H; subst; auto.
Qed.

(** How the outer loop leaves the session and the environment. *)
Lemma sendLoop_session cl : forall s pkt resp retry delay n r,
  sendLoop GetFile2 s pkt resp retry delay n cl = Ret r ->
  sseq (txSession r) = sseq s /\ sameSetup s (txSession r) /\
  lockFile (txNet r) = lockFile n /\ rands (txNet r) = rands n /\
  key (txPkt r) = key pkt /\
  (txErr r = Some ErrTimeout ->
   lock (txSession r) = lock s \/ lock (txSession r) = Sprintf_d (key pkt)) /\
  (txErr r <> Some ErrTimeout ->
   lock (txSession r) = Sprintf_d (key (txResp r)) /\
   0 <= key (txResp r) < 65536 /\
   txErr r = (if cmd (txResp r) =? FSPCommandErr
              then Some (ErrServer (cmd (txResp r)) (elems (buf (txResp r))))
              else None)).
Proof.
  apply (sendLoop_cases GetFile2
    (fun s pkt resp retry delay n cl out =>
       forall r, out = Ret r ->
       sseq (txSession r) = sseq s /\ sameSetup s (txSession r) /\
       lockFile (txNet r) = lockFile n /\ rands (txNet r) = rands n /\
       key (txPkt r) = key pkt /\
       (txErr r = Some ErrTimeout ->
        lock (txSession r) = lock s \/
        lock (txSession r) = Sprintf_d (key pkt)) /\
       (txErr r <> Some ErrTimeout ->
        lock (txSession r) = Sprintf_d (key (txResp r)) /\
        0 <= key (txResp r) < 65536 /\
        txErr r = (if cmd (txResp r) =? FSPCommandErr
                   then Some (ErrServer (cmd (txResp r))
                                        (elems (buf (txResp r))))
                   else None)))).
  - intros s pkt resp retry delay n r H. inversion H; subst; clear H.
    cbn [txSession txNet txPkt txErr txResp lockFile rands set_clock].
    split; [reflexivity|]. split; [apply sameSetup_refl|].
    split; [reflexivity|]. split; [reflexivity|]. split; [reflexivity|].
    split; [intros _; left; reflexivity|intros C; exfalso; apply C; reflexivity].
  - intros s pkt resp retry delay n cl0 r H. inversion H; subst; clear H.
    cbn [txSession txNet txPkt txErr txResp lockFile rands set_clock].
    split; [reflexivity|]. split; [apply sameSetup_refl|].
    split; [reflexivity|]. split; [reflexivity|]. split; [reflexivity|].
    split; [intros _; left; reflexivity|intros C; exfalso; apply C; reflexivity].
  - intros; discriminate.
  - intros s pkt resp retry delay n cl0 e n1 pkt1 n2 retry1 delay1 W IH r H.
    apply write_frame in W. destruct W as (W1 & W2 & _).
    specialize (IH r H). unfold n2, pkt1 in IH.
    cbn [lockFile rands emit set_trace key set_seq] in IH.
    destruct IH as (A & B & C & D & E & F & G).
    split; [exact A|]. split; [exact B|]. split; [congruence|].
    split; [congruence|]. split; [exact E|]. split; [exact F|exact G].
  - intros s pkt resp retry delay n cl0 n1 s1 resp1 rs1 tr1 pkt1 delay1 n2
           W R IH r H.
    apply write_frame in W. destruct W as (W1 & W2 & _).
    specialize (IH r H). unfold n2, pkt1 in IH.
    cbn [lockFile rands set_trace set_reads key set_seq] in IH.
    pose proof (recvLoop_session s pkt1 resp delay1 (trace n1) (reads n1)) as S.
    rewrite R in S. unfold pkt1 in S. cbn [key set_seq] in S.
    destruct S as (S1 & S2 & S3).
    destruct IH as (A & B & C & D & E & F & G).
    split; [congruence|]. split; [eapply sameSetup_trans; eauto|].
    split; [congruence|]. split; [congruence|]. split; [exact E|].
    split; [|exact G].
    intros T. right. destruct (F T) as [F1|F1]; [congruence|exact F1].
  - intros s pkt resp retry delay n cl0 n1 s1 resp1 e1 rs1 tr1 pkt1 delay1
           W R r H.
    apply write_frame in W. destruct W as (W1 & W2 & _).
    pose proof (recvLoop_session s pkt1 resp delay1 (trace n1) (reads n1)) as S.
    rewrite R in S. destruct S as (S1 & S2 & S3 & S4 & S5).
    inversion H; subst r; clear H.
    cbn [txSession txNet txPkt txErr txResp lockFile rands set_clock
         set_trace set_reads].
    split; [exact S2|]. split; [exact S3|]. split; [exact W1|].
    split; [exact W2|]. split; [reflexivity|].
    split.
    + intros T. exfalso. rewrite S5 in T.
      destruct (cmd resp1 =? FSPCommandErr); discriminate T.
    + intros _. split; [exact S1|]. split; [exact S4|exact S5].
Qed.

(** X2.  A transaction rotates the key: when a reply is accepted, the
    next request carries the key of that reply, an error reply
    included; when the transaction times out, the next request carries
    the key of this one again.  The error is the timeout, nothing, or
    the server's error with the whole payload of its reply as the
    reason. *)
Theorem transaction_key_rotation (s : Session) (pkt : fspPacket) (n : Net)
    (r : txResult) :
  transaction GetFile2 s pkt n = Ret r ->
  key (txPkt r) = clientGetKey s /\
  (txErr r = Some ErrTimeout ->
   clientGetKey (txSession r) = clientGetKey s) /\
  (txErr r <> Some ErrTimeout ->
   clientGetKey (txSession r) = key (txResp r) /\
   txErr r = (if cmd (txResp r) =? FSPCommandErr
              then Some (ErrServer FSPCommandErr (elems (buf (txResp r))))
              else None)).
Proof.
  unfold transaction. destruct (randUint16 n) as [rd n1].
  intros H. apply sendLoop_session in H.
  destruct H as (_ & _ & _ & _ & K & T & A).
  cbn [key set_key] in K, T. split; [exact K|]. split.
  - intros E. destruct (T E) as [L|L].
    + unfold clientGetKey. rewrite L.
      destruct (sseq s =? Z.land rd 65528); reflexivity.
    + apply clientGetKey_Sprintf_d; [apply clientGetKey_range|exact L].
  - intros E. destruct (A E) as (L & R & X).
    split; [apply clientGetKey_Sprintf_d; assumption|].
    rewrite X. destruct (cmd (txResp r) =? FSPCommandErr) eqn:C;
      [|reflexivity].
    apply Z.eqb_eq in C. rewrite C. reflexivity.
Qed.

End KeyRotation.

(* ------------------------------------------------------------------ *)
(** ** What a transaction sends *)

Lemma land7_range (k : Z) : 0 <= Z.land k 7 < 8.
Proof.
  change 7 with (Z.ones 3). rewrite Z.land_ones by lia.
  apply Z.mod_pos_bound. reflexivity.
Qed.

Lemma set_seq_set_seq a b p : set_seq a (set_seq b p) = set_seq a p.
Proof. reflexivity. Qed.

Section Sends.
Variable GetFile2 : Z.

Lemma recvLoop_deadlines pkt delay rs : forall s resp tr,
  exists k,
    match recvLoop GetFile2 s pkt resp delay tr rs with
    | RecvBreak _ _ _ tr' => tr'
    | RecvReturn _ _ _ _ tr' => tr'
    end = repeat (EvDeadline delay) k ++ tr.
Proof.
  revert rs.
  apply (recvLoop_cases GetFile2 pkt delay
           (fun s resp tr rs out =>
              exists k,
                match out with
                | RecvBreak _ _ _ tr' => tr'
                | RecvReturn _ _ _ _ tr' => tr'
                end = repeat (EvDeadline delay) k ++ tr)).
  - intros. exists 1%nat. reflexivity.
  - intros. exists 1%nat. reflexivity.
  - intros. exists 1%nat. reflexivity.
  - intros s resp tr d rs s1 buff _ _ [k IH]. exists (S k).
    rewrite IH.
    change (repeat (EvDeadline delay) (S k) ++ tr)
      with ((EvDeadline delay :: repeat (EvDeadline delay) k) ++ tr).
    rewrite repeat_cons, <- app_assoc. reflexivity.
  - intros. exists 1%nat. reflexivity.
Qed.

Lemma write_trace s pkt n e n1 :
  write s pkt n = Ret (e, n1) ->
  trace n1 = trace n \/
  exists d, write_sendBuff (pktSize (trans s)) pkt = Ret (inr d) /\
            (trace n1 = EvSend d :: trace n \/
             trace n1 = EvSendFail d :: trace n).
Proof.
  unfold write.
  destruct (write_sendBuff (pktSize (trans s)) pkt) as [[e0|d]|p|];
    cbn [bind]; try discriminate.
  - intros H. inversion H; subst. left. reflexivity.
  - intros H. right. exists d. split; [reflexivity|].
    destruct (sendOk n) as [|[|] oks]; inversion H; subst; cbn; auto.
Qed.

(** Everything the outer loop adds to the trace belongs to the
    request. *)
Lemma sendLoop_trace cl : forall s pkt resp retry delay n r,
  sendLoop GetFile2 s pkt resp retry delay n cl = Ret r ->
  exists new,
    trace (txNet r) = new ++ trace n /\
    Forall (requestEvent (pktSize (trans s)) (sseq s) pkt) new.
Proof.
  apply (sendLoop_cases GetFile2
    (fun s pkt resp retry delay n cl out =>
       forall r, out = Ret r ->
       exists new,
         trace (txNet r) = new ++ trace n /\
         Forall (requestEvent (pktSize (trans s)) (sseq s) pkt) new)).
  - intros s pkt resp retry delay n r H. inversion H; subst.
    exists []. split; [reflexivity|constructor].
  - intros s pkt resp retry delay n cl0 r H. inversion H; subst.
    exists []. split; [reflexivity|constructor].
  - intros; discriminate.
  - intros s pkt resp retry delay n cl0 e n1 pkt1 n2 retry1 delay1 W IH r H.
    destruct (IH r H) as (new & E & F). clear IH.
    unfold n2 in E. cbn [trace emit set_trace] in E.
    assert (F' : Forall (requestEvent (pktSize (trans s)) (sseq s) pkt) new).
    { revert F. apply Forall_impl. intros [d|d|ns|dl]; cbn [requestEvent];
        auto. }
    apply write_trace in W. destruct W as [W|(d & B & [W|W])]; rewrite W in E.
    + exists (new ++ [EvSleep second]). rewrite <- app_assoc.
      split; [exact E|]. apply Forall_app. split; [exact F'|].
      constructor; [reflexivity|constructor].
    + exists (new ++ [EvSleep second; EvSend d]). rewrite <- app_assoc.
      split; [exact E|]. apply Forall_app. split; [exact F'|].
      constructor; [reflexivity|]. constructor; [|constructor].
      exists (Z.land retry 7). split; [apply land7_range|exact B].
    + exists (new ++ [EvSleep second; EvSendFail d]). rewrite <- app_assoc.
      split; [exact E|]. apply Forall_app. split; [exact F'|].
      constructor; [reflexivity|]. constructor; [|constructor].
      exists (Z.land retry 7). split; [apply land7_range|exact B].
  - intros s pkt resp retry delay n cl0 n1 s1 resp1 rs1 tr1 pkt1 delay1 n2
           W R IH r H.
    destruct (IH r H) as (new & E & F). clear IH.
    unfold n2 in E. cbn [trace set_trace set_reads] in E.
    pose proof (recvLoop_session GetFile2 s pkt1 resp delay1 (trace n1)
                                 (reads n1)) as S.
    rewrite R in S. destruct S as (_ & S2 & (_ & _ & _ & S3)).
    rewrite S2, S3 in F.
    assert (F' : Forall (requestEvent (pktSize (trans s)) (sseq s) pkt) new).
    { revert F. apply Forall_impl. intros [d|d|ns|dl]; cbn [requestEvent];
        auto. }
    destruct (recvLoop_deadlines pkt1 delay1 (reads n1) s resp (trace n1))
      as [k D].
    rewrite R in D. rewrite D in E.
    assert (FD : Forall (requestEvent (pktSize (trans s)) (sseq s) pkt)
                        (repeat (EvDeadline delay1) k)).
    { apply Forall_forall. intros ev Hin. apply repeat_spec in Hin.
      subst ev. exact I. }
    apply write_trace in W. destruct W as [W|(d & B & [W|W])]; rewrite W in E.
    + exists (new ++ repeat (EvDeadline delay1) k).
      rewrite <- app_assoc. split; [exact E|].
      apply Forall_app. split; assumption.
    + exists (new ++ repeat (EvDeadline delay1) k ++ [EvSend d]).
      rewrite <- !app_assoc. split; [exact E|].
      apply Forall_app. split; [exact F'|].
      apply Forall_app. split; [exact FD|].
      constructor; [|constructor].
      exists (Z.land retry 7). split; [apply land7_range|exact B].
    + exists (new ++ repeat (EvDeadline delay1) k ++ [EvSendFail d]).
      rewrite <- !app_assoc. split; [exact E|].
      apply Forall_app. split; [exact F'|].
      apply Forall_app. split; [exact FD|].
      constructor; [|constructor].
      exists (Z.land retry 7). split; [apply land7_range|exact B].
  - intros s pkt resp retry delay n cl0 n1 s1 resp1 e1 rs1 tr1 pkt1 delay1
           W R r H.
    inversion H; subst r; clear H. cbn [txNet trace set_clock set_trace].
    destruct (recvLoop_deadlines pkt1 delay1 (reads n1) s resp (trace n1))
      as [k D].
    rewrite R in D. rewrite D.
    assert (FD : Forall (requestEvent (pktSize (trans s)) (sseq s) pkt)
                        (repeat (EvDeadline delay1) k)).
    { apply Forall_forall. intros ev Hin. apply repeat_spec in Hin.
      subst ev. exact I. }
    apply write_trace in W. destruct W as [W|(d & B & [W|W])]; rewrite W.
    + exists (repeat (EvDeadline delay1) k). split; [reflexivity|exact FD].
    + exists (repeat (EvDeadline delay1) k ++ [EvSend d]).
      rewrite <- app_assoc. split; [reflexivity|].
      apply Forall_app. split; [exact FD|].
      constructor; [|constructor].
      exists (Z.land retry 7). split; [apply land7_range|exact B].
    + exists (repeat (EvDeadline delay1) k ++ [EvSendFail d]).
      rewrite <- app_assoc. split; [reflexivity|].
      apply Forall_app. split; [exact FD|].
      constructor; [|constructor].
      exists (Z.land retry 7). split; [apply land7_range|exact B].
Qed.

End Sends.

Lemma lor_range16 (a b : Z) :
  0 <= a < 2 ^ 16 -> 0 <= b < 2 ^ 16 -> 0 <= Z.lor a b < 2 ^ 16.
Proof.
  intros Ha Hb. split; [apply Z.lor_nonneg; lia|].
  rewrite <- (Z.mod_small a (2 ^ 16)), <- (Z.mod_small b (2 ^ 16)) by lia.
  rewrite <- !Z.land_ones by lia. rewrite <- Z.land_lor_distr_l.
  rewrite Z.land_ones by lia. apply Z.mod_pos_bound. lia.
Qed.

Lemma land_fff8_range (r : Z) : 0 <= Z.land r 0xfff8 < 2 ^ 16.
Proof.
  split; [apply Z.land_nonneg; right; lia|].
  assert (E : Z.land r 0xfff8 = Z.land (Z.land r 0xfff8) (Z.ones 16)).
  { rewrite <- Z.land_assoc. reflexivity. }
  rewrite E, Z.land_ones by lia. apply Z.mod_pos_bound. lia.
Qed.

Lemma nextBase_range (s : Session) (n : Net) : 0 <= nextBase s n < 2 ^ 16.
Proof.
  unfold nextBase.
  destruct (sseq s =? Z.land (fst (randUint16 n)) 65528) eqn:E;
    [|apply land_fff8_range].
  apply Z.eqb_eq in E. rewrite E.
  pose proof (land_fff8_range (fst (randUint16 n))) as R.
  split; [apply Z.lxor_nonneg; lia|].
  set (a := Z.land (fst (randUint16 n)) 65528) in *.
  rewrite <- (Z.mod_small a (2 ^ 16)) by lia.
  change 4224 with (4224 mod 2 ^ 16).
  rewrite <- !Z.land_ones by lia. rewrite <- land_lxor_distr.
  rewrite Z.land_ones by lia. apply Z.mod_pos_bound. lia.
Qed.

Lemma write_sendBuff_returns (ps : Z) (p : fspPacket) :
  sendable p -> exists x, write_sendBuff ps p = Ret x.
Proof.
  intros [[L1 L2] X]. unfold write_sendBuff.
  destruct (uint16 (xlen p + len p) >? FSPSpace); [eexists; reflexivity|].
  unfold subSlice at 1.
  replace ((0 <=? 0) && (0 <=? len p) && (len p <=? Z.of_nat (cap (buf p))))
    with true
    by (symmetry; apply andb_true_intro; split;
        [apply andb_true_intro; split|]; apply Z.leb_le; lia).
  cbn [bind].
  destruct (cmd p =? FSPCommandGetFile) eqn:C.
  { destruct (xlen p =? 2); cbn [bind]; eexists; reflexivity. }
  destruct (xlen p >? 0) eqn:G; [|cbn [bind]; eexists; reflexivity].
  apply Z.gtb_lt in G. apply Z.eqb_neq in C.
  destruct X as [X|[X|[X1 X2]]]; [contradiction|lia|].
  unfold subSlice.
  assert (U : uint16 (len p + xlen p) = len p + xlen p)
    by (unfold uint16; apply Z.mod_small; lia).
  rewrite U.
  replace ((0 <=? len p) && (len p <=? len p + xlen p)
           && (len p + xlen p <=? Z.of_nat (cap (buf p))))
    with true
    by (symmetry; apply andb_true_intro; split;
        [apply andb_true_intro; split|]; apply Z.leb_le; lia).
  cbn [bind]. eexists; reflexivity.
Qed.

Lemma sendable_set_seq sq p : sendable (set_seq sq p) <-> sendable p.
Proof. reflexivity. Qed.

Lemma sendable_set_key k p : sendable (set_key k p) <-> sendable p.
Proof. reflexivity. Qed.

Lemma write_returns s p n :
  sendable p -> exists e n1, write s p n = Ret (e, n1).
Proof.
  intros H. unfold write.
  destruct (write_sendBuff_returns (pktSize (trans s)) p H) as [[e|d] E];
    rewrite E; cbn [bind].
  - eexists _, _; reflexivity.
  - destruct (sendOk n) as [|[|] ?]; eexists _, _; reflexivity.
Qed.

Lemma sent_app (new old : list event) (n n' : Net) :
  trace n' = new ++ trace n ->
  sent n' = sent n ++
            rev (flat_map (fun e => match e with EvSend d => [d] | _ => [] end)
                          new).
Proof.
  intros E. unfold sent. rewrite E, flat_map_app, rev_app_distr. reflexivity.
Qed.

Section TransactionSends.
Variable GetFile2 : Z.

Lemma sendLoop_returns cl : forall s pkt resp retry delay n,
  sendable pkt ->
  exists r, sendLoop GetFile2 s pkt resp retry delay n cl = Ret r.
Proof.
  apply (sendLoop_cases GetFile2
    (fun s pkt resp retry delay n cl out =>
       sendable pkt -> exists r, out = Ret r)).
  - intros. eexists; reflexivity.
  - intros. eexists; reflexivity.
  - intros s pkt resp retry delay n cl0 p W S. exfalso.
    destruct (write_returns s (set_seq (Z.lor (sseq s) (Z.land retry 7)) pkt)
                n S) as (e & n1 & E).
    rewrite E in W. discriminate W.
  - intros s pkt resp retry delay n cl0 e n1 pkt1 n2 retry1 delay1 W IH S.
    apply IH. exact S.
  - intros s pkt resp retry delay n cl0 n1 s1 resp1 rs1 tr1 pkt1 delay1 n2
           W R IH S.
    apply IH. exact S.
  - intros. eexists; reflexivity.
Qed.

(** A request that [write] can slice is never the cause of a panic. *)
Lemma transaction_returns s pkt n :
  sendable pkt -> exists r, transaction GetFile2 s pkt n = Ret r.
Proof.
  intros S. unfold transaction. destruct (randUint16 n) as [rd n1].
  apply sendLoop_returns. exact S.
Qed.

Lemma transaction_trace s pkt n r :
  transaction GetFile2 s pkt n = Ret r ->
  exists new,
    trace (txNet r) = new ++ trace n /\
    Forall (requestEvent (pktSize (trans s)) (nextBase s n)
                         (set_key (clientGetKey s) pkt)) new.
Proof.
  unfold transaction, nextBase.
  assert (T : trace (snd (randUint16 n)) = trace n).
  { unfold randUint16. destruct (rands n); reflexivity. }
  destruct (randUint16 n) as [rd n1]. cbn [fst snd] in *.
  intros H. apply sendLoop_trace in H. destruct H as (new & E & F).
  exists new. rewrite <- T. split; [exact E|].
  destruct (sseq s =? Z.land rd 65528); exact F.
Qed.


Lemma transaction_datagrams (s : Session) (pkt : fspPacket)
    (n : Net) (r : txResult) :
  0 <= cmd pkt < 2 ^ 8 -> 0 <= len pkt -> 0 <= xlen pkt ->
  0 <= pos pkt < 2 ^ 32 ->
  len pkt + xlen pkt <= FSPSpace ->
  len pkt + xlen pkt <= Z.of_nat (cap (buf pkt)) ->
  transaction GetFile2 s pkt n = Ret r ->
  exists ds,
    sent (txNet r) = sent n ++ ds /\
    Forall (fun d =>
              exists k, 0 <= k < 8 /\
                d = datagramOf (pktSize (trans s))
                      (set_seq (Z.lor (nextBase s n) k)
                               (set_key (clientGetKey s) pkt))) ds.
Proof.
  intros Hc Hl Hx Hp Hfit Hcap H.
  apply transaction_trace in H. destruct H as (new & E & F).
  eexists. split; [apply (sent_app new (trace n)); exact E|].
  apply Forall_rev. apply Forall_flat_map.
  revert F. apply Forall_impl.
  intros [d|d|ns|dl] Hev; try constructor; [|constructor].
  cbn [requestEvent] in Hev. destruct Hev as (k & Hk & W).
  exists k. split; [exact Hk|].
  rewrite write_sendBuff_frame in W.
  - inversion W. reflexivity.
  - unfold wfPacket. cbn [cmd key seq len pos xlen set_seq set_key].
    pose proof (clientGetKey_range s). pose proof (nextBase_range s n).
    assert (0 <= Z.lor (nextBase s n) k < 2 ^ 16)
      by (apply lor_range16; lia).
    unfold FSPSpace in Hfit. lia.
  - exact Hfit.
  - exact Hcap.
Qed.

(** X3.  Every datagram that a transaction hands to the socket is the
    request itself with the session's key, framed as [write] frames
    it; the datagrams of one transaction differ in the retry count,
    kept in the low three bits of the sequence number, and in the sum
    byte only. *)
Theorem transaction_retransmits_same_request (s : Session) (pkt : fspPacket)
    (n : Net) (r : txResult) :
  0 <= cmd pkt < 2 ^ 8 -> 0 <= len pkt -> 0 <= xlen pkt ->
  0 <= pos pkt < 2 ^ 32 ->
  len pkt + xlen pkt <= FSPSpace ->
  len pkt + xlen pkt <= Z.of_nat (cap (buf pkt)) ->
  transaction GetFile2 s pkt n = Ret r ->
  exists ds,
    sent (txNet r) = sent n ++ ds /\
    Forall (fun d =>
              exists k, 0 <= k < 8 /\
                d = datagramOf (pktSize (trans s))
                      (set_seq (Z.lor (nextBase s n) k)
                               (set_key (clientGetKey s) pkt))) ds.
Proof. exact (transaction_datagrams s pkt n r). Qed.

Lemma write_oversize s pkt n :
  uint16 (xlen pkt + len pkt) > FSPSpace ->
  write s pkt n = Ret (Some ErrPayloadTooBig, n).
Proof.
  intros B. unfold write, write_sendBuff.
  rewrite (proj2 (Z.gtb_lt _ _)) by lia. reflexivity.
Qed.

Lemma sendLoop_oversize cl : forall s pkt resp retry delay n,
  uint16 (xlen pkt + len pkt) > FSPSpace ->
  exists r,
    sendLoop GetFile2 s pkt resp retry delay n cl = Ret r /\
    txErr r = Some ErrTimeout /\ sent (txNet r) = sent n /\
    reads (txNet r) = reads n /\ lock (txSession r) = lock s.
Proof.
  apply (sendLoop_cases GetFile2
    (fun s pkt resp retry delay n cl out =>
       uint16 (xlen pkt + len pkt) > FSPSpace ->
       exists r, out = Ret r /\ txErr r = Some ErrTimeout /\
         sent (txNet r) = sent n /\
         reads (txNet r) = reads n /\ lock (txSession r) = lock s)).
  - intros. eexists. repeat split.
  - intros. eexists. repeat split.
  - intros s pkt resp retry delay n cl0 p W B. exfalso.
    rewrite write_oversize in W by exact B. discriminate W.
  - intros s pkt resp retry delay n cl0 e n1 pkt1 n2 retry1 delay1 W IH B.
    destruct (IH B) as (r & E & A1 & A2 & A3 & A4).
    exists r. split; [exact E|]. split; [exact A1|].
    rewrite write_oversize in W by exact B.
    inversion W; subst n1.
    split; [exact A2|]. split; [exact A3|exact A4].
  - intros s pkt resp retry delay n cl0 n1 s1 resp1 rs1 tr1 pkt1 delay1 n2
           W R IH B. exfalso.
    rewrite write_oversize in W by exact B. discriminate W.
  - intros s pkt resp retry delay n cl0 n1 s1 resp1 e1 rs1 tr1 pkt1 delay1
           W R B. exfalso.
    rewrite write_oversize in W by exact B. discriminate W.
Qed.

Lemma transaction_oversize (s : Session) (pkt : fspPacket)
    (n : Net) :
  uint16 (xlen pkt + len pkt) > FSPSpace ->
  exists r,
    transaction GetFile2 s pkt n = Ret r /\
    txErr r = Some ErrTimeout /\
    sent (txNet r) = sent n /\
    reads (txNet r) = reads n /\
    lock (txSession r) = lock s.
Proof.
  intros Hbig. unfold transaction.
  assert (T : sent (snd (randUint16 n)) = sent n /\
              reads (snd (randUint16 n)) = reads n).
  { unfold randUint16. destruct (rands n); repeat split. }
  destruct (randUint16 n) as [rd n1]. cbn [snd] in T.
  destruct T as (T1 & T2).
  destruct (sendLoop_oversize (clock n1)
              (if sseq s =? Z.land rd 65528
               then set_sseq (Z.lxor (sseq s) 4224) s
               else set_sseq (Z.land rd 65528) s)
              (set_key (clientGetKey s) pkt) zeroPacket 0 (1340 * msec) n1
              Hbig) as (r & E & A1 & A2 & A3 & A4).
  exists r. split; [exact E|]. split; [exact A1|].
  split; [congruence|]. split; [congruence|].
  rewrite A4. destruct (sseq s =? Z.land rd 65528); reflexivity.
Qed.

(** X4.  A request whose payload is too long for a datagram is never
    sent: the transaction sleeps a second per round until the clock
    runs out and reports a timeout, with the key and the pending
    replies untouched. *)
Theorem transaction_oversize_times_out (s : Session) (pkt : fspPacket)
    (n : Net) :
  uint16 (xlen pkt + len pkt) > FSPSpace ->
  exists r,
    transaction GetFile2 s pkt n = Ret r /\
    txErr r = Some ErrTimeout /\
    sent (txNet r) = sent n /\
    reads (txNet r) = reads n /\
    lock (txSession r) = lock s.
Proof. exact (transaction_oversize s pkt n). Qed.

End TransactionSends.

Lemma transaction_key_rotation_witness :
  exists r,
    transaction getFile2 (session0 [] defaultLock) versionPkt
                netThreeDatagrams = Ret r /\
    txErr r = None /\ clientGetKey (txSession r) = 7.
Proof.
  assert (R : exists r,
             transaction getFile2 (session0 [] defaultLock) versionPkt
                         netThreeDatagrams = Ret r /\
             txErr r = None /\ key (txResp r) = 7)
    by (eexists; split; [vm_compute; reflexivity|split; reflexivity]).
  destruct R as (r & R & E & K). exists r.
  split; [exact R|]. split; [exact E|].
  destruct (transaction_key_rotation getFile2 _ _ _ _ R) as (_ & _ & A).
  rewrite <- K. apply A. rewrite E. discriminate.
Defined.

Lemma transaction_retransmits_same_request_witness :
  exists r ds,
    transaction getFile2 (session0 [] defaultLock) versionPkt
                netEmptyDatagram = Ret r /\
    sent (txNet r) = sent netEmptyDatagram ++ ds /\
    Forall (fun d =>
              exists k, 0 <= k < 8 /\
                d = datagramOf 0
                      (set_seq (Z.lor 4656 k) (set_key 13579 versionPkt))) ds.
Proof.
  assert (R : exists r,
             transaction getFile2 (session0 [] defaultLock) versionPkt
                         netEmptyDatagram = Ret r)
    by (eexists; vm_compute; reflexivity).
  destruct R as (r & R). exists r.
  destruct (transaction_retransmits_same_request getFile2
              (session0 [] defaultLock) versionPkt netEmptyDatagram r)
    as (ds & E & F).
  - vm_compute. split; [discriminate|reflexivity].
  - vm_compute. discriminate.
  - vm_compute. discriminate.
  - vm_compute. split; [discriminate|reflexivity].
  - vm_compute. discriminate.
  - vm_compute. discriminate.
  - exact R.
  - exists ds. split; [exact R|]. split; [exact E|exact F].
Defined.

Lemma transaction_oversize_times_out_witness :
  exists r,
    transaction getFile2 (session0 [] defaultLock) pktTooBig netSilent
      = Ret r /\
    txErr r = Some ErrTimeout /\ sent (txNet r) = [].
Proof.
  destruct (transaction_oversize_times_out getFile2
              (session0 [] defaultLock) pktTooBig netSilent)
    as (r & R & E & S & _).
  - vm_compute. reflexivity.
  - exists r. split; [exact R|]. split; [exact E|exact S].
Defined.

(* ------------------------------------------------------------------ *)
(** ** Requests and replies of the operations *)


Lemma accepted_reply_shape (p0 resp : fspPacket) (D : list byte) :
  read p0 D = (resp, None) ->
  slen (buf resp) = cap (buf resp) /\
  arr (buf resp) = skipn 12 D /\
  Z.of_nat (slen (buf resp)) = len resp + xlen resp /\
  0 <= len resp /\ 0 <= xlen resp /\ len resp + xlen resp <= FSPSpace.
Proof.
  intros R.
  assert (S : snd (read p0 D) = None) by (rewrite R; reflexivity).
  apply read_ok_inv in S. destruct S as (S1 & _).
  destruct (read_ok_buf p0 resp D R) as (A & B & C & E & F).
  assert (L : Z.of_nat (cap (buf resp)) = zlen D - 12).
  { unfold cap. rewrite A, length_skipn. unfold zlen in *. lia. }
  unfold zlen in *. split; [lia|]. split; [exact A|]. split; [exact B|].
  split; [exact C|]. split; [exact E|]. unfold FSPSpace. lia.
Qed.

Section Requests.
Variable growslice : nat -> nat -> nat.
Variable GetFile2 : Z.

(** An accepted reply was decoded by [read] and passed the checks. *)
Lemma transaction_accepted s pkt n r :
  transaction GetFile2 s pkt n = Ret r ->
  txErr r <> Some ErrTimeout ->
  exists D resp0,
    read resp0 D = (txResp r, None) /\
    validReply (nextBase s n) pkt (txResp r).
Proof.
  unfold transaction, nextBase. destruct (randUint16 n) as [rd n1].
  cbn [fst]. intros H Hne.
  apply sendLoop_accept in H; [|exact Hne].
  destruct H as (d & resp0 & _ & R & V & _).
  exists (firstn (Z.to_nat FSPMaxPacket) d), resp0.
  split; [exact R|].
  destruct (sseq s =? Z.land rd 65528); exact V.
Qed.

(** The datagrams of a request without region B. *)
Lemma transaction_request s pkt n r a :
  0 <= cmd pkt < 2 ^ 8 -> 0 <= pos pkt < 2 ^ 32 ->
  xlen pkt = 0 -> len pkt = zlen a -> zlen a <= FSPSpace ->
  firstn (length a) (arr (buf pkt)) = a ->
  transaction GetFile2 s pkt n = Ret r ->
  sendsOnly n (txNet r) (isRequest s n (cmd pkt) (pos pkt) a).
Proof.
  intros Hc Hp Hx Hl Hfit Ha H.
  assert (Hcap : (length a <= cap (buf pkt))%nat).
  { unfold cap. rewrite <- Ha at 1. rewrite length_firstn. lia. }
  destruct (transaction_datagrams GetFile2 s pkt n r) as (ds & E & F);
    try assumption; try (unfold zlen in *; lia).
  exists ds. split; [exact E|].
  revert F. apply Forall_impl. intros d (k & Hk & ->).
  exists k. eexists. split; [exact Hk|].
  unfold datagramOf, requestBytes, headerBytes, regionA, wireB.
  cbn [cmd key seq len pos xlen buf set_seq set_key]. rewrite Hx, Hl.
  assert (Ea : firstn (Z.to_nat (zlen a)) (arr (buf pkt)) = a)
    by (unfold zlen; rewrite Nat2Z.id; exact Ha).
  rewrite !Ea.
  assert (B : (if cmd pkt =? FSPCommandGetFile
               then if 0 =? 2 then PutUint16 (pktSize (trans s)) else []
               else regionB
                      (set_seq (Z.lor (nextBase s n) k)
                               (set_key (clientGetKey s) pkt))) = []).
  { destruct (cmd pkt =? FSPCommandGetFile); [reflexivity|].
    unfold regionB. cbn [xlen set_seq set_key]. rewrite Hx. reflexivity. }
  rewrite !B, !app_nil_r. rewrite <- !app_assoc. reflexivity.
Qed.

Lemma buildFileName_request (f p : list byte) :
  zlen f + zlen p + 2 < FSPSpace ->
  let o := fst (buildFileName growslice zeroPacket f p) in
  snd (buildFileName growslice zeroPacket f p) = None /\
  len o = zlen (fileNamePayload f p) /\
  zlen (fileNamePayload f p) <= FSPSpace /\
  firstn (length (fileNamePayload f p)) (arr (buf o)) = fileNamePayload f p /\
  wfSlice (buf o) /\ xlen o = 0 /\ pos o = 0 /\ cmd o = 0.
Proof.
  intros H.
  destruct (buildFileName_ok growslice zeroPacket f p) as
    (A & B & C & D & E1 & E2 & E3 & E4 & E5).
  { unfold wfSlice. cbn. lia. }
  { exact H. }
  cbn zeta. split; [exact A|]. split; [exact D|].
  split.
  { rewrite fileNamePayload_length. destruct p; unfold zlen in *;
      cbn [length] in *; lia. }
  split.
  { change (elems (buf zeroPacket)) with (@nil byte) in C.
    cbn [app] in C. rewrite <- C at 2. unfold elems. f_equal.
    rewrite <- C. rewrite elems_length by exact B. reflexivity. }
  split; [exact B|]. split; [exact E5|]. split; [exact E4|exact E1].
Qed.

End Requests.

(** Closed comparisons of numerals. *)
Ltac by_compute := vm_compute; repeat split; (discriminate || reflexivity).

Section Operations1.
Variable growslice : nat -> nat -> nat.
Variable GetFile2 : Z.

Lemma transaction_outcome s pkt n r :
  transaction GetFile2 s pkt n = Ret r ->
  txErr r = Some ErrTimeout \/
  (txErr r <> Some ErrTimeout /\
   txErr r = (if cmd (txResp r) =? FSPCommandErr
              then Some (ErrServer FSPCommandErr (elems (buf (txResp r))))
              else None)).
Proof.
  unfold transaction. destruct (randUint16 n) as [rd n1].
  intros H. apply sendLoop_session in H.
  destruct H as (_ & _ & _ & _ & _ & _ & A).
  assert (D : txErr r = Some ErrTimeout \/ txErr r <> Some ErrTimeout)
    by (destruct (txErr r) as [[]|]; (left; reflexivity) || (right; discriminate)).
  destruct D as [D|D]; [left; exact D|right].
  split; [exact D|]. destruct (A D) as (_ & _ & X). rewrite X.
  destruct (cmd (txResp r) =? FSPCommandErr) eqn:C; [|reflexivity].
  apply Z.eqb_eq in C. rewrite C. reflexivity.
Qed.

Lemma nameRequest_sendable c f p :
  zlen f + zlen p + 2 < FSPSpace ->
  sendable (nameRequest growslice c f p).
Proof.
  intros H.
  destruct (buildFileName_request growslice f p H)
    as (_ & L & Lf & A & W & X & P & C).
  unfold sendable, nameRequest.
  cbn [len xlen buf cmd set_pos set_xlen set_cmd].
  split; [|right; left; lia].
  rewrite L. split; [unfold zlen; lia|].
  unfold cap. rewrite <- A at 1. unfold zlen. rewrite length_firstn. lia.
Qed.

Lemma nameRequest_transaction s n c f p r :
  0 <= c < 2 ^ 8 ->
  zlen f + zlen p + 2 < FSPSpace ->
  transaction GetFile2 s (nameRequest growslice c f p) n = Ret r ->
  sendsOnly n (txNet r) (isRequest s n c 0 (fileNamePayload f p)).
Proof.
  intros Hc H T.
  destruct (buildFileName_request growslice f p H)
    as (_ & L & Lf & A & W & X & P & C).
  apply (transaction_request GetFile2 s _ n r (fileNamePayload f p)) in T.
  - exact T.
  - exact Hc.
  - cbn. lia.
  - reflexivity.
  - exact L.
  - exact Lf.
  - exact A.
Qed.





End Operations1.

Lemma index_ok (s : slice) (i : Z) :
  0 <= i < Z.of_nat (slen s) ->
  index s i = Ret (nth (Z.to_nat i) (arr s) x00).
Proof.
  intros H. unfold index.
  replace ((0 <=? i) && (i <? Z.of_nat (slen s))) with true; [reflexivity|].
  symmetry. apply andb_true_intro.
  split; [apply Z.leb_le|apply Z.ltb_lt]; lia.
Qed.

Lemma subSlice_ok (s : slice) (lo hi : Z) :
  0 <= lo <= hi -> hi <= Z.of_nat (cap s) ->
  subSlice s lo hi
  = Ret (firstn (Z.to_nat (hi - lo)) (skipn (Z.to_nat lo) (arr s))).
Proof.
  intros H1 H2. unfold subSlice.
  replace ((0 <=? lo) && (lo <=? hi) && (hi <=? Z.of_nat (cap s))) with true;
    [reflexivity|].
  symmetry. apply andb_true_intro.
  split; [apply andb_true_intro; split|]; apply Z.leb_le; lia.
Qed.

Lemma uint32At_ok (l : list byte) (i : Z) :
  0 <= i -> i + 4 <= zlen l ->
  uint32At l i
  = Ret (Uint32 (nth (Z.to_nat i) l x00) (nth (Z.to_nat i + 1) l x00)
                (nth (Z.to_nat i + 2) l x00) (nth (Z.to_nat i + 3) l x00)).
Proof.
  intros H1 H2. unfold uint32At.
  replace ((0 <=? i) && (i <=? zlen l)) with true
    by (symmetry; apply andb_true_intro; split; apply Z.leb_le; lia).
  replace (i + 4 <=? zlen l) with true
    by (symmetry; apply Z.leb_le; lia).
  reflexivity.
Qed.

Section StatOperation.
Variable growslice : nat -> nat -> nat.
Variable GetFile2 : Z.

(** What [Stat] does with an accepted reply. *)
Lemma Stat_payload (rPath : list byte) (resp : fspPacket) (s' : Session)
    (n' : Net) :
  slen (buf resp) = cap (buf resp) ->
  (noFile <-
     (if Z.of_nat (slen (buf resp)) <=? 8 then Ret true
      else b <- index (buf resp) 8 ;; Ret (b2z b =? 0)) ;;
   if noFile : bool
   then Ret (mkApi (@None fileStat) s' n' (Some ErrNoSuchFile))
   else
     hd <- subSlice (buf resp) 0 4 ;;
     modTime <- uint32At hd 0 ;;
     tl <- subSlice (buf resp) 4 (Z.of_nat (slen (buf resp))) ;;
     size <- uint32At tl 0 ;;
     b <- index (buf resp) 8 ;;
     let mode := if b2z b =? fspEntryTypeDir
                 then Z.lor ModeDir perm0755 else perm0644 in
     Ret (mkApi (Some (mkStat rPath size mode modTime)) s' n' None))
  = Ret (match statOfPayload rPath (arr (buf resp)) with
         | None => mkApi None s' n' (Some ErrNoSuchFile)
         | Some st => mkApi (Some st) s' n' None
         end).
Proof.
  intros Hc. unfold statOfPayload, zlen. unfold cap in Hc. rewrite <- Hc.
  destruct (Z.of_nat (slen (buf resp)) <=? 8) eqn:E; [reflexivity|].
  apply Z.leb_gt in E. cbn [orb].
  rewrite index_ok by lia. cbn [bind].
  change (Z.to_nat 8) with 8%nat.
  destruct (b2z (nth 8 (arr (buf resp)) x00) =? 0); [reflexivity|].
  rewrite subSlice_ok by (unfold cap; lia). cbn [bind].
  rewrite subSlice_ok by (unfold cap; lia).
  destruct (arr (buf resp)) as [|b0 [|b1 [|b2 [|b3 [|b4 [|b5 [|b6 [|b7 [|b8 t]]]]]]]]];
    cbn [length] in Hc; try lia.
  change (Z.to_nat (4 - 0)) with 4%nat. change (Z.to_nat 0) with 0%nat.
  change (Z.to_nat 4) with 4%nat. cbn [skipn firstn].
  rewrite uint32At_ok by (unfold zlen; cbn [length]; lia). cbn [bind].
  rewrite uint32At_ok.
  - cbn [bind]. change (Z.to_nat 0) with 0%nat. cbn [Nat.add nth].
    replace (Z.to_nat (Z.of_nat (slen (buf resp)) - 4))
      with (S (S (S (S (S (Z.to_nat (Z.of_nat (slen (buf resp)) - 9)))))))
      by lia.
    cbn [firstn nth]. reflexivity.
  - lia.
  - unfold zlen. rewrite length_firstn. cbn [length]. lia.
Qed.

(** X8.  [Stat] refuses a name that is too long before anything is
    sent.  Otherwise it returns without a panic whatever the server
    answers: a transaction error is handed on; a reply whose payload,
    regions A and B together, has at most eight bytes or a zero type
    byte at offset 8 gives "No such file"; any other reply gives the
    modification time from bytes 0-3 and the size from bytes 4-7, both
    big-endian, and the mode of a directory when the type byte is 2
    and of a plain file otherwise. *)
Theorem Stat_decodes_payload (s : Session) (n : Net) (rPath : list byte) :
  (zlen rPath + zlen (password s) + 2 >= FSPSpace ->
   Stat growslice GetFile2 s n rPath
   = Ret (mkApi None s n (Some (OfPacket ErrFileNameTooLong)))) /\
  (zlen rPath + zlen (password s) + 2 < FSPSpace ->
   exists r,
     transaction GetFile2 s
       (nameRequest growslice FSPCommandStat rPath (password s)) n = Ret r /\
     sendsOnly n (txNet r)
       (isRequest s n FSPCommandStat 0 (fileNamePayload rPath (password s))) /\
     Stat growslice GetFile2 s n rPath
     = Ret (match txErr r with
            | Some e => mkApi None (txSession r) (txNet r) (Some (OfPacket e))
            | None =>
              match statOfPayload rPath (arr (buf (txResp r))) with
              | None => mkApi None (txSession r) (txNet r) (Some ErrNoSuchFile)
              | Some st => mkApi (Some st) (txSession r) (txNet r) None
              end
            end)).
Proof.
  split.
  - intros H. unfold Stat.
    pose proof (proj2 (buildFileName_fails_iff growslice zeroPacket rPath
                         (password s)) H) as E.
    destruct (buildFileName growslice zeroPacket rPath (password s))
      as [o e]. cbn [snd] in E. rewrite E. reflexivity.
  - intros H.
    pose proof (nameRequest_sendable growslice FSPCommandStat rPath
                  (password s) H) as S.
    destruct (transaction_returns GetFile2 s _ n S) as [r R].
    exists r. split; [exact R|]. split.
    { apply (nameRequest_transaction growslice GetFile2 s n FSPCommandStat
               rPath (password s) r); [by_compute|exact H|exact R]. }
    unfold Stat.
    destruct (buildFileName_request growslice rPath (password s) H)
      as (E & _).
    unfold nameRequest in R.
    destruct (buildFileName growslice zeroPacket rPath (password s))
      as [o e]. cbn [fst snd] in *. rewrite E, R. cbn [bind].
    destruct (txErr r) as [e1|] eqn:X; [reflexivity|].
    destruct (transaction_accepted GetFile2 s _ n r R) as (D & p0 & Rd & _).
    { rewrite X. discriminate. }
    apply accepted_reply_shape in Rd. destruct Rd as (A1 & _).
    apply Stat_payload. exact A1.
Qed.

End StatOperation.

Lemma uint16_add_l (a b : Z) : uint16 (uint16 a + b) = uint16 (a + b).
Proof. unfold uint16. apply Z.add_mod_idemp_l. lia. Qed.

Lemma uint16_add_r (a b : Z) : uint16 (a + uint16 b) = uint16 (a + b).
Proof. unfold uint16. apply Z.add_mod_idemp_r. lia. Qed.

Lemma uint16_range (a : Z) : 0 <= uint16 a < 2 ^ 16.
Proof. unfold uint16. apply Z.mod_pos_bound. lia. Qed.

Lemma zlen_app {A} (l1 l2 : list A) : zlen (l1 ++ l2) = zlen l1 + zlen l2.
Proof. unfold zlen. rewrite length_app. lia. Qed.

Lemma zlen_zero_nil {A} (l : list A) : zlen l <= 0 -> l = [].
Proof. destruct l; [reflexivity|]. unfold zlen. cbn [length]. lia. Qed.

Lemma firstn_elems (s : slice) (k : nat) :
  (k <= slen s)%nat -> firstn k (arr s) = firstn k (elems s).
Proof.
  intros H. unfold elems. rewrite firstn_firstn.
  rewrite Nat.min_l by exact H. reflexivity.
Qed.

Section ChangePasswordOperation.
Variable growslice : nat -> nat -> nat.
Variable GetFile2 : Z.

Lemma holdsPayload_append (req : fspPacket) (p l : list byte) :
  holdsPayload req p ->
  holdsPayload
    (set_len (uint16 (len (set_buf (append growslice (buf req) l) req)
                      + uint16 (zlen l)))
             (set_buf (append growslice (buf req) l) req))
    (p ++ l).
Proof.
  intros (W & E & L). unfold holdsPayload.
  cbn [buf len set_len set_buf].
  split; [apply append_wf; exact W|].
  split; [rewrite append_elems by exact W; rewrite E; reflexivity|].
  rewrite L, uint16_add_l, uint16_add_r, zlen_app. reflexivity.
Qed.

Lemma holdsPayload_append1 (req : fspPacket) (p : list byte) (b : byte) :
  holdsPayload req p ->
  holdsPayload
    (set_len (uint16 (len (set_buf (append growslice (buf req) [b]) req) + 1))
             (set_buf (append growslice (buf req) [b]) req))
    (p ++ [b]).
Proof.
  intros (W & E & L). unfold holdsPayload.
  cbn [buf len set_len set_buf].
  split; [apply append_wf; exact W|].
  split; [rewrite append_elems by exact W; rewrite E; reflexivity|].
  rewrite L, uint16_add_l, zlen_app. reflexivity.
Qed.

Lemma holdsPayload_append_if (req : fspPacket) (p l : list byte) :
  holdsPayload req p ->
  holdsPayload
    (if 0 <? zlen l
     then set_len (uint16 (len (set_buf (append growslice (buf req) l) req)
                           + uint16 (zlen l)))
                  (set_buf (append growslice (buf req) l) req)
     else req)
    (p ++ l).
Proof.
  intros H. destruct (0 <? zlen l) eqn:C.
  - apply holdsPayload_append. exact H.
  - apply Z.ltb_ge in C. rewrite (zlen_zero_nil _ C), app_nil_r. exact H.
Qed.

Lemma ChangePassword_req_shape (s : Session) (new : list byte) :
  let req := ChangePassword_req growslice s new in
  cmd req = FSPCommandChangePass /\ xlen req = 0 /\ pos req = 0 /\
  holdsPayload req (passwordPayload (password s) new).
Proof.
  cbn zeta. split; [reflexivity|]. split; [reflexivity|].
  split; [reflexivity|].
  unfold ChangePassword_req, passwordPayload.
  change (holdsPayload ?r ?p)
    with (holdsPayload (set_len (len r) (set_buf (buf r) zeroPacket)) p).
  cbn [buf len set_pos set_xlen set_cmd].
  assert (H0 : holdsPayload
                 (set_len 1 (set_buf (append growslice nilSlice [x0a])
                                     zeroPacket)) [x0a]).
  { unfold holdsPayload. cbn [buf len set_len set_buf].
    split; [apply append_wf; unfold wfSlice; cbn; lia|].
    split; [rewrite append_elems by (unfold wfSlice; cbn; lia); reflexivity|].
    reflexivity. }
  apply (holdsPayload_append_if _ _ (password s)) in H0.
  apply (holdsPayload_append1 _ _ x0a) in H0.
  apply (holdsPayload_append_if _ _ new) in H0.
  apply (holdsPayload_append1 _ _ x00) in H0.
  rewrite <- !app_assoc in H0.
  destruct H0 as (W & E & L). unfold holdsPayload.
  cbn [buf len set_len set_buf] in *.
  split; [exact W|]. split; [exact E|exact L].
Qed.

(** X9.  [ChangePassword] puts a line feed, the old password, a line
    feed, the new password and a zero byte in region A, and counts
    them in a 16-bit length that is not checked.  When that length
    fits a datagram, every datagram sent is the CHANGE_PASS request
    with the first [len] bytes of this payload, which is all of it
    unless the count wrapped; when it does not fit, nothing is sent
    and the call reports a timeout once the clock has run out. *)
Theorem ChangePassword_request (s : Session) (n : Net) (new : list byte) :
  let a := passwordPayload (password s) new in
  (uint16 (zlen a) <= FSPSpace ->
   exists r,
     ChangePassword growslice GetFile2 s n new = Ret r /\
     sendsOnly n (opNet r)
       (isRequest s n FSPCommandChangePass 0
                  (firstn (Z.to_nat (uint16 (zlen a))) a))) /\
  (zlen a <= FSPSpace -> firstn (Z.to_nat (uint16 (zlen a))) a = a) /\
  (uint16 (zlen a) > FSPSpace ->
   exists r,
     ChangePassword growslice GetFile2 s n new = Ret r /\
     opErr r = Some ErrTimeout /\ sent (opNet r) = sent n).
Proof.
  cbn zeta.
  destruct (ChangePassword_req_shape s new) as (C & X & P & W & E & L).
  pose proof (uint16_range (zlen (passwordPayload (password s) new))) as U.
  assert (Ule : uint16 (zlen (passwordPayload (password s) new))
                <= zlen (passwordPayload (password s) new)).
  { unfold uint16. apply Z.mod_le; [unfold zlen|]; lia. }
  split; [|split].
  - intros Hfit. unfold ChangePassword.
    assert (S : sendable (ChangePassword_req growslice s new)).
    { unfold sendable. rewrite L, X. split; [|right; left; lia].
      split; [lia|]. unfold wfSlice in W.
      rewrite <- (elems_length _ W) in W. rewrite E in W.
      unfold zlen in *. lia. }
    destruct (transaction_returns GetFile2 s _ n S) as [r R].
    rewrite R. cbn [bind]. eexists. split; [reflexivity|]. cbn [opNet].
    apply (transaction_request GetFile2 s _ n r
             (firstn (Z.to_nat (uint16 (zlen (passwordPayload (password s) new))))
                     (passwordPayload (password s) new))) in R.
    + rewrite C, P in R. exact R.
    + rewrite C. by_compute.
    + rewrite P. by_compute.
    + exact X.
    + rewrite L. unfold zlen at 2. rewrite length_firstn.
      unfold zlen in *. lia.
    + unfold zlen at 1. rewrite length_firstn. unfold zlen in *. lia.
    + rewrite length_firstn.
      assert (K : (Z.to_nat (uint16 (zlen (passwordPayload (password s) new)))
                   <= length (passwordPayload (password s) new))%nat)
        by (unfold zlen in *; lia).
      rewrite Nat.min_l by exact K.
      rewrite firstn_elems.
      * rewrite E. reflexivity.
      * unfold wfSlice in W. rewrite <- (elems_length _ W), E. exact K.
  - intros Hfit. apply firstn_zlen. unfold uint16. symmetry.
    apply Z.mod_small. unfold FSPSpace, zlen in *. lia.
  - intros Hbig. unfold ChangePassword.
    destruct (transaction_oversize GetFile2 s
                (ChangePassword_req growslice s new) n)
      as (r & R & T & Sn & _).
    { rewrite X, L, uint16_add_r, Z.add_0_l. exact Hbig. }
    rewrite R. cbn [bind]. eexists. split; [reflexivity|].
    split; [exact T|exact Sn].
Qed.

End ChangePasswordOperation.


Lemma Stat_decodes_payload_witness :
  exists r,
    transaction getFile2 (session0 [] defaultLock)
      (nameRequest grow8 FSPCommandStat [x61] []) (netReply replyStat)
    = Ret r /\
    Stat grow8 getFile2 (session0 [] defaultLock) (netReply replyStat) [x61]
    = Ret (mkApi (Some (mkStat [x61] 2 perm0644 1)) (txSession r) (txNet r)
                 None).
Proof.
  destruct (Stat_decodes_payload grow8 getFile2 (session0 [] defaultLock)
              (netReply replyStat) [x61]) as (_ & H).
  destruct H as (r & R & _ & E); [by_compute|].
  exists r. split; [exact R|]. rewrite E.
  assert (V : Ret r = Ret _) by (rewrite <- R; vm_compute; reflexivity).
  inversion V; subst r. reflexivity.
Defined.

Lemma ChangePassword_request_witness :
  exists r,
    ChangePassword grow8 getFile2 sessionP netSilent [x71] = Ret r /\
    sendsOnly netSilent (opNet r)
      (isRequest sessionP netSilent FSPCommandChangePass 0
                 [x0a; x70; x0a; x71; x00]).
Proof.
  destruct (ChangePassword_request grow8 getFile2 sessionP netSilent [x71])
    as (H & _).
  apply H. by_compute.
Defined.

(* ------------------------------------------------------------------ *)
(** ** Writing to a file *)

Lemma copyAt_ok (s : slice) (lo : Z) (src : list byte) :
  wfSlice s -> 0 <= lo <= Z.of_nat (slen s) ->
  exists s',
    copyAt s lo src = Ret s' /\ slen s' = slen s /\ wfSlice s' /\
    arr s' = firstn (Z.to_nat lo) (arr s)
             ++ firstn (Nat.min (slen s - Z.to_nat lo) (length src)) src
             ++ skipn (Z.to_nat lo + Nat.min (slen s - Z.to_nat lo) (length src))
                      (arr s).
Proof.
  intros W H. unfold copyAt.
  replace ((0 <=? lo) && (lo <=? Z.of_nat (slen s))) with true
    by (symmetry; apply andb_true_intro; split; apply Z.leb_le; lia).
  eexists. split; [reflexivity|]. cbn [slen arr].
  split; [reflexivity|]. split; [|reflexivity].
  unfold wfSlice, cap in *. cbn [slen arr].
  rewrite !length_app, !length_firstn, length_skipn. lia.
Qed.


Section Upload.
Variable growslice : nat -> nat -> nat.
Variable GetFile2 : Z.





Lemma Write_enters_loop (f : File) :
  writeHandle f ->
  let f1 := if (slen (buf (out f)) =? 0)%nat
            then set_out (set_buf (make (Z.to_nat FSPSpace)) (out f)) f
            else f in
  let f2 := set_out (set_len FSPSpace (out f1)) f1 in
  uploadState f2 /\ buffPos f2 = buffPos f /\ fpos f2 = fpos f /\
  err f2 = err f /\ pending f2 = pending f.
Proof.
  intros (A1 & A2 & A3 & A4 & A5 & A6 & AL & [[B1 B2]|[B1 B2]]); cbn zeta.
  - rewrite B1. cbn [Nat.eqb]. unfold uploadState, pending.
    cbn [writing eof out buffPos fpos err set_out cmd xlen len buf set_buf
         set_len make slen arr].
    rewrite B2. change (Z.to_nat 0) with 0%nat. cbn [firstn].
    unfold wfSlice, cap, make. cbn [slen arr]. unfold zeros.
    rewrite repeat_length. unfold FSPSpace in *.
    repeat split; try assumption; lia.
  - assert (E : (slen (buf (out f)) =? 0)%nat = false)
      by (apply Nat.eqb_neq; rewrite B1; unfold FSPSpace; lia).
    rewrite E. unfold uploadState, pending.
    cbn [writing eof out buffPos fpos err set_out cmd xlen len buf set_buf
         set_len].
    repeat split; try assumption; lia.
Qed.





(** X12.  A [Write] that does not fill the buffer touches neither the
    session nor the network: the data is appended to the pending
    bytes and the file position stays. *)
Theorem Write_buffers_small (f : File) (s : Session) (n : Net)
    (data : list byte) :
  writeHandle f -> err f = 0 ->
  buffPos f + zlen data < FSPSpace ->
  exists f',
    Write GetFile2 f s n data = Ret (mkFR f' s n None) /\
    pending f' = pending f ++ data /\
    buffPos f' = buffPos f + zlen data /\ fpos f' = fpos f /\
    writeHandle f' /\ err f' = 0.
Proof.
  intros H He Hs.
  pose proof (Write_enters_loop f H) as (U & Eb & Ef & Ee & Ep).
  cbn zeta in U, Eb, Ef, Ee, Ep.
  destruct H as (A1 & A2 & _).
  unfold Write. rewrite A2, He. cbn [orb negb Z.eqb].
  set (f2 := set_out (set_len FSPSpace (out _)) _) in *.
  destruct U as (C1 & C2 & C3 & C4 & C5 & C6 & C7 & C8 & C9).
  cbn [Write_loop].
  replace (buffPos f2 >=? FSPSpace) with false
    by (symmetry; rewrite Z.geb_leb; apply Z.leb_gt; unfold zlen in *; lia).
  replace (FSPSpace - buffPos f2 <=? zlen data) with false
    by (symmetry; apply Z.leb_gt; lia).
  change (Z.to_nat 0) with 0%nat. cbn [skipn].
  rewrite firstn_zlen by reflexivity.
  destruct (copyAt_ok (buf (out f2)) (buffPos f2) data C9)
    as (b & E & Sl & Wb & Ea).
  { rewrite C8. unfold FSPSpace in *. lia. }
  rewrite E. cbn [bind]. eexists. split; [reflexivity|].
  cbn [buffPos fpos err out set_buffPos set_out].
  assert (Hmin : Nat.min (slen (buf (out f2)) - Z.to_nat (buffPos f2))
                         (length data) = length data).
  { rewrite C8. unfold zlen, FSPSpace in *. lia. }
  split.
  - unfold pending. cbn [buffPos out set_buffPos set_out buf set_buf].
    rewrite Ea, Hmin, firstn_all. fold (pending f). rewrite <- Ep.
    unfold pending.
    assert (L : length (firstn (Z.to_nat (buffPos f2)) (arr (buf (out f2))))
                = Z.to_nat (buffPos f2)).
    { rewrite length_firstn. unfold wfSlice, cap in C9. rewrite C8 in C9.
      unfold FSPSpace in *. lia. }
    replace (Z.to_nat (buffPos f2 + zlen data))
      with (length (firstn (Z.to_nat (buffPos f2)) (arr (buf (out f2))))
            + length data)%nat
      by (rewrite L; unfold zlen; lia).
    rewrite firstn_app_2. rewrite firstn_app, Nat.sub_diag, firstn_all.
    cbn [firstn]. rewrite app_nil_r. reflexivity.
  - split; [rewrite Eb; reflexivity|]. split; [exact Ef|]. split.
    + unfold writeHandle.
      cbn [writing eof buffPos fpos out set_buffPos set_out cmd xlen buf
           set_buf len].
      rewrite Sl, C7. pose proof Wb as Wb'. unfold wfSlice in Wb'.
      rewrite Sl, C8 in Wb'. unfold zlen, FSPSpace in *.
      repeat split; try assumption; try lia.
      right. split; assumption.
    + congruence.
Qed.

End Upload.

(* ------------------------------------------------------------------ *)
(** ** Closing a file and uploading *)

Lemma write_sendBuff_cmd (ps : Z) (p : fspPacket) (D : list byte) :
  write_sendBuff ps p = Ret (inr D) -> nth 0 D x00 = z2b (cmd p).
Proof.
  unfold write_sendBuff. destruct (_ >? _); [discriminate|].
  unfold subSlice at 1.
  destruct ((0 <=? 0) && (0 <=? len p) && (len p <=? Z.of_nat (cap (buf p))))
    eqn:E; cbn [bind]; [|discriminate].
  apply andb_true_iff in E. destruct E as [E _].
  apply andb_true_iff in E. destruct E as [_ E]. apply Z.leb_le in E.
  assert (K : forall body used,
            12 <= used ->
            firstn (Z.to_nat used)
              (setByte fspOffsetSum
                 (z2b (sendSum (firstn (Z.to_nat used)
                                  (([z2b (cmd p); x00] ++ PutUint16 (key p)
                                      ++ PutUint16 (seq p) ++ PutUint16 (len p)
                                      ++ PutUint32 (pos p)) ++ body)) used))
                 (([z2b (cmd p); x00] ++ PutUint16 (key p)
                     ++ PutUint16 (seq p) ++ PutUint16 (len p)
                     ++ PutUint32 (pos p)) ++ body)) = D ->
            nth 0 D x00 = z2b (cmd p)).
  { intros body used Hu <-. rewrite !nth_firstn.
    replace (0 <? Z.to_nat used)%nat with true
      by (symmetry; apply Nat.ltb_lt; lia).
    reflexivity. }
  unfold FSPHSzie.
  destruct (cmd p =? FSPCommandGetFile).
  - destruct (xlen p =? 2) eqn:X; cbn [bind]; intros H.
    + apply Z.eqb_eq in X. rewrite <- app_assoc in H.
      injection H as H. refine (K _ (12 + len p + xlen p) _ H). lia.
    + injection H as H. refine (K _ (12 + len p) _ H). lia.
  - destruct (xlen p >? 0) eqn:X; cbn [bind]; intros H.
    + destruct (subSlice _ _ _) as [b|q|]; cbn [bind] in H; try discriminate.
      rewrite <- app_assoc in H.
      injection H as H. refine (K _ (12 + len p + xlen p) _ H). lia.
    + injection H as H. refine (K _ (12 + len p) _ H). lia.
Qed.

Section CloseAndUpload.
Variable growslice : nat -> nat -> nat.
Variable GetFile2 : Z.

(** The packet that [install] assembles, for every name, password,
    time stamp and allocator. *)
Lemma install_out_packet (f : File) (s : Session) (ts : Z) :
  zlen (name f) + zlen (password s) + 2 < FSPSpace ->
  exists o,
    install_out growslice f s ts = Ret (o, None) /\
    cmd o = FSPCommandInstall /\
    len o = zlen (fileNamePayload (name f) (password s)) /\
    regionA o = fileNamePayload (name f) (password s) /\
    (ts <> 0 ->
     xlen o = 4 /\ pos o = 4 /\ regionB o = PutUint32 (uint32 ts)) /\
    (ts = 0 -> xlen o = 0 /\ pos o = 0).
Proof.
  intros H. unfold install_out.
  set (o0 := set_pos 0 (set_xlen 0 (set_cmd FSPCommandInstall zeroPacket))).
  destruct (buildFileName_ok growslice o0 (name f) (password s))
    as (E & W & El & L & C & _ & _ & P & X).
  { unfold wfSlice. cbn. lia. }
  { exact H. }
  destruct (buildFileName growslice o0 (name f) (password s)) as [o1 e].
  cbn [fst snd] in *. subst e.
  change (elems (buf o0)) with (@nil byte) in El. cbn [app] in El.
  set (pl := fileNamePayload (name f) (password s)) in *.
  assert (Lz : Z.to_nat (len o1) = length pl)
    by (rewrite L; unfold zlen; lia).
  assert (Sl : slen (buf o1) = length pl)
    by (rewrite <- (elems_length _ W), El; reflexivity).
  assert (RA : forall rest, firstn (length pl) (pl ++ rest) = pl).
  { intros rest. rewrite firstn_app, Nat.sub_diag, firstn_all.
    cbn [firstn]. apply app_nil_r. }
  destruct (ts =? 0) eqn:T; cbn [negb].
  - apply Z.eqb_eq in T. exists o1. split; [reflexivity|].
    split; [exact C|]. split; [exact L|]. split.
    + unfold regionA. rewrite Lz. rewrite <- Sl. fold (elems (buf o1)).
      exact El.
    + split; [intros N; contradiction|]. intros _. split; assumption.
  - apply Z.eqb_neq in T.
    set (b := append growslice (buf o1) [x00; x00; x00; x00]).
    assert (Wb : wfSlice b) by (apply append_wf; exact W).
    assert (Sb : slen b = (length pl + 4)%nat)
      by (unfold b; rewrite append_slen, Sl; reflexivity).
    destruct (append_arr growslice (buf o1) [x00; x00; x00; x00] W)
      as [rest Ab].
    fold b in Ab. rewrite El in Ab.
    unfold putUint32At.
    replace ((0 <=? len o1) && (len o1 <=? Z.of_nat (slen b))) with true
      by (symmetry; apply andb_true_intro; split; apply Z.leb_le;
          rewrite ?Sb, L; unfold zlen; lia).
    replace (len o1 + 4 <=? Z.of_nat (slen b)) with true
      by (symmetry; apply Z.leb_le; rewrite Sb, L; unfold zlen; lia).
    destruct (copyAt_ok b (len o1) (PutUint32 (uint32 ts)) Wb)
      as (b' & Eb & Sb' & Wb' & Ab').
    { rewrite Sb, L. unfold zlen. lia. }
    rewrite Eb. cbn [bind]. eexists. split; [reflexivity|].
    cbn [cmd len pos xlen buf set_pos set_xlen set_buf].
    rewrite Lz, Sb in Ab'.
    replace (Nat.min (length pl + 4 - length pl)
                     (length (PutUint32 (uint32 ts)))) with 4%nat in Ab'
      by (cbn [PutUint32 length]; lia).
    rewrite Ab in Ab'. rewrite RA in Ab'.
    change (firstn 4 (PutUint32 (uint32 ts))) with (PutUint32 (uint32 ts))
      in Ab'.
    split; [exact C|]. split; [exact L|]. split.
    + unfold regionA. cbn [len buf set_pos set_xlen set_buf].
      rewrite Lz, Ab'. apply RA.
    + split; [|intros N; contradiction]. intros _.
      split; [reflexivity|]. split; [reflexivity|].
      unfold regionB. cbn [len xlen buf set_pos set_xlen set_buf].
      rewrite Lz, Ab'. rewrite skipn_app, Nat.sub_diag, skipn_all.
      cbn [skipn app]. change (Z.to_nat 4) with 4%nat. reflexivity.
Qed.


(** Every datagram of a transaction starts with the command of the
    request. *)
Lemma transaction_command s pkt n r :
  transaction GetFile2 s pkt n = Ret r ->
  sendsOnly n (txNet r) (fun d => nth 0 d x00 = z2b (cmd pkt)).
Proof.
  intros H. apply transaction_trace in H. destruct H as (new & E & F).
  eexists. split; [apply (sent_app new (trace n)); exact E|].
  apply Forall_rev. apply Forall_flat_map.
  revert F. apply Forall_impl.
  intros [d|d|ns|dl] Hev; try constructor; [|constructor].
  cbn [requestEvent] in Hev. destruct Hev as (k & _ & W).
  apply write_sendBuff_cmd in W. exact W.
Qed.

(** X13.  [install], for every name, password, time stamp and
    allocator: the packet it assembles is the INSTALL request, with
    the name and password in region A and, for a time stamp other
    than zero, the four bytes of the time stamp in region B and
    [xlen = pos = 4]; the transaction, though, is run on the packet
    of the handle, so that on a handle opened for writing every
    datagram [install] sends carries the command UPLOAD. *)
Theorem install_sends_handle_packet (f : File) (s : Session) (n : Net)
    (ts : Z) :
  zlen (name f) + zlen (password s) + 2 < FSPSpace ->
  cmd (out f) = FSPCommandUpload ->
  (exists o,
     install_out growslice f s ts = Ret (o, None) /\
     cmd o = FSPCommandInstall /\
     len o = zlen (fileNamePayload (name f) (password s)) /\
     regionA o = fileNamePayload (name f) (password s) /\
     (ts <> 0 ->
      xlen o = 4 /\ pos o = 4 /\ regionB o = PutUint32 (uint32 ts)) /\
     (ts = 0 -> xlen o = 0 /\ pos o = 0)) /\
  (forall r,
     install growslice GetFile2 f s n ts = Ret r ->
     sendsOnly n (frNet r) (fun d => b2z (nth 0 d x00) = FSPCommandUpload)).
Proof.
  intros H Hc. split; [apply install_out_packet; exact H|].
  intros r. unfold install.
  destruct (install_out_packet f s ts H) as (o & E & _). rewrite E.
  cbn [bind].
  destruct (transaction GetFile2 s (out f) n) as [r0|p|] eqn:R;
    cbn [bind]; try discriminate.
  intros X. inversion X; subst r; clear X. cbn [frNet].
  apply transaction_command in R. destruct R as (ds & Es & F).
  exists ds. split; [exact Es|]. revert F. apply Forall_impl.
  intros d ->. rewrite Hc. reflexivity.
Qed.







End CloseAndUpload.


Lemma Write_buffers_small_witness :
  exists f',
    Write getFile2 (openFile_w [x61]) (session0 [] defaultLock) netUpload
          threeBytes
    = Ret (mkFR f' (session0 [] defaultLock) netUpload None) /\
    pending f' = threeBytes /\ buffPos f' = 3 /\ fpos f' = 0.
Proof.
  destruct (Write_buffers_small getFile2 (openFile_w [x61])
              (session0 [] defaultLock) netUpload threeBytes)
    as (f' & E & P & B & F & _).
  - unfold writeHandle. vm_compute.
    repeat split; try discriminate. left. split; reflexivity.
  - reflexivity.
  - vm_compute. reflexivity.
  - exists f'. split; [exact E|]. split; [exact P|]. split; [exact B|exact F].
Defined.


Lemma install_sends_handle_packet_witness :
  (exists o,
     install_out grow8 (openFile_w [x61]) (session0 [] defaultLock) nowC4
     = Ret (o, None) /\
     cmd o = FSPCommandInstall /\
     len o = 2 /\
     regionA o = [x61; x00] /\
     (nowC4 <> 0 ->
      xlen o = 4 /\ pos o = 4 /\ regionB o = PutUint32 (uint32 nowC4)) /\
     (nowC4 = 0 -> xlen o = 0 /\ pos o = 0)) /\
  (forall r,
     install grow8 getFile2 (openFile_w [x61]) (session0 [] defaultLock)
             netUpload nowC4 = Ret r ->
     sendsOnly netUpload (frNet r)
       (fun d => b2z (nth 0 d x00) = FSPCommandUpload)).
Proof.
  apply (install_sends_handle_packet grow8 getFile2 (openFile_w [x61])
           (session0 [] defaultLock) netUpload nowC4).
  - by_compute.
  - reflexivity.
Defined.


(* ------------------------------------------------------------------ *)
(** ** GetProtecion, for every session, network and directory *)

Lemma hd_skipn_nth {A} (d : A) (n : nat) : forall l, hd d (skipn n l) = nth n l d.
Proof.
  induction n as [|n IH]; intros [|x l]; cbn [skipn nth hd]; try reflexivity.
  apply IH.
Qed.

Lemma hd_firstn {A} (d : A) (k : nat) (l : list A) :
  (0 < k)%nat -> hd d (firstn k l) = hd d l.
Proof. destruct k; [lia|]. intros _. destruct l; reflexivity. Qed.

Section ProtectionByte.
Variable growslice : nat -> nat -> nat.
Variable GetFile2 : Z.

(** C10: [GetProtecion] refuses a name that is too long, hands on the
    error of the transaction, and reports ENOMSG for a reply whose
    [pos] is not 1; for every other accepted reply it returns the byte
    [resp.buf[resp.len]], the first byte of region B, when the reply
    has [xlen >= 1], and panics with an index out of range when the
    reply has no region B, which nothing checks: on a decoded reply
    the access is in bounds exactly when [xlen >= 1], and a reply of
    twelve bytes with [pos = 1] is accepted by the transaction and
    makes the call panic. *)
Theorem GetProtecion_index_unchecked :
  (forall s n directory,
     zlen directory + zlen (password s) + 2 >= FSPSpace ->
     GetProtecion growslice GetFile2 s n directory
     = Ret (mkOp 0 s n (Some ErrFileNameTooLong))) /\
  (forall s n directory,
     zlen directory + zlen (password s) + 2 < FSPSpace ->
     exists r,
       transaction GetFile2 s
         (nameRequest growslice FSPCommandGetPro directory (password s)) n
       = Ret r /\
       GetProtecion growslice GetFile2 s n directory
       = match txErr r with
         | Some e => Ret (mkOp 0 (txSession r) (txNet r) (Some e))
         | None =>
           if negb (pos (txResp r) =? FSPProBytes)
           then Ret (mkOp 0 (txSession r) (txNet r) (Some ErrENOMSG))
           else if 1 <=? xlen (txResp r)
           then Ret (mkOp (b2z (hd x00 (regionB (txResp r))))
                          (txSession r) (txNet r) None)
           else Panic IndexOutOfRange
         end) /\
  (forall p0 D resp,
     read p0 D = (resp, None) ->
     (1 <= xlen resp /\
      index (buf resp) (len resp) =
        Ret (nth (Z.to_nat (12 + len resp)) D x00)) \/
     (xlen resp = 0 /\
      index (buf resp) (len resp) = Panic IndexOutOfRange)) /\
  (exists r,
     transaction GetFile2 (session0 [] defaultLock)
       (set_pos 0 (set_xlen 0 (set_cmd FSPCommandGetPro
          (fst (buildFileName growslice zeroPacket [] [])))))
       (netReply replyNoProtection) = Ret r /\
     txErr r = None /\ pos (txResp r) = FSPProBytes /\ xlen (txResp r) = 0) /\
  GetProtecion growslice GetFile2 (session0 [] defaultLock)
               (netReply replyNoProtection) []
  = Panic IndexOutOfRange.
Proof.
  split; [|split].
  - intros s n directory H. unfold GetProtecion.
    pose proof (proj2 (buildFileName_fails_iff growslice zeroPacket directory
                         (password s)) H) as E.
    destruct (buildFileName growslice zeroPacket directory (password s))
      as [o e]. cbn [snd] in E. rewrite E. reflexivity.
  - intros s n directory H.
    pose proof (nameRequest_sendable growslice FSPCommandGetPro directory
                  (password s) H) as S.
    destruct (transaction_returns GetFile2 s _ n S) as [r R].
    exists r. split; [exact R|].
    unfold GetProtecion.
    destruct (buildFileName_request growslice directory (password s) H)
      as (E & _).
    unfold nameRequest in R.
    destruct (buildFileName growslice zeroPacket directory (password s))
      as [o e]. cbn [fst snd] in *. rewrite E, R. cbn [bind].
    destruct (txErr r) as [e1|] eqn:X; [reflexivity|].
    destruct (negb (pos (txResp r) =? FSPProBytes)); [reflexivity|].
    destruct (transaction_accepted GetFile2 s _ n r R) as (D & p0 & Rd & _).
    { rewrite X. discriminate. }
    apply accepted_reply_shape in Rd.
    destruct Rd as (A1 & A2 & A3 & A4 & A5 & A6).
    destruct (1 <=? xlen (txResp r)) eqn:C.
    + apply Z.leb_le in C. rewrite index_ok by lia. cbn [bind].
      unfold regionB. rewrite hd_firstn by lia.
      rewrite hd_skipn_nth. reflexivity.
    + apply Z.leb_gt in C. unfold index.
      replace ((0 <=? len (txResp r))
               && (len (txResp r) <? Z.of_nat (slen (buf (txResp r)))))
        with false; [reflexivity|].
      symmetry. apply andb_false_iff. right. apply Z.ltb_ge. lia.
  - exact (GetProtecion_panic_reachable growslice GetFile2).
Qed.

End ProtectionByte.

(** The panic, with a rounding allocator, and the byte that a reply
    with a region B gives. *)
Lemma GetProtecion_index_unchecked_witness :
  GetProtecion grow8 getFile2 (session0 [] defaultLock)
               (netReply replyNoProtection) []
  = Panic IndexOutOfRange /\
  exists r,
    GetProtecion grow8 getFile2 (session0 [] defaultLock)
                 (netReply replyProtection) [] = Ret r /\
    opErr r = None /\ opVal r = 0x45.
Proof.
  destruct (GetProtecion_index_unchecked grow8 getFile2) as (_ & H & _).
  split.
  - destruct (H (session0 [] defaultLock) (netReply replyNoProtection) [])
      as (r & R & E); [by_compute|].
    rewrite E.
    assert (V : Ret r = Ret _) by (rewrite <- R; vm_compute; reflexivity).
    inversion V; subst r. reflexivity.
  - destruct (H (session0 [] defaultLock) (netReply replyProtection) [])
      as (r & R & E); [by_compute|].
    rewrite E.
    assert (V : Ret r = Ret _) by (rewrite <- R; vm_compute; reflexivity).
    inversion V; subst r. eexists. split; [reflexivity|].
    split; reflexivity.
Defined.

(* ------------------------------------------------------------------ *)
(** ** Rename, for every name, password and allocator *)

Section RenameGeneral.
Variable growslice : nat -> nat -> nat.
Variable GetFile2 : Z.

Lemma Rename_out_password_panics (s : Session) (from to : list byte) :
  password s <> [] -> to <> [] ->
  zlen from + zlen (password s) + 2 < FSPSpace ->
  zlen to + zlen (fileNamePayload from (password s)) <= FSPSpace ->
  Rename_out growslice s from to = Panic SliceBounds.
Proof.
  intros Hpw Hto Hlen Hfit. unfold Rename_out.
  assert (W0 : wfSlice (buf zeroPacket)) by (unfold wfSlice; cbn; lia).
  destruct (buildFileName_ok growslice zeroPacket from (password s) W0 Hlen)
    as (K1 & K2 & K3 & K4 & _).
  destruct (buildFileName growslice zeroPacket from (password s)) as [p1 e1].
  cbn [fst snd] in K1, K2, K3, K4. subst e1.
  change (elems (buf zeroPacket)) with (@nil byte) in K3. cbn [app] in K3.
  rewrite K4.
  replace (zlen to + zlen (fileNamePayload from (password s)) >? FSPSpace)
    with false by (symmetry; rewrite Z.gtb_ltb; apply Z.ltb_ge; lia).
  assert (L1 : Z.of_nat (slen (buf p1))
               = zlen (fileNamePayload from (password s))).
  { rewrite <- (elems_length _ K2), K3. reflexivity. }
  destruct (copyAt_ok (buf p1) (zlen (fileNamePayload from (password s))) to K2)
    as (b1 & C1 & S1 & W1 & _).
  { rewrite L1. unfold zlen. lia. }
  rewrite C1. cbn [bind].
  destruct (password s) as [|c pw] eqn:P; [contradiction|].
  cbn [len xlen buf set_buf set_xlen].
  assert (Hto' : 0 < zlen to).
  { destruct to; [contradiction|]. unfold zlen. cbn [length]. lia. }
  assert (U1 : uint16 (zlen to) = zlen to)
    by (unfold uint16; apply Z.mod_small; unfold FSPSpace in *; lia).
  rewrite K4, U1.
  assert (U2 : uint16 (zlen (fileNamePayload from (c :: pw)) + zlen to)
               = zlen (fileNamePayload from (c :: pw)) + zlen to).
  { unfold uint16. apply Z.mod_small. unfold FSPSpace, zlen in *. lia. }
  rewrite U2.
  replace (zlen (fileNamePayload from (c :: pw)) + zlen to >? FSPSpace)
    with false by (symmetry; rewrite Z.gtb_ltb; apply Z.ltb_ge; lia).
  assert (U3 : uint16 (zlen to + 1) = zlen to + 1)
    by (unfold uint16; apply Z.mod_small; unfold FSPSpace in *; lia).
  rewrite U3.
  assert (U4 : uint16 (zlen (fileNamePayload from (c :: pw)) + (zlen to + 1))
               = zlen (fileNamePayload from (c :: pw)) + (zlen to + 1)).
  { unfold uint16. apply Z.mod_small. unfold FSPSpace, zlen in *. lia. }
  rewrite U4. unfold copyAt at 1. rewrite append_slen, S1. cbn [length].
  replace ((0 <=? zlen (fileNamePayload from (c :: pw)) + (zlen to + 1))
           && (zlen (fileNamePayload from (c :: pw)) + (zlen to + 1)
               <=? Z.of_nat (slen (buf p1) + 1))) with false; [reflexivity|].
  symmetry. apply andb_false_iff. right. apply Z.leb_gt. lia.
Qed.

(** X15.  [Rename] never puts the new name on the wire.  Without a
    password, whatever the call assembles has the command RENAME, the
    old name in region A and only zero bytes in region B, so region B
    is not the new name; with a password and a new name that is not
    empty, the call panics with slice bounds out of range as soon as
    the names pass the length checks.  This holds for every
    allocator. *)
Theorem Rename_never_sends_new_name (s : Session) (n : Net)
    (from to : list byte) :
  (password s = [] ->
   forall p,
     Rename_out growslice s from to = Ret (p, None) ->
     cmd p = FSPCommandRename /\
     regionA p = fileNamePayload from [] /\
     regionB p = zeros (length (regionB p)) /\
     (forall b t, to = b :: t -> b <> x00 -> regionB p <> to ++ [x00])) /\
  (password s <> [] -> to <> [] ->
   zlen from + zlen (password s) + 2 < FSPSpace ->
   zlen to + zlen (fileNamePayload from (password s)) <= FSPSpace ->
   Rename growslice GetFile2 s n from to = Panic SliceBounds).
Proof.
  split.
  - intros Hpw p H.
    destruct (Rename_out_regionB_zero growslice s from to p Hpw H)
      as (A & B & C).
    split; [exact A|]. split; [exact B|]. split; [exact C|].
    intros b t -> Hb E. rewrite E in C. cbn in C. inversion C. congruence.
  - intros Hpw Hto Hlen Hfit. unfold Rename.
    rewrite Rename_out_password_panics by assumption. reflexivity.
Qed.

End RenameGeneral.

Lemma Rename_never_sends_new_name_witness :
  (exists p,
     Rename_out grow8 (session0 [] defaultLock) [x61] [x62] = Ret (p, None) /\
     regionB p = [x00; x00] /\ regionB p <> [x62; x00]) /\
  Rename grow8 getFile2 sessionP netSilent [x61] [x62] = Panic SliceBounds.
Proof.
  destruct (Rename_never_sends_new_name grow8 getFile2
              (session0 [] defaultLock) netSilent [x61] [x62]) as (A & _).
  destruct (Rename_never_sends_new_name grow8 getFile2 sessionP netSilent
              [x61] [x62]) as (_ & B).
  split.
  - assert (R : exists p,
               Rename_out grow8 (session0 [] defaultLock) [x61] [x62]
               = Ret (p, None) /\ regionB p = [x00; x00])
      by (eexists; split; vm_compute; reflexivity).
    destruct R as (p & R & Z). exists p. split; [exact R|].
    split; [exact Z|].
    destruct (A eq_refl p R) as (_ & _ & _ & N).
    apply (N x62 []); [reflexivity|discriminate].
  - apply B.
    + discriminate.
    + discriminate.
    + vm_compute. reflexivity.
    + vm_compute. discriminate.
Defined.

(* ------------------------------------------------------------------ *)
(** ** The first reply and the decoder's termination *)

Section FirstReply.
Variable GetFile2 : Z.

(** X16.  A transaction whose request goes out at the first attempt
    and whose first datagram read is a reply that decodes, passes the
    checks and is not an error reply returns that reply at once,
    without error, having tested the clock once and taken that one
    datagram from the socket. *)
Theorem transaction_first_valid_reply (s : Session) (pkt : fspPacket)
    (n : Net) (cl : list bool) (D d : list byte)
    (rs : list (option (list byte))) (resp : fspPacket) :
  clock n = false :: cl ->
  write_sendBuff (pktSize (trans s))
    (set_seq (Z.lor (nextBase s n) (Z.land 0 7))
             (set_key (clientGetKey s) pkt)) = Ret (inr D) ->
  match sendOk n with false :: _ => False | _ => True end ->
  reads n = Some d :: rs ->
  firstn (Z.to_nat FSPMaxPacket) d <> [] ->
  read zeroPacket (firstn (Z.to_nat FSPMaxPacket) d) = (resp, None) ->
  validReply (nextBase s n) pkt resp ->
  cmd resp <> FSPCommandErr ->
  exists r,
    transaction GetFile2 s pkt n = Ret r /\
    txResp r = resp /\ txErr r = None /\ reads (txNet r) = rs /\
    clock (txNet r) = cl.
Proof. exact (transaction_accept GetFile2 s pkt n cl D d rs resp). Qed.

End FirstReply.

(** X17.  The directory decoder terminates on every directory of a
    size that fits in memory, whatever bytes the server sent:
    [ReadNative] and [ListEntrys] return or panic, they never loop. *)
Theorem directory_decoder_terminates (d : dir) :
  0 <= dataSize d < 2 ^ 62 -> 0 <= blockSize d < 2 ^ 16 ->
  zlen (data d) < 2 ^ 62 ->
  ReadNative d <> Spin /\ ListEntrys d <> Spin.
Proof.
  intros H1 H2 H3. split.
  - apply ReadNative_no_spin; assumption.
  - apply ListEntrys_no_spin; assumption.
Qed.

(* ------------------------------------------------------------------ *)
(** ** The clock, and the loops that call [transaction] *)

Section Loops.
Variable growslice : nat -> nat -> nat.
Variable GetFile2 : Z.








End Loops.

Section Loops2.
Variable growslice : nat -> nat -> nat.
Variable GetFile2 : Z.

Lemma fold_left_keep {A B : Type} (g : A -> B -> A) (l : list B) (a : A) :
  (forall x y, g x y = x) -> fold_left g l a = a.
Proof.
  intros H. revert a. induction l as [|b l IH]; intros a; cbn [fold_left].
  - reflexivity.
  - rewrite H. apply IH.
Qed.

(** X19.  [Readdir] never returns an entry: the loop over the decoded
    entries fills a local and appends nothing, so the list handed back
    is empty whatever the server listed; the error, the session and
    the network are those [getDir] left. *)
Theorem Readdir_returns_no_entries (s : Session) (n : Net)
    (dirpath : list byte) (r : apiResult (list fileStat)) :
  Readdir growslice GetFile2 s n dirpath = Ret r ->
  apiVal r = [] /\
  exists g,
    getDir growslice GetFile2 s n dirpath = Ret g /\
    apiErr r = apiErr g /\ apiSession r = apiSession g /\
    apiNet r = apiNet g.
Proof.
  unfold Readdir.
  destruct (getDir growslice GetFile2 s n dirpath) as [g|p|]; cbn [bind];
    try discriminate.
  destruct (apiErr g) as [e|] eqn:E.
  - intros H. inversion H; subst. cbn. split; [reflexivity|].
    exists g. rewrite E. auto.
  - destruct (apiVal g) as [di|].
    + destruct (ListEntrys di) as [[di' entrys]|p|]; cbn [bind];
        try discriminate.
      intros H. inversion H; subst. cbn [apiVal apiErr apiSession apiNet].
      split.
      * apply fold_left_keep. reflexivity.
      * exists g. rewrite E. auto.
    + intros H. inversion H; subst. cbn. split; [reflexivity|].
      exists g. rewrite E. auto.
Qed.

End Loops2.

Lemma Readdir_returns_no_entries_witness :
  exists r g d,
    Readdir grow8 getFile2 (session0 [] defaultLock) netListing [x61] = Ret r /\
    apiVal r = [] /\ apiErr r = None /\
    getDir grow8 getFile2 (session0 [] defaultLock) netListing [x61] = Ret g /\
    apiVal g = Some d /\
    mapResult (fun x => map Name (snd x)) (ListEntrys d)
    = Ret [[x61]; [x73; x75; x62]].
Proof.
  assert (R : exists r,
             Readdir grow8 getFile2 (session0 [] defaultLock) netListing [x61]
             = Ret r /\ apiErr r = None).
  { eexists. split; vm_compute; reflexivity. }
  destruct R as (r & R & E).
  destruct (Readdir_returns_no_entries grow8 getFile2
              (session0 [] defaultLock) netListing [x61] r R)
    as (V & g & G & E1 & _).
  assert (D : exists d, apiVal g = Some d /\
                mapResult (fun x => map Name (snd x)) (ListEntrys d)
                = Ret [[x61]; [x73; x75; x62]]).
  { assert (X : Ret g = Ret _) by (rewrite <- G; vm_compute; reflexivity).
    inversion X; subst g. eexists. split; [reflexivity|].
    vm_compute. reflexivity. }
  destruct D as (d & D1 & D2).
  exists r, g, d.
  split; [exact R|]. split; [exact V|]. split; [exact E|].
  split; [exact G|]. split; [exact D1|exact D2].
Defined.

(* ------------------------------------------------------------------ *)
(** ** Reading from a file *)




Section Reading.
Variable GetFile2 : Z.




End Reading.


(* ------------------------------------------------------------------ *)
(** ** CanUpload *)

Section Permission.
Variable growslice : nat -> nat -> nat.
Variable GetFile2 : Z.
Variable filepathDir : list byte -> list byte.




End Permission.


Lemma transaction_first_valid_reply_witness :
  exists r,
    transaction getFile2 (session0 [] defaultLock) versionPkt
                (netReply versionReply) = Ret r /\
    txErr r = None /\ reads (txNet r) = [] /\ clock (txNet r) = [] /\
    elems (buf (txResp r)) = [x66; x73; x70; x64].
Proof.
  destruct (transaction_first_valid_reply getFile2 (session0 [] defaultLock)
              versionPkt (netReply versionReply) []
              (datagramOf 0 (set_seq 4656 (set_key 13579 versionPkt)))
              versionReply []
              (fst (read zeroPacket versionReply)))
    as (r & R & A & B & C & D).
  - reflexivity.
  - vm_compute. reflexivity.
  - exact I.
  - reflexivity.
  - vm_compute. discriminate.
  - vm_compute. reflexivity.
  - unfold validReply. split; [vm_compute; reflexivity|].
    split; [left; vm_compute; reflexivity|vm_compute; reflexivity].
  - vm_compute. discriminate.
  - exists r. split; [exact R|]. split; [exact B|]. split; [exact C|].
    split; [exact D|]. rewrite A. vm_compute. reflexivity.
Defined.

Lemma directory_decoder_terminates_witness :
  ReadNative dirTwoEntries <> Spin /\ ListEntrys dirTwoEntries <> Spin.
Proof.
  apply (directory_decoder_terminates dirTwoEntries).
  - vm_compute. split; [discriminate|reflexivity].
  - vm_compute. split; [discriminate|reflexivity].
  - vm_compute. reflexivity.
Defined.


(* ------------------------------------------------------------------ *)
(** ** The transfer counters *)

Section Counters.
Variable GetFile2 : Z.

Lemma recvLoop_trans (pkt : fspPacket) (delay : Z) :
  forall rs s resp tr,
    match recvLoop GetFile2 s pkt resp delay tr rs with
    | RecvBreak s1 _ _ _ => trans s1 = trans s
    | RecvReturn s1 resp1 e _ _ =>
      e = (if cmd resp1 =? FSPCommandErr
           then Some (ErrServer (cmd resp1) (elems (buf resp1))) else None) /\
      trans s1 =
      (if cmd resp1 =? FSPCommandErr then trans s
       else if (cmd resp1 =? FSPCommandGetFile) || (cmd resp1 =? GetFile2)
       then updateUnit (trans s) (len resp1) else trans s)
    end.
Proof.
  apply (recvLoop_cases GetFile2 pkt delay
    (fun s resp tr rs out =>
       match out with
       | RecvBreak s1 _ _ _ => trans s1 = trans s
       | RecvReturn s1 resp1 e _ _ =>
         e = (if cmd resp1 =? FSPCommandErr
              then Some (ErrServer (cmd resp1) (elems (buf resp1)))
              else None) /\
         trans s1 =
         (if cmd resp1 =? FSPCommandErr then trans s
          else if (cmd resp1 =? FSPCommandGetFile) || (cmd resp1 =? GetFile2)
          then updateUnit (trans s) (len resp1) else trans s)
       end)).
  - intros. reflexivity.
  - intros. reflexivity.
  - intros. reflexivity.
  - intros s resp tr d rs s1 buff Hne Hs IH.
    assert (T : trans s1 = trans s).
    { destruct Hs as [[_ ->]|(_ & _ & ->)]; reflexivity. }
    destruct (recvLoop GetFile2 s1 pkt (fst (read resp buff)) delay
                (EvDeadline delay :: tr) rs); rewrite <- T; exact IH.
  - intros s resp tr d rs resp1 buff Hne R V.
    destruct (cmd resp1 =? FSPCommandErr) eqn:C.
    + split; [|reflexivity]. apply Z.eqb_eq in C. rewrite C. reflexivity.
    + split; [reflexivity|].
      destruct ((cmd resp1 =? FSPCommandGetFile) || (cmd resp1 =? GetFile2));
        reflexivity.
Qed.

Lemma sendLoop_trans cl : forall s pkt resp retry delay n r,
  sendLoop GetFile2 s pkt resp retry delay n cl = Ret r ->
  trans (txSession r) =
  match txErr r with
  | None =>
    if (cmd (txResp r) =? FSPCommandGetFile) || (cmd (txResp r) =? GetFile2)
    then updateUnit (trans s) (len (txResp r)) else trans s
  | Some _ => trans s
  end.
Proof.
  apply (sendLoop_cases GetFile2
    (fun s pkt resp retry delay n cl out =>
       forall r, out = Ret r ->
       trans (txSession r) =
       match txErr r with
       | None =>
         if (cmd (txResp r) =? FSPCommandGetFile)
            || (cmd (txResp r) =? GetFile2)
         then updateUnit (trans s) (len (txResp r)) else trans s
       | Some _ => trans s
       end)).
  - intros s pkt resp retry delay n r H. inversion H; subst. reflexivity.
  - intros s pkt resp retry delay n cl0 r H. inversion H; subst. reflexivity.
  - intros. discriminate.
  - intros s pkt resp retry delay n cl0 e n1 pkt1 n2 retry1 delay1 W IH r H.
    exact (IH r H).
  - intros s pkt resp retry delay n cl0 n1 s1 resp1 rs1 tr1 pkt1 delay1 n2
      W R IH r H.
    pose proof (recvLoop_trans pkt1 delay1 (reads n1) s resp (trace n1)) as T.
    rewrite R in T. rewrite (IH r H), T. reflexivity.
  - intros s pkt resp retry delay n cl0 n1 s1 resp1 e1 rs1 tr1 pkt1 delay1
      W R r H.
    pose proof (recvLoop_trans pkt1 delay1 (reads n1) s resp (trace n1)) as T.
    rewrite R in T. destruct T as [T1 T2].
    inversion H; subst r. cbn [txSession txErr txResp]. rewrite T1, T2.
    destruct (cmd resp1 =? FSPCommandErr); reflexivity.
Qed.

(** X22.  Only an accepted reply to GET_FILE moves the transfer
    counters: a transaction that ends without error on a reply whose
    command is GET_FILE (or the constant [FSPCommandGetFile2]) adds
    the length of region A to the bytes done and one to the count;
    every other transaction, failed or not, leaves the counters as
    they were.  The packet size is never touched. *)
Theorem transaction_transfer_counters (s : Session) (pkt : fspPacket)
    (n : Net) (r : txResult) :
  transaction GetFile2 s pkt n = Ret r ->
  pktSize (trans (txSession r)) = pktSize (trans s) /\
  totalSize (trans (txSession r)) = totalSize (trans s) /\
  if match txErr r with None => true | Some _ => false end
     && ((cmd (txResp r) =? FSPCommandGetFile) || (cmd (txResp r) =? GetFile2))
  then doneSize (trans (txSession r))
       = int64 (doneSize (trans s) + len (txResp r)) /\
       currDoneSize (trans (txSession r))
       = int64 (currDoneSize (trans s) + len (txResp r)) /\
       currCount (trans (txSession r)) = int64 (currCount (trans s) + 1)
  else trans (txSession r) = trans s.
Proof.
  unfold transaction. destruct (randUint16 n) as [rd n1]. intros H.
  apply sendLoop_trans in H.
  assert (T : trans (if sseq s =? Z.land rd 65528
                     then set_sseq (Z.lxor (sseq s) 4224) s
                     else set_sseq (Z.land rd 65528) s) = trans s)
    by (destruct (sseq s =? Z.land rd 65528); reflexivity).
  rewrite T in H. rewrite H.
  destruct (txErr r); cbn [andb].
  - auto.
  - destruct ((cmd (txResp r) =? FSPCommandGetFile)
              || (cmd (txResp r) =? GetFile2)).
    + unfold updateUnit. cbn. auto.
    + auto.
Qed.

End Counters.

Lemma transaction_transfer_counters_witness :
  exists r,
    transaction getFile2 (session0 [] defaultLock) (out handleRead)
                netDownload = Ret r /\
    txErr r = None /\
    doneSize (trans (txSession r)) = 3 /\
    currCount (trans (txSession r)) = 1.
Proof.
  assert (R : exists r,
             transaction getFile2 (session0 [] defaultLock) (out handleRead)
                         netDownload = Ret r /\
             txErr r = None /\ cmd (txResp r) = FSPCommandGetFile /\
             len (txResp r) = 3).
  { eexists. split; [vm_compute; reflexivity|].
    split; [vm_compute; reflexivity|].
    split; vm_compute; reflexivity. }
  destruct R as (r & R & E & C & L).
  destruct (transaction_transfer_counters getFile2 (session0 [] defaultLock)
              (out handleRead) netDownload r R) as (_ & _ & A).
  rewrite E, C, L in A. cbn [andb] in A.
  change (FSPCommandGetFile =? FSPCommandGetFile) with true in A.
  cbn [orb] in A. destruct A as (A1 & _ & A3).
  exists r. split; [exact R|]. split; [exact E|].
  split; [rewrite A1|rewrite A3]; vm_compute; reflexivity.
Defined.

(* ------------------------------------------------------------------ *)
(** ** Opening a file *)

Lemma bytes_eqb_eq (a b : list byte) : bytes_eqb a b = true <-> a = b.
Proof.
  revert b. induction a as [|x a IH]; intros [|y b]; cbn [bytes_eqb];
    try (split; [discriminate|discriminate]);
    try (split; reflexivity).
  rewrite andb_true_iff, IH. split.
  - intros [H1 H2]. apply Byte.byte_dec_bl in H1. congruence.
  - intros H. inversion H; subst. split; [apply Byte.byte_dec_lb|];
      reflexivity.
Qed.

Section Opening.
Variable growslice : nat -> nat -> nat.

(** X23.  [openFile]: an empty name or mode is an invalid parameter; a
    mode that does not start with [r] or [w], or that goes on with [+]
    or [b+], is not supported; opening for reading builds the GET_FILE
    request at once, so a name too long for a packet is refused here,
    and otherwise the handle carries the name (and password) in
    region A, expects two bytes in region B and starts at position 0;
    opening for writing checks nothing about the name, however long
    it is. *)
Theorem openFile_modes (s : Session) (remoteFile mode : list byte) :
  (remoteFile = [] \/ mode = [] ->
   openFile growslice s remoteFile mode = (None, Some ErrInvalidParam)) /\
  (forall m rest,
     remoteFile <> [] -> mode = m :: rest ->
     (m <> x72 /\ m <> x77) \/ rest = [x2b] \/ rest = [x62; x2b] ->
     openFile growslice s remoteFile mode = (None, Some ErrNotSupport)) /\
  (forall rest,
     remoteFile <> [] -> mode = x72 :: rest ->
     rest <> [x2b] -> rest <> [x62; x2b] ->
     (zlen remoteFile + zlen (password s) + 2 >= FSPSpace ->
      openFile growslice s remoteFile mode
      = (None, Some (OfPacket ErrFileNameTooLong))) /\
     (zlen remoteFile + zlen (password s) + 2 < FSPSpace ->
      exists f,
        openFile growslice s remoteFile mode = (Some f, None) /\
        name f = remoteFile /\ writing f = false /\ eof f = false /\
        fpos f = 0 /\ buffPos f = FSPSpace /\
        cmd (out f) = FSPCommandGetFile /\ pos (out f) = 0 /\
        xlen (out f) = 2 /\
        regionA (out f) = fileNamePayload remoteFile (password s))) /\
  (forall rest,
     remoteFile <> [] -> mode = x77 :: rest ->
     rest <> [x2b] -> rest <> [x62; x2b] ->
     openFile growslice s remoteFile mode
     = (Some (openFile_w remoteFile), None)).
Proof.
  assert (NE : forall rest, rest <> [x2b] -> rest <> [x62; x2b] ->
               bytes_eqb rest [x2b] || bytes_eqb rest [x62; x2b] = false).
  { intros rest H1 H2. apply orb_false_iff. split.
    - destruct (bytes_eqb rest [x2b]) eqn:E; [|reflexivity].
      apply bytes_eqb_eq in E. contradiction.
    - destruct (bytes_eqb rest [x62; x2b]) eqn:E; [|reflexivity].
      apply bytes_eqb_eq in E. contradiction. }
  split; [|split; [|split]].
  - intros [->| ->]; [reflexivity|]. destruct remoteFile; reflexivity.
  - intros m rest Hr -> H. destruct remoteFile as [|b t]; [contradiction|].
    unfold openFile.
    destruct (b2z m =? 114) eqn:M1.
    { apply Z.eqb_eq in M1.
      assert (m = x72) by (rewrite <- (z2b_b2z m), M1; reflexivity).
      destruct H as [[H _]|H]; [contradiction|].
      replace (bytes_eqb rest [x2b] || bytes_eqb rest [x62; x2b]) with true;
        [reflexivity|].
      symmetry. apply orb_true_iff.
      destruct H as [-> | ->]; [left|right]; reflexivity. }
    destruct (b2z m =? 119) eqn:M2; [|reflexivity].
    apply Z.eqb_eq in M2.
    assert (m = x77) by (rewrite <- (z2b_b2z m), M2; reflexivity).
    destruct H as [[_ H]|H]; [contradiction|].
    replace (bytes_eqb rest [x2b] || bytes_eqb rest [x62; x2b]) with true;
      [reflexivity|].
    symmetry. apply orb_true_iff.
    destruct H as [-> | ->]; [left|right]; reflexivity.
  - intros rest Hr -> H1 H2. destruct remoteFile as [|b t]; [contradiction|].
    unfold openFile. change (b2z x72 =? 114) with true. cbv iota.
    rewrite (NE rest H1 H2).
    cbn [writing out set_out set_xlen].
    split.
    + intros L.
      assert (F : buildFileName growslice (set_xlen 0 zeroPacket) (b :: t)
                    (password s)
                  = (set_xlen 0 zeroPacket, Some ErrFileNameTooLong)).
      { unfold buildFileName.
        replace (zlen (b :: t) + zlen (password s) + 2 >=? FSPSpace) with true;
          [reflexivity|].
        symmetry. rewrite Z.geb_leb. apply Z.leb_le. lia. }
      change (mkPacket (cmd zeroPacket) (sum zeroPacket) (key zeroPacket)
                (seq zeroPacket) (len zeroPacket) (pos zeroPacket) 0
                (buf zeroPacket)) with (set_xlen 0 zeroPacket).
      rewrite F. reflexivity.
    + intros L.
      assert (W0 : wfSlice (buf (set_xlen 0 zeroPacket)))
        by (unfold wfSlice; cbn; lia).
      destruct (buildFileName_ok growslice (set_xlen 0 zeroPacket) (b :: t)
                  (password s) W0) as (K1 & K2 & K3 & K4 & K5 & K6 & K7 & K8 & K9);
        [unfold FSPSpace in L; lia|].
      change (mkPacket (cmd zeroPacket) (sum zeroPacket) (key zeroPacket)
                (seq zeroPacket) (len zeroPacket) (pos zeroPacket) 0
                (buf zeroPacket)) with (set_xlen 0 zeroPacket).
      destruct (buildFileName growslice (set_xlen 0 zeroPacket) (b :: t)
                  (password s)) as [o e]. cbn [fst snd] in *. subst e.
      eexists. split; [reflexivity|].
      cbn [name writing eof fpos buffPos out set_buffPos set_out cmd pos xlen
           set_xlen set_cmd].
      repeat split; try reflexivity; try assumption.
      unfold regionA. cbn [len buf set_xlen set_cmd]. rewrite K4.
      change (elems (buf (set_xlen 0 zeroPacket))) with (@nil byte) in K3.
      cbn [app] in K3. rewrite <- K3 at 2. unfold elems. f_equal.
      unfold zlen. rewrite Nat2Z.id, <- K3.
      apply elems_length. exact K2.
  - intros rest Hr -> H1 H2. destruct remoteFile as [|b t]; [contradiction|].
    unfold openFile. change (b2z x77 =? 114) with false.
    change (b2z x77 =? 119) with true. cbv iota.
    rewrite (NE rest H1 H2). reflexivity.
Qed.

End Opening.

Lemma openFile_modes_witness :
  openFile grow8 sessionP [] [x72] = (None, Some ErrInvalidParam) /\
  openFile grow8 sessionP [x61] [x61] = (None, Some ErrNotSupport) /\
  openFile grow8 sessionP [x61] [x72; x2b] = (None, Some ErrNotSupport) /\
  openFile grow8 sessionP longName [x72; x62]
  = (None, Some (OfPacket ErrFileNameTooLong)) /\
  (exists f,
     openFile grow8 sessionP [x61] [x72; x62] = (Some f, None) /\
     regionA (out f) = [x61; x0a; x70; x00]) /\
  openFile grow8 sessionP longName [x77; x62]
  = (Some (openFile_w longName), None).
Proof.
  destruct (openFile_modes grow8 sessionP [] [x72]) as (A & _).
  destruct (openFile_modes grow8 sessionP [x61] [x61]) as (_ & B & _).
  destruct (openFile_modes grow8 sessionP [x61] [x72; x2b]) as (_ & C & _).
  destruct (openFile_modes grow8 sessionP longName [x72; x62])
    as (_ & _ & D & _).
  destruct (openFile_modes grow8 sessionP [x61] [x72; x62])
    as (_ & _ & E & _).
  destruct (openFile_modes grow8 sessionP longName [x77; x62])
    as (_ & _ & _ & F).
  split; [apply A; left; reflexivity|].
  split; [apply (B x61 []); [discriminate|reflexivity|
                             left; split; discriminate]|].
  split; [apply (C x72 [x2b]); [discriminate|reflexivity|
                                right; left; reflexivity]|].
  split.
  { destruct (D [x62]) as (D1 & _);
      [discriminate|reflexivity|discriminate|discriminate|].
    apply D1. vm_compute. discriminate. }
  split.
  { destruct (E [x62]) as (_ & E2);
      [discriminate|reflexivity|discriminate|discriminate|].
    destruct E2 as (f & O & _ & _ & _ & _ & _ & _ & _ & _ & R);
      [vm_compute; reflexivity|].
    exists f. split; [exact O|]. rewrite R. reflexivity. }
  apply (F [x62]); [discriminate|reflexivity|discriminate|discriminate].
Defined.
